(** * BizNode registry: trust engine, node registry, event listener, DNS resolver

    A shallow embedding of [registry/trust_engine.py], [registry/models.py],
    [registry/main.py], [registry/event_listener.py] and
    [registry/dns_resolver.py].

    Conventions of the embedding:
    - Python floats are idealised as real numbers ([R]); [math.log1p x] is
      [ln (1 + x)] and raises [ValueError] for [x <= -1]; [round(x, 2)] is
      rounding of [x * 100] to the nearest integer, ties to even. The reals
      have neither the rounding error nor the largest value of a double:
      an int converts to the real it is, where [float(n)] raises
      [OverflowError] from [2^1024 - 2^970] on. Statements about
      [compute_trust_score] at arbitrary int arguments are therefore made
      for the arguments that convert ([ints_convert]), and statements that
      relate the returned score to an exact value leave room for the
      rounding of the double that the code rounds.
    - Python ints are [Z]; the decimal string held in [stake_wei] is the
      natural number it spells, and the two counters of a row, which start
      at 0 and are only ever incremented, are natural numbers.
    - A raised exception is the [Raise] branch of [result]; a call that
      writes the table leaves an [outcome]: what it committed, and its value
      or its exception.
    - The [nodes] table is a finite map from the primary key [node_hash] to
      its row; the UNIQUE columns [node_id] and [dns_name] are checked when
      a row is inserted or its [node_id] is assigned. A commit that fails
      leaves the table as it was.
    - [datetime.utcnow()] is an argument [now] and a [datetime] is the
      number of its seconds; log records are kept for the event handlers
      and the polling loop, whose behaviour on an unknown node is stated in
      terms of them.
    - One pass of the polling loop uses one [Session] for all its handlers
      and never rolls it back: once a commit has failed in a pass, every
      later query of that pass raises [PendingRollbackError]. *)

From Stdlib Require Import Reals Lra Lia ZArith NArith List Ascii String.
From Stdlib.Strings Require Import Byte.
From stdpp Require Import gmap strings.

(** ** Exceptions *)

Inductive exn : Type :=
| ValueError
| OverflowError
| OSError
| IntegrityError
| ConnectionError
| KeyError
| HTTPException (status_code : Z).

Inductive result (A : Type) : Type :=
| Ok (a : A)
| Raise (e : exn).
Arguments Ok {A} a.
Arguments Raise {A} e.

Definition bind {A B : Type} (m : result A) (k : A -> result B) : result B :=
  match m with
  | Ok a => k a
  | Raise e => Raise e
  end.

Notation "x <- m ;;; k" := (bind m (fun x => k))
  (at level 100, m at next level, right associativity).

(** ** registry/trust_engine.py *)

Module TrustEngine.
Local Open Scope R_scope.

Inductive tier : Type := UNVERIFIED | VERIFIED | TRUSTED | ENTERPRISE.

Definition STAKE_WEIGHT : R := 30.
Definition UPTIME_WEIGHT : R := 25.
Definition AI_QUALITY_WEIGHT : R := 20.
Definition ENDORSEMENT_WEIGHT : R := 15.
Definition COMPLAINT_PENALTY : R := 10.
Definition VERIFIED_BONUS : R := 10.
Definition MAX_STAKE_MATIC : R := 1000.

Record TrustInputs : Type := mkTrustInputs {
  stake_matic : R;
  uptime_ratio : R;
  ai_quality_score : R;
  endorsement_count : Z;
  complaint_count : Z;
  total_interactions : Z;
  verified : bool
}.

(** [math.log1p]: a domain error at and below [-1]. *)
Definition log1p (x : R) : result R :=
  if Rle_dec x (-1) then Raise ValueError else Ok (ln (1 + x)).

(** [x >= y] on floats, as a boolean. *)
Definition Rgeb (x y : R) : bool := if Rle_dec y x then true else false.

(** [round(y)] to an integer, ties to even. *)
Definition round_half_even (y : R) : Z :=
  let f := Int_part y in
  let d := y - IZR f in
  if Rlt_dec d (1 / 2) then f
  else if Rlt_dec (1 / 2) d then (f + 1)%Z
  else if Z.even f then f else (f + 1)%Z.

(** [round(x, 2)]. *)
Definition round2 (x : R) : R := IZR (round_half_even (x * 100)) / 100.

Definition _score_to_tier (score : R) (verified : bool) : tier :=
  if Rgeb score 90 then ENTERPRISE
  else if Rgeb score 70 then TRUSTED
  else if Rgeb score 40 && verified then VERIFIED
  else UNVERIFIED.

(** Lines 59-93 of [compute_trust_score]: the clamped, unrounded score. *)
Definition raw_score (inputs : TrustInputs) : result R :=
  stake_norm <-
    (if Rlt_dec 0 (stake_matic inputs)
     then a <- log1p (stake_matic inputs) ;;;
          b <- log1p MAX_STAKE_MATIC ;;;
          Ok (Rmin (a / b) 1)
     else Ok 0) ;;;
  let uptime_norm := Rmax 0 (Rmin 1 (uptime_ratio inputs)) in
  let ai_norm := Rmax 0 (Rmin 1 (ai_quality_score inputs)) in
  endorsement_norm <-
    (a <- log1p (IZR (endorsement_count inputs)) ;;;
     b <- log1p 100 ;;;
     Ok (Rmin (a / b) 1)) ;;;
  let complaint_ratio :=
    if (0 <? total_interactions inputs)%Z
    then IZR (complaint_count inputs) / IZR (total_interactions inputs)
    else 0 in
  let complaint_penalty :=
    Rmin (complaint_ratio * COMPLAINT_PENALTY) COMPLAINT_PENALTY in
  let verified_bonus := if verified inputs then VERIFIED_BONUS else 0 in
  let score :=
    stake_norm * STAKE_WEIGHT
    + uptime_norm * UPTIME_WEIGHT
    + ai_norm * AI_QUALITY_WEIGHT
    + endorsement_norm * ENDORSEMENT_WEIGHT
    - complaint_penalty
    + verified_bonus in
  Ok (Rmax 0 (Rmin 100 score)).

(** Lines 95-105: the tier is taken from the unrounded score, the returned
    score is rounded to two decimals. *)
Definition compute_trust_score (inputs : TrustInputs) : result (R * tier) :=
  score <- raw_score inputs ;;;
  let tier := _score_to_tier score (verified inputs) in
  Ok (round2 score, tier).

(** The ints that convert to a float. An int of magnitude [2^1024 - 2^970]
    or more rounds to [2^1024], which no double holds: [float(n)], and with
    it [math.log1p(n)], raises [OverflowError], and so does a true division
    of two ints whose quotient is that large. *)
Definition FLOAT_OVERFLOW : Z := 2 ^ 1024 - 2 ^ 970.

(** The int arguments at which [compute_trust_score] meets no such
    [OverflowError]: [math.log1p(endorsement_count)] converts its argument,
    and [complaint_count / total_interactions] is taken when
    [total_interactions > 0]. *)
Definition ints_convert (i : TrustInputs) : Prop :=
  (Z.abs (endorsement_count i) < FLOAT_OVERFLOW)%Z
  /\ ((0 < total_interactions i)%Z ->
      (Z.abs (complaint_count i) < FLOAT_OVERFLOW * total_interactions i)%Z).

(** The reference formula, following the specification's words. *)
Definition clamp (x lo hi : R) : R := Rmax lo (Rmin hi x).

Definition spec_score (stake uptime ai : R) (endorsements complaints total : Z)
    (verified : bool) : R :=
  let stake_norm := Rmin (ln (1 + stake) / ln (1 + 1000)) 1 in
  let uptime_norm := clamp uptime 0 1 in
  let ai_norm := clamp ai 0 1 in
  let endorsement_norm := Rmin (ln (1 + IZR endorsements) / ln (1 + 100)) 1 in
  let complaint_ratio := IZR complaints / IZR (Z.max total 1) in
  let complaint_penalty := Rmin complaint_ratio 1 * 10 in
  let verified_bonus := if verified then 10 else 0 in
  clamp (stake_norm * 30 + uptime_norm * 25 + ai_norm * 20
         + endorsement_norm * 15 - complaint_penalty + verified_bonus) 0 100.


(** The inputs at which the code and the reference formula are compared:
    a stake at or below zero counts as zero, and complaints count only
    when [total_interactions] is positive. *)
Definition guarded_stake (i : TrustInputs) : R := Rmax (stake_matic i) 0.

Definition guarded_complaints (i : TrustInputs) : Z :=
  if (0 <? total_interactions i)%Z then complaint_count i else 0%Z.

Definition guarded_spec_score (i : TrustInputs) : R :=
  spec_score (guarded_stake i) (uptime_ratio i) (ai_quality_score i)
    (endorsement_count i) (guarded_complaints i) (total_interactions i)
    (verified i).

End TrustEngine.

(** ** Byte strings: [bytes.hex()] and [bytes.fromhex] *)

Module Bytes.

Definition hex_digit (n : N) : ascii :=
  match n with
  | 0%N => "0" | 1%N => "1" | 2%N => "2" | 3%N => "3"
  | 4%N => "4" | 5%N => "5" | 6%N => "6" | 7%N => "7"
  | 8%N => "8" | 9%N => "9" | 10%N => "a" | 11%N => "b"
  | 12%N => "c" | 13%N => "d" | 14%N => "e" | _ => "f"
  end%char.

Definition hex_value (c : ascii) : option N :=
  let n := N_of_ascii c in
  if (48 <=? n)%N && (n <=? 57)%N then Some (n - 48)%N
  else if (97 <=? n)%N && (n <=? 102)%N then Some (n - 87)%N
  else if (65 <=? n)%N && (n <=? 70)%N then Some (n - 55)%N
  else None.

(** [bs.hex()]: two lower-case digits per byte. *)
Fixpoint hex (bs : list Byte.byte) : string :=
  match bs with
  | [] => EmptyString
  | b :: rest =>
      let n := Byte.to_N b in
      String (hex_digit (n / 16)) (String (hex_digit (n mod 16)) (hex rest))
  end.

(** [bytes.fromhex(s)]: [ValueError] on an odd length or a non-hex digit. *)
Fixpoint fromhex (s : string) : result (list Byte.byte) :=
  match s with
  | EmptyString => Ok []
  | String hi (String lo rest) =>
      match hex_value hi, hex_value lo with
      | Some h, Some l =>
          match Byte.of_N (h * 16 + l) with
          | Some b => rest' <- fromhex rest ;;; Ok (b :: rest')
          | None => Raise ValueError
          end
      | _, _ => Raise ValueError
      end
  | String _ EmptyString => Raise ValueError
  end.

(** [s[2:]]. *)
Definition drop2 (s : string) : string :=
  match s with
  | String _ (String _ rest) => rest
  | _ => EmptyString
  end.

Definition eqb (a b : list Byte.byte) : bool :=
  if List.list_eq_dec Byte.byte_eq_dec a b then true else false.

(** [b"\x00" * 32]. *)
Definition zero32 : list Byte.byte := repeat Byte.x00 32.

End Bytes.

(** ** registry/models.py *)

Module Models.
Import TrustEngine.

(** The columns of [nodes], but for the two timestamps [created_at] and
    [updated_at], which the ORM maintains and nothing reads. *)
Record NodeRecord : Type := mkNodeRecord {
  node_hash : string;
  node_id : string;
  public_key : option string;
  wallet : option string;
  dns_name : option string;
  verified : bool;
  stake_wei : N;
  registered_at : option Z;
  trust_score : R;
  uptime_score : R;
  ai_quality_score : R;
  complaint_count : N;
  endorsement_count : N;
  trust_tier : tier;
  ip_address : option string;
  last_seen : option Z;
  active : bool
}.

(** Attribute assignments. *)
Definition set_node_id (v : string) (n : NodeRecord) : NodeRecord :=
  mkNodeRecord (node_hash n) v (public_key n) (wallet n) (dns_name n)
    (verified n) (stake_wei n) (registered_at n) (trust_score n)
    (uptime_score n) (ai_quality_score n) (complaint_count n)
    (endorsement_count n) (trust_tier n) (ip_address n) (last_seen n)
    (active n).

Definition set_public_key (v : option string) (n : NodeRecord) : NodeRecord :=
  mkNodeRecord (node_hash n) (node_id n) v (wallet n) (dns_name n)
    (verified n) (stake_wei n) (registered_at n) (trust_score n)
    (uptime_score n) (ai_quality_score n) (complaint_count n)
    (endorsement_count n) (trust_tier n) (ip_address n) (last_seen n)
    (active n).

Definition set_verified (v : bool) (n : NodeRecord) : NodeRecord :=
  mkNodeRecord (node_hash n) (node_id n) (public_key n) (wallet n) (dns_name n)
    v (stake_wei n) (registered_at n) (trust_score n)
    (uptime_score n) (ai_quality_score n) (complaint_count n)
    (endorsement_count n) (trust_tier n) (ip_address n) (last_seen n)
    (active n).

Definition set_stake_wei (v : N) (n : NodeRecord) : NodeRecord :=
  mkNodeRecord (node_hash n) (node_id n) (public_key n) (wallet n) (dns_name n)
    (verified n) v (registered_at n) (trust_score n)
    (uptime_score n) (ai_quality_score n) (complaint_count n)
    (endorsement_count n) (trust_tier n) (ip_address n) (last_seen n)
    (active n).

Definition set_trust (s : R) (t : tier) (n : NodeRecord) : NodeRecord :=
  mkNodeRecord (node_hash n) (node_id n) (public_key n) (wallet n) (dns_name n)
    (verified n) (stake_wei n) (registered_at n) s
    (uptime_score n) (ai_quality_score n) (complaint_count n)
    (endorsement_count n) t (ip_address n) (last_seen n)
    (active n).

Definition set_uptime_score (v : R) (n : NodeRecord) : NodeRecord :=
  mkNodeRecord (node_hash n) (node_id n) (public_key n) (wallet n) (dns_name n)
    (verified n) (stake_wei n) (registered_at n) (trust_score n)
    v (ai_quality_score n) (complaint_count n)
    (endorsement_count n) (trust_tier n) (ip_address n) (last_seen n)
    (active n).

Definition set_complaint_count (v : N) (n : NodeRecord) : NodeRecord :=
  mkNodeRecord (node_hash n) (node_id n) (public_key n) (wallet n) (dns_name n)
    (verified n) (stake_wei n) (registered_at n) (trust_score n)
    (uptime_score n) (ai_quality_score n) v
    (endorsement_count n) (trust_tier n) (ip_address n) (last_seen n)
    (active n).

Definition set_endorsement_count (v : N) (n : NodeRecord) : NodeRecord :=
  mkNodeRecord (node_hash n) (node_id n) (public_key n) (wallet n) (dns_name n)
    (verified n) (stake_wei n) (registered_at n) (trust_score n)
    (uptime_score n) (ai_quality_score n) (complaint_count n)
    v (trust_tier n) (ip_address n) (last_seen n)
    (active n).

Definition set_ip_address (v : option string) (n : NodeRecord) : NodeRecord :=
  mkNodeRecord (node_hash n) (node_id n) (public_key n) (wallet n) (dns_name n)
    (verified n) (stake_wei n) (registered_at n) (trust_score n)
    (uptime_score n) (ai_quality_score n) (complaint_count n)
    (endorsement_count n) (trust_tier n) v (last_seen n)
    (active n).

Definition set_last_seen (v : option Z) (n : NodeRecord) : NodeRecord :=
  mkNodeRecord (node_hash n) (node_id n) (public_key n) (wallet n) (dns_name n)
    (verified n) (stake_wei n) (registered_at n) (trust_score n)
    (uptime_score n) (ai_quality_score n) (complaint_count n)
    (endorsement_count n) (trust_tier n) (ip_address n) v
    (active n).

Definition set_active (v : bool) (n : NodeRecord) : NodeRecord :=
  mkNodeRecord (node_hash n) (node_id n) (public_key n) (wallet n) (dns_name n)
    (verified n) (stake_wei n) (registered_at n) (trust_score n)
    (uptime_score n) (ai_quality_score n) (complaint_count n)
    (endorsement_count n) (trust_tier n) (ip_address n) (last_seen n)
    v.

(** [NodeRecord.to_dict]: the twelve keys it exports ([public_key] is not
    among them). *)
Record NodeDict : Type := mkNodeDict {
  d_node_hash : string;
  d_node_id : string;
  d_wallet : option string;
  d_dns_name : option string;
  d_verified : bool;
  d_stake_wei : N;
  d_trust_score : R;
  d_trust_tier : tier;
  d_ip_address : option string;
  d_last_seen : option Z;
  d_registered_at : option Z;
  d_active : bool
}.

Definition to_dict (n : NodeRecord) : NodeDict :=
  mkNodeDict (node_hash n) (node_id n) (wallet n) (dns_name n) (verified n)
    (stake_wei n) (trust_score n) (trust_tier n) (ip_address n) (last_seen n)
    (registered_at n) (active n).

(** *** The [nodes] table *)

Abbreviation table := (gmap string NodeRecord).

(** Two values of a nullable UNIQUE column collide when both are non-NULL
    and equal. *)
Definition same_dns (a b : option string) : bool :=
  match a, b with
  | Some x, Some y => String.eqb x y
  | _, _ => false
  end.

(** Some other row already holds [n]'s [node_id] or [dns_name]. *)
Definition unique_violation (db : table) (n : NodeRecord) : bool :=
  existsb
    (fun kv : string * NodeRecord =>
       negb (String.eqb (fst kv) (node_hash n))
       && (String.eqb (node_id (snd kv)) (node_id n)
           || same_dns (dns_name (snd kv)) (dns_name n)))
    (map_to_list db).

(** The same, as a proposition: no other row holds [n]'s [node_id] or
    [dns_name]. *)
Definition unique_in (db : table) (n : NodeRecord) : Prop :=
  forall (h : string) (r : NodeRecord),
    db !! h = Some r -> h <> node_hash n ->
    node_id r <> node_id n /\ same_dns (dns_name r) (dns_name n) = false.

(** [db.add(node); db.commit()]: INSERT. *)
Definition insert_row (db : table) (n : NodeRecord) : result table :=
  match db !! node_hash n with
  | Some _ => Raise IntegrityError
  | None =>
      if unique_violation db n then Raise IntegrityError
      else Ok (<[node_hash n := n]> db)
  end.

(** [db.commit()] after assignments that may touch a UNIQUE column. *)
Definition update_row (db : table) (n : NodeRecord) : result table :=
  if unique_violation db n then Raise IntegrityError
  else Ok (<[node_hash n := n]> db).

(** [db.commit()] after assignments to unconstrained columns only. *)
Definition store_row (db : table) (n : NodeRecord) : table :=
  <[node_hash n := n]> db.

End Models.

(** ** Calls that read and write the table *)

(** What a call leaves behind: the committed table together with either the
    returned value or the exception that escaped. *)
Inductive outcome (A : Type) : Type :=
| Returned (db : Models.table) (a : A)
| Raised (db : Models.table) (e : exn).
Arguments Returned {A} db a.
Arguments Raised {A} db e.

Definition committed {A : Type} (o : outcome A) : Models.table :=
  match o with
  | Returned db _ => db
  | Raised db _ => db
  end.

(** ** [update_node_trust] (registry/trust_engine.py, lines 118-153) *)

Module TrustUpdate.
Import TrustEngine Models.
Local Open Scope R_scope.

(** [float(Web3.from_wei(int(node.stake_wei or 0), "ether"))]. *)
Definition stake_matic_of (wei : N) : R := IZR (Z.of_N wei) / 10 ^ 18.

Definition inputs_of (node : NodeRecord) : TrustInputs :=
  mkTrustInputs
    (stake_matic_of (stake_wei node))
    (uptime_score node)
    (Models.ai_quality_score node)
    (Z.of_N (Models.endorsement_count node))
    (Z.of_N (Models.complaint_count node))
    (Z.max 1 (Z.of_N (Models.endorsement_count node)
              + Z.of_N (Models.complaint_count node)))
    (Models.verified node).

(** The stored score and tier are those the scoring function gives for the
    row's current signals. *)
Definition consistent (node : NodeRecord) : Prop :=
  compute_trust_score (inputs_of node)
  = Ok (Models.trust_score node, Models.trust_tier node).

Definition update_node_trust (db : table) (node_hash : string)
    : outcome (R * tier) :=
  match db !! node_hash with
  | None => Raised db ValueError
  | Some node =>
      match compute_trust_score (inputs_of node) with
      | Raise e => Raised db e
      | Ok (score, tier) =>
          Returned (<[node_hash := set_trust score tier node]> db) (score, tier)
      end
  end.

End TrustUpdate.

(** ** registry/main.py *)

Module Main.
Import TrustEngine Models TrustUpdate.
Local Open Scope R_scope.

Record NodeRegisterRequest : Type := mkNodeRegisterRequest {
  req_node_hash : string;
  req_node_id : string;
  req_public_key : option string;
  req_wallet : option string;
  req_dns_name : option string;
  req_ip_address : option string
}.

(** Truth value of a [str] and of an [Optional[str]]. *)
Definition truthy_str (s : string) : bool := negb (String.eqb s "").

Definition truthy (o : option string) : bool :=
  match o with
  | Some s => truthy_str s
  | None => false
  end.

Inductive register_status : Type := updated | registered.

(** The row [NodeRecord(node_hash=..., node_id=..., ...)] of [register_node],
    the other columns at their defaults. *)
Definition new_node (req : NodeRegisterRequest) (now : Z) : NodeRecord :=
  mkNodeRecord (req_node_hash req) (req_node_id req) (req_public_key req)
    (req_wallet req) (req_dns_name req)
    false 0%N None 0 0 0 0%N 0%N UNVERIFIED
    (req_ip_address req) (Some now) true.

Definition register_node (req : NodeRegisterRequest) (now : Z) (db : table)
    : outcome register_status :=
  match db !! req_node_hash req with
  | Some existing =>
      let existing :=
        if truthy (req_public_key req)
        then set_public_key (req_public_key req) existing else existing in
      let existing :=
        if truthy (req_ip_address req)
        then set_ip_address (req_ip_address req) existing else existing in
      let existing :=
        if truthy_str (req_node_id req)
        then set_node_id (req_node_id req) existing else existing in
      let existing := set_last_seen (Some now) existing in
      match update_row db existing with
      | Ok db' => Returned db' updated
      | Raise e => Raised db e
      end
  | None =>
      match insert_row db (new_node req now) with
      | Ok db' => Returned db' registered
      | Raise e => Raised db e
      end
  end.

Definition heartbeat (node_hash : string) (req_ip : option string) (now : Z)
    (db : table) : outcome Z :=
  match db !! node_hash with
  | None => Raised db (HTTPException 404)
  | Some node =>
      let node := set_last_seen (Some now) node in
      let node := if truthy req_ip then set_ip_address req_ip node else node in
      let node := set_uptime_score (Rmin 1 (uptime_score node + 1 / 100)) node in
      Returned (<[node_hash := node]> db) now
  end.

Definition endorse_node (node_hash : string) (db : table)
    : outcome (R * tier) :=
  match db !! node_hash with
  | None => Raised db (HTTPException 404)
  | Some node =>
      let node :=
        set_endorsement_count (Models.endorsement_count node + 1)%N node in
      update_node_trust (<[node_hash := node]> db) node_hash
  end.

Definition complain_node (node_hash : string) (db : table)
    : outcome (R * tier) :=
  match db !! node_hash with
  | None => Raised db (HTTPException 404)
  | Some node =>
      let node :=
        set_complaint_count (Models.complaint_count node + 1)%N node in
      update_node_trust (<[node_hash := node]> db) node_hash
  end.

Definition rescore_node (node_hash : string) (db : table)
    : outcome (R * tier) :=
  match update_node_trust db node_hash with
  | Raised db' ValueError => Raised db' (HTTPException 404)
  | o => o
  end.

End Main.

(** ** The ledger contract, as the registry calls it *)

Module Ledger.

(** Decoded event logs of the BizNodeRegistry contract. *)
Inductive event : Type :=
| NodeRegistered (nodeHash : list byte) (wallet dnsName : string) (timestamp : Z)
| NodeVerified (nodeHash : list byte)
| StakeAdded (nodeHash : list byte) (newTotal : N)
| StakeWithdrawn (nodeHash : list byte)
| NodeDeregistered (nodeHash : list byte).

(** The tuple returned by the view function [getNode]; the registry reads
    positions 0 (wallet), 2 (verified), 3 (stakeAmount) and 5 (active). *)
Record OnChainNode : Type := mkOnChainNode {
  oc_wallet : string;
  oc_verified : bool;
  oc_stake : N;
  oc_active : bool
}.

Record Contract : Type := mkContract {
  (** [contract.functions.resolveDNS(name).call()] *)
  resolveDNS : string -> result (list byte);
  (** [contract.functions.getNode(node_hash).call()] *)
  getNode : list byte -> result OnChainNode;
  (** [getattr(contract.events, name, None)] and its [get_logs] *)
  events : string -> option (Z -> Z -> result (list event))
}.

End Ledger.

(** ** registry/event_listener.py *)

Module EventListener.
Import TrustEngine Models TrustUpdate Ledger.
Local Open Scope R_scope.

Definition CONFIRMATIONS : Z := 2.

Inductive level : Type := INFO | WARNING | ERROR | CRITICAL.

(** A log record: its level and its format string. *)
Record log_record : Type := mkLog { levelname : level; msg : string }.

(** [event["args"][key]]; a missing key is a [KeyError]. *)
Definition args_nodeHash (ev : event) : list byte :=
  match ev with
  | NodeRegistered h _ _ _ => h
  | NodeVerified h => h
  | StakeAdded h _ => h
  | StakeWithdrawn h => h
  | NodeDeregistered h => h
  end.

Definition args_registration (ev : event) : result (string * string * Z) :=
  match ev with
  | NodeRegistered _ w d t => Ok (w, d, t)
  | _ => Raise KeyError
  end.

Definition args_newTotal (ev : event) : result N :=
  match ev with
  | StakeAdded _ t => Ok t
  | _ => Raise KeyError
  end.

(** ["0x" + args["nodeHash"].hex()] *)
Definition hash_key (bs : list byte) : string := "0x" +:+ Bytes.hex bs.

Definition handler_result : Type := outcome unit * list log_record.

(** The seconds of 0001-01-01 00:00:00 and of 9999-12-31 23:59:59. *)
Definition MIN_TIMESTAMP : Z := -62135596800.
Definition MAX_TIMESTAMP : Z := 253402300799.

(** [datetime.utcfromtimestamp(t)] of an int: there is a [datetime] for the
    years 1 to 9999 only. Outside them the call raises: [ValueError] for a
    year out of range, [OSError] where the C library's [gmtime] gives up
    and [OverflowError] where [t] is no [time_t]; the bounds of the last
    two are those of a 64-bit Linux. *)
Definition utcfromtimestamp (t : Z) : result Z :=
  if ((MIN_TIMESTAMP <=? t) && (t <=? MAX_TIMESTAMP))%Z then Ok t
  else if ((-67768040609740800 <=? t) && (t <=? 67768036191676799))%Z
       then Raise ValueError
  else if ((- 2 ^ 63 <=? t) && (t <? 2 ^ 63))%Z then Raise OSError
  else Raise OverflowError.

Definition process_node_registered (ev : event) (db : table) : handler_result :=
  let node_hash := hash_key (args_nodeHash ev) in
  match args_registration ev with
  | Raise e => (Raised db e, [])
  | Ok (wallet, dns_name, seconds) =>
      match utcfromtimestamp seconds with
      | Raise e => (Raised db e, [])
      | Ok timestamp =>
          match db !! node_hash with
          | Some _ =>
              (Returned db tt,
               [mkLog INFO "NodeRegistered: already in DB, skipping. hash=%s"])
          | None =>
              let node :=
                mkNodeRecord node_hash "" None (Some wallet) (Some dns_name)
                  false 0%N (Some timestamp) 0 0 0 0%N 0%N UNVERIFIED
                  None None true in
              match insert_row db node with
              | Ok db' =>
                  (Returned db' tt, [mkLog INFO "NodeRegistered: %s → %s (%s)"])
              | Raise e => (Raised db e, [])
              end
          end
      end
  end.

Definition process_node_verified (ev : event) (db : table) : handler_result :=
  let node_hash := hash_key (args_nodeHash ev) in
  match db !! node_hash with
  | None =>
      (Returned db tt, [mkLog WARNING "NodeVerified: node not in DB. hash=%s"])
  | Some node =>
      let db1 := <[node_hash := set_verified true node]> db in
      match update_node_trust db1 node_hash with
      | Returned db2 _ =>
          (Returned db2 tt, [mkLog INFO "NodeVerified: %s → score=%.2f tier=%s"])
      | Raised db2 e => (Raised db2 e, [])
      end
  end.

Definition process_stake_added (ev : event) (db : table) : handler_result :=
  let node_hash := hash_key (args_nodeHash ev) in
  match args_newTotal ev with
  | Raise e => (Raised db e, [])
  | Ok new_total =>
      match db !! node_hash with
      | None =>
          (Returned db tt, [mkLog WARNING "StakeAdded: node not in DB. hash=%s"])
      | Some node =>
          let db1 := <[node_hash := set_stake_wei new_total node]> db in
          match update_node_trust db1 node_hash with
          | Returned db2 _ =>
              (Returned db2 tt,
               [mkLog INFO "StakeAdded: %s → stake=%s score=%.2f tier=%s"])
          | Raised db2 e => (Raised db2 e, [])
          end
      end
  end.

(** [chain] is what [get_contract(w3)] gives inside the handler's [try]. *)
Definition process_stake_withdrawn (chain : result Contract) (ev : event)
    (db : table) : handler_result :=
  let node_hash := hash_key (args_nodeHash ev) in
  match db !! node_hash with
  | None => (Returned db tt, [])
  | Some node =>
      let refreshed :=
        match (contract <- chain ;;; getNode contract (args_nodeHash ev)) with
        | Ok on_chain =>
            (<[node_hash := set_stake_wei (oc_stake on_chain) node]> db, [])
        | Raise _ =>
            (db, [mkLog WARNING "Could not refresh stake from chain: %s"])
        end in
      match update_node_trust (fst refreshed) node_hash with
      | Returned db2 _ =>
          (Returned db2 tt,
           snd refreshed ++ [mkLog INFO "StakeWithdrawn: %s → score=%.2f tier=%s"])
      | Raised db2 e => (Raised db2 e, snd refreshed)
      end
  end.

Definition process_node_deregistered (ev : event) (db : table) : handler_result :=
  let node_hash := hash_key (args_nodeHash ev) in
  match db !! node_hash with
  | Some node =>
      (Returned (<[node_hash := set_active false node]> db) tt,
       [mkLog INFO "NodeDeregistered: %s"])
  | None => (Returned db tt, [])
  end.

Definition EVENT_HANDLERS (chain : result Contract)
    : list (string * (event -> table -> handler_result)) :=
  [ ("NodeRegistered", process_node_registered);
    ("NodeVerified", process_node_verified);
    ("StakeAdded", process_stake_added);
    ("StakeWithdrawn", process_stake_withdrawn chain);
    ("NodeDeregistered", process_node_deregistered) ].

(** *** The polling loop *)

(** A commit that fails leaves the [Session] of the pass in need of a
    rollback, which the loop never issues. The only commit that can fail is
    the INSERT of [process_node_registered]. *)
Definition commit_failed (o : outcome unit) : bool :=
  match o with
  | Raised _ IntegrityError => true
  | _ => false
  end.

(** The inner [for event in events]: an exception of a handler is logged and
    the loop goes on with what the handler had committed. [failed] tells
    whether a commit has failed earlier in the pass: every handler queries
    the table before it writes or logs, and on such a [Session] the query
    raises [PendingRollbackError], so the handler leaves the table as it is
    and the loop logs its error. *)
Fixpoint apply_events (handler : event -> table -> handler_result)
    (evs : list event) (db : table) (failed : bool)
    : table * bool * list log_record :=
  match evs with
  | [] => (db, failed, [])
  | ev :: rest =>
      if failed then
        let k := apply_events handler rest db true in
        (fst k, mkLog ERROR "Error processing %s event: %s" :: snd k)
      else
        let r := handler ev db in
        let logged :=
          match fst r with
          | Returned _ _ => snd r
          | Raised _ _ => snd r ++ [mkLog ERROR "Error processing %s event: %s"]
          end in
        let k := apply_events handler rest (committed (fst r))
                   (commit_failed (fst r)) in
        (fst k, logged ++ snd k)
  end.

(** What one pass over [EVENT_HANDLERS] did: the table, the log, the
    [get_logs] calls made (event name, [fromBlock], [toBlock]) and the
    exception, if any, that left the [for] loop. *)
Record batch : Type := mkBatch {
  b_db : table;
  b_logs : list log_record;
  b_fetched : list (string * Z * Z);
  b_escaped : option exn
}.

(** The [for] loop over [EVENT_HANDLERS], on the one [Session] of the
    pass. *)
Fixpoint poll_events (contract : Contract)
    (handlers : list (string * (event -> table -> handler_result)))
    (from_block current_block : Z) (db : table) (failed : bool) : batch :=
  match handlers with
  | [] => mkBatch db [] [] None
  | (event_name, handler) :: rest =>
      match events contract event_name with
      | None => poll_events contract rest from_block current_block db failed
      | Some get_logs =>
          match get_logs from_block current_block with
          | Raise e =>
              mkBatch db [] [(event_name, from_block, current_block)] (Some e)
          | Ok evs =>
              let a := apply_events handler evs db failed in
              let b := poll_events contract rest from_block current_block
                         (fst (fst a)) (snd (fst a)) in
              mkBatch (b_db b) (snd a ++ b_logs b)
                ((event_name, from_block, current_block) :: b_fetched b)
                (b_escaped b)
          end
      end
  end.

(** The loop's variable [from_block] and the content of
    [registry/.last_block]. *)
Record listener : Type := mkListener {
  from_block : Z;
  last_block_file : option Z
}.




(** Lines 201-205: where the loop starts. *)
Definition startup (file : option Z) (block_number : Z) : listener :=
  match file with
  | Some b => mkListener b file
  | None => mkListener (block_number - 1000) file
  end.

(** What the ledger shows during one iteration of [while True]. *)
Record observation : Type := mkObservation {
  block_number : result Z;
  contract : Contract;
  chain : result Contract
}.

(** One iteration of [while True]; [db = SessionLocal()] opens the
    [Session] of the pass. *)
Definition iteration (obs : observation) (st : listener) (db : table)
    : listener * batch :=
  match block_number obs with
  | Raise e => (st, mkBatch db [mkLog ERROR "Listener error: %s"] [] (Some e))
  | Ok head =>
      let current_block := (head - CONFIRMATIONS)%Z in
      if (current_block <=? from_block st)%Z then (st, mkBatch db [] [] None)
      else
        let b := poll_events (contract obs) (EVENT_HANDLERS (chain obs))
                   (from_block st) current_block db false in
        match b_escaped b with
        | Some e =>
            (st, mkBatch (b_db b) (b_logs b ++ [mkLog ERROR "Listener error: %s"])
                   (b_fetched b) (Some e))
        | None =>
            (mkListener (current_block + 1) (Some (current_block + 1)%Z), b)
        end
  end.


End EventListener.

(** ** registry/dns_resolver.py *)

Module DnsResolver.
Import TrustEngine Models Ledger.
Local Open Scope R_scope.

Record DNSRecord : Type := mkDNSRecord {
  dns_name : string;
  node_hash : string;
  wallet : option string;
  public_key : option string;
  ip_address : option string;
  trust_score : R;
  trust_tier : tier;
  verified : bool;
  active : bool
}.

(** [self._db] and what [self._get_contract()] gives (an exception when the
    contract address or the ABI is missing). *)
Record BizNodeDNSResolver : Type := mkResolver {
  _db : option table;
  _get_contract : result Contract
}.

Definition resolve_on_chain (self : BizNodeDNSResolver) (dns_name : string)
    : option string :=
  match (contract <- _get_contract self ;;; resolveDNS contract dns_name) with
  | Ok node_hash_bytes =>
      if Bytes.eqb node_hash_bytes Bytes.zero32 then None
      else Some ("0x" +:+ Bytes.hex node_hash_bytes)
  | Raise _ => None
  end.

Definition resolve_off_chain (self : BizNodeDNSResolver) (node_hash : string)
    : option NodeDict :=
  match _db self with
  | None => None
  | Some db =>
      match db !! node_hash with
      | Some node => Some (to_dict node)
      | None => None
      end
  end.

(** [meta.get("public_key")] finds no such key in [to_dict]'s result. *)
Definition resolve (self : BizNodeDNSResolver) (dns_name : string)
    : option DNSRecord :=
  match resolve_on_chain self dns_name with
  | None => None
  | Some node_hash =>
      match resolve_off_chain self node_hash with
      | Some meta =>
          Some (mkDNSRecord dns_name node_hash (d_wallet meta) None
                  (d_ip_address meta) (d_trust_score meta) (d_trust_tier meta)
                  (d_verified meta) (d_active meta))
      | None =>
          match (contract <- _get_contract self ;;;
                 node_hash_bytes <- Bytes.fromhex (Bytes.drop2 node_hash) ;;;
                 getNode contract node_hash_bytes) with
          | Ok on_chain =>
              Some (mkDNSRecord dns_name node_hash (Some (oc_wallet on_chain))
                      None None 0
                      (if oc_verified on_chain then VERIFIED else UNVERIFIED)
                      (oc_verified on_chain) (oc_active on_chain))
          | Raise _ => None
          end
      end
  end.

Definition reverse_lookup (self : BizNodeDNSResolver) (node_hash : string)
    : option string :=
  match _db self with
  | None => None
  | Some db =>
      match db !! node_hash with
      | Some node => Models.dns_name node
      | None => None
      end
  end.

End DnsResolver.

(** ** Requests served at the same time

    Every request runs [endorse_node] on a session of its own. A request
    is at one of the statements of lines 199-207; the table is shared. *)

Module Concurrent.
Import TrustEngine Models TrustUpdate.

Inductive endorse_pc : Type :=
| AtQuery                              (* line 199: SELECT into the session *)
| AtIncrement (node : NodeRecord)      (* line 203: += on the loaded object *)
| AtCommit (node : NodeRecord)         (* line 204: UPDATE of the dirty column *)
| AtRescore                            (* line 206: update_node_trust *)
| Finished (r : result (R * tier)).

(** One statement of one request. *)
Definition thread_step (node_hash : string) (pc : endorse_pc) (db : table)
    : endorse_pc * table :=
  match pc with
  | AtQuery =>
      match db !! node_hash with
      | None => (Finished (Raise (HTTPException 404)), db)
      | Some node => (AtIncrement node, db)
      end
  | AtIncrement node =>
      (AtCommit (set_endorsement_count (Models.endorsement_count node + 1)%N node), db)
  | AtCommit node =>
      (AtRescore,
       alter (set_endorsement_count (Models.endorsement_count node)) node_hash db)
  | AtRescore =>
      match update_node_trust db node_hash with
      | Returned db' r => (Finished (Ok r), db')
      | Raised db' e => (Finished (Raise e), db')
      end
  | Finished r => (Finished r, db)
  end.

(** The request [tid] runs its next statement. *)
Definition step (node_hash : string) (tid : nat)
    (cfg : list endorse_pc * table) : list endorse_pc * table :=
  match fst cfg !! tid with
  | None => cfg
  | Some pc =>
      let r := thread_step node_hash pc (snd cfg) in
      (<[tid := fst r]> (fst cfg), snd r)
  end.

(** A schedule names the request that moves at each instant. *)
Fixpoint run (node_hash : string) (schedule : list nat)
    (cfg : list endorse_pc * table) : list endorse_pc * table :=
  match schedule with
  | [] => cfg
  | tid :: rest => run node_hash rest (step node_hash tid cfg)
  end.

Definition is_finished (pc : endorse_pc) : bool :=
  match pc with
  | Finished (Ok _) => true
  | _ => false
  end.

(** Calls served one after the other. *)
Fixpoint endorse_times (n : nat) (node_hash : string) (db : table) : table :=
  match n with
  | O => db
  | S k => endorse_times k node_hash (committed (Main.endorse_node node_hash db))
  end.

End Concurrent.

(** ** The read endpoints of registry/main.py *)

Module Api.
Import TrustEngine Models.
Local Open Scope R_scope.

Record NodeResponse : Type := mkNodeResponse {
  r_node_hash : string;
  r_node_id : string;
  r_wallet : option string;
  r_dns_name : option string;
  r_verified : bool;
  r_trust_score : R;
  r_trust_tier : tier;
  r_ip_address : option string;
  r_last_seen : option Z;
  r_active : bool
}.

(** [GET /node/{node_hash}]: the keys of [NodeResponse] read from
    [node.to_dict()]. *)
Definition get_node (node_hash : string) (db : table) : result NodeResponse :=
  match db !! node_hash with
  | None => Raise (HTTPException 404)
  | Some node =>
      let d := to_dict node in
      Ok (mkNodeResponse (d_node_hash d) (d_node_id d) (d_wallet d)
            (d_dns_name d) (d_verified d) (d_trust_score d) (d_trust_tier d)
            (d_ip_address d) (d_last_seen d) (d_active d))
  end.

(** The two terms of the filter of [verify_entity]:
    [(NodeRecord.dns_name == entity) | (NodeRecord.node_id == entity)]. *)
Definition names_dns (entity : string) (node : NodeRecord) : bool :=
  same_dns (dns_name node) (Some entity).

Definition names_id (entity : string) (node : NodeRecord) : bool :=
  String.eqb (node_id node) entity.

(** [GET /verify]: [rows] lists the table. The storage answers the [OR]
    through the indexes of the two UNIQUE columns, the [dns_name] term
    first, and [.first()] takes the first row found. The answer is the
    status and, for a node that was found, its score. *)
Definition verify_entity (entity : string) (rows : list NodeRecord)
    : tier * option R :=
  let found :=
    match List.find (names_dns entity) rows with
    | Some node => Some node
    | None => List.find (names_id entity) rows
    end in
  match found with
  | None => (UNVERIFIED, None)
  | Some node => (trust_tier node, Some (trust_score node))
  end.

(** [GET /nodes]: the bounds declared by [Query(0, ge=0)] and
    [Query(50, ge=1, le=200)] are checked before the body runs (a request
    outside them is answered 422); [rows] is the table as the storage scans
    it. *)
Definition list_nodes (skip limit : Z) (verified_only : bool)
    (rows : list NodeRecord) : result (list NodeDict) :=
  if (skip <? 0)%Z || (limit <? 1)%Z || (200 <? limit)%Z
  then Raise (HTTPException 422)
  else
    let query := List.filter active rows in
    let query :=
      if verified_only then List.filter Models.verified query else query in
    Ok (List.map to_dict
          (List.firstn (Z.to_nat limit) (List.skipn (Z.to_nat skip) query))).

(** [rows] lists the rows of the table. *)
Definition scan_of (db : table) (rows : list NodeRecord) : Prop :=
  forall r : NodeRecord, In r rows <-> exists h : string, db !! h = Some r.

End Api.

(** ** Every call that writes the table *)

Module System.
Import TrustEngine Models TrustUpdate Main Ledger EventListener.

(** One call of an endpoint of registry/main.py that writes, or of a
    handler of registry/event_listener.py. *)
Inductive operation : Type :=
| CallRegister (req : NodeRegisterRequest) (now : Z)
| CallHeartbeat (node_hash : string) (ip : option string) (now : Z)
| CallEndorse (node_hash : string)
| CallComplain (node_hash : string)
| CallRescore (node_hash : string)
| OnRegistered (ev : event)
| OnVerified (ev : event)
| OnStakeAdded (ev : event)
| OnStakeWithdrawn (chain : result Contract) (ev : event)
| OnDeregistered (ev : event).

(** The table the call leaves. *)
Definition perform (op : operation) (db : table) : table :=
  match op with
  | CallRegister req now => committed (register_node req now db)
  | CallHeartbeat h ip now => committed (heartbeat h ip now db)
  | CallEndorse h => committed (endorse_node h db)
  | CallComplain h => committed (complain_node h db)
  | CallRescore h => committed (rescore_node h db)
  | OnRegistered ev => committed (fst (process_node_registered ev db))
  | OnVerified ev => committed (fst (process_node_verified ev db))
  | OnStakeAdded ev => committed (fst (process_stake_added ev db))
  | OnStakeWithdrawn chain ev =>
      committed (fst (process_stake_withdrawn chain ev db))
  | OnDeregistered ev => committed (fst (process_node_deregistered ev db))
  end.

Fixpoint perform_all (ops : list operation) (db : table) : table :=
  match ops with
  | [] => db
  | op :: rest => perform_all rest (perform op db)
  end.

(** Every row sits under its own [node_hash], and no two rows share a
    [node_id] or a [dns_name]: the primary key and the UNIQUE columns. *)
Definition table_wf (db : table) : Prop :=
  forall (h : string) (r : NodeRecord),
    db !! h = Some r -> Models.node_hash r = h /\ unique_in db r.

(** The node a call names. *)
Definition target (op : operation) : string :=
  match op with
  | CallRegister req _ => req_node_hash req
  | CallHeartbeat h _ _ => h
  | CallEndorse h => h
  | CallComplain h => h
  | CallRescore h => h
  | OnRegistered ev => hash_key (args_nodeHash ev)
  | OnVerified ev => hash_key (args_nodeHash ev)
  | OnStakeAdded ev => hash_key (args_nodeHash ev)
  | OnStakeWithdrawn _ ev => hash_key (args_nodeHash ev)
  | OnDeregistered ev => hash_key (args_nodeHash ev)
  end.

(** What a row may become: the columns taken from the ledger at
    registration stay, the counters do not go down, a verified node stays
    verified and a deregistered node stays deregistered. *)
Definition row_step (r r' : NodeRecord) : Prop :=
  Models.node_hash r' = Models.node_hash r
  /\ Models.wallet r' = Models.wallet r
  /\ Models.dns_name r' = Models.dns_name r
  /\ Models.registered_at r' = Models.registered_at r
  /\ (Models.endorsement_count r <= Models.endorsement_count r')%N
  /\ (Models.complaint_count r <= Models.complaint_count r')%N
  /\ (Models.verified r = true -> Models.verified r' = true)
  /\ (Models.active r = false -> Models.active r' = false).

(** A row with the score and the tier the scoring function gives for its
    signals: what [update_node_trust] stores. *)
Definition rescored (node : NodeRecord) : NodeRecord :=
  set_trust (round2 (guarded_spec_score (inputs_of node)))
    (_score_to_tier (guarded_spec_score (inputs_of node)) (Models.verified node))
    node.

(** What a call leaves: the table as it was, or the table with one row
    written under the key the call names, a row that collides with no other
    and that is a step of the row that was there. *)
Definition writes_one (op : operation) (db db' : table) : Prop :=
  db' = db
  \/ exists r' : NodeRecord,
       db' = <[target op := r']> db
       /\ Models.node_hash r' = target op
       /\ unique_in db r'
       /\ (forall r : NodeRecord, db !! target op = Some r -> row_step r r').

(** Heartbeats of one node, one after the other, each with the address it
    reports and the time it arrives. *)
Fixpoint heartbeats (reqs : list (option string * Z)) (node_hash : string)
    (db : table) : table :=
  match reqs with
  | [] => db
  | (ip, now) :: rest =>
      heartbeats rest node_hash (committed (heartbeat node_hash ip now db))
  end.

End System.

(** ** The order of the tiers *)

Module Tiers.
Import TrustEngine.

Definition rank (t : tier) : nat :=
  match t with
  | UNVERIFIED => 0
  | VERIFIED => 1
  | TRUSTED => 2
  | ENTERPRISE => 3
  end.

End Tiers.

(** * Properties *)

(** ** Rounding and logarithms *)

Section RealFacts.
Import TrustEngine.
Local Open Scope R_scope.

Lemma Int_part_bounds (y : R) : IZR (Int_part y) <= y < IZR (Int_part y) + 1.
Proof. destruct (base_Int_part y) as [Hlo Hhi]. split; lra. Qed.

Lemma round_half_even_cases (y : R) :
  (round_half_even y = Int_part y /\ y - IZR (Int_part y) <= 1 / 2)
  \/ (round_half_even y = (Int_part y + 1)%Z /\ 1 / 2 <= y - IZR (Int_part y)).
Proof.
  unfold round_half_even.
  destruct (Rlt_dec (y - IZR (Int_part y)) (1 / 2)) as [Hlt | Hge].
  - left. split; [reflexivity | lra].
  - destruct (Rlt_dec (1 / 2) (y - IZR (Int_part y))) as [Hgt | Hle].
    + right. split; [reflexivity | lra].
    + destruct (Z.even (Int_part y)).
      * left. split; [reflexivity | lra].
      * right. split; [reflexivity | lra].
Qed.


(** A real strictly within one half of an integer rounds to it. *)
Lemma round_half_even_near (n : Z) (y : R) :
  IZR n - 1 / 2 < y < IZR n + 1 / 2 -> round_half_even y = n.
Proof.
  intros [Hlo Hhi].
  destruct (Int_part_bounds y) as [Hfl Hfh].
  destruct (round_half_even_cases y) as [[-> Hd] | [-> Hd]].
  - assert (H1 : (n - 1 < Int_part y)%Z).
    { apply lt_IZR. rewrite minus_IZR. lra. }
    assert (H2 : (Int_part y < n + 1)%Z).
    { apply lt_IZR. rewrite plus_IZR. lra. }
    lia.
  - assert (H1 : (n - 1 < Int_part y + 1)%Z).
    { apply lt_IZR. rewrite minus_IZR, plus_IZR. lra. }
    assert (H2 : (Int_part y + 1 < n + 1)%Z).
    { apply lt_IZR. rewrite !plus_IZR. lra. }
    lia.
Qed.



(** Ints of 64 bits convert to a float, and so does their quotient by a
    positive int. *)
Lemma ints_convert_int64 (i : TrustInputs) :
  (Z.abs (endorsement_count i) < 2 ^ 63)%Z ->
  (Z.abs (complaint_count i) < 2 ^ 63)%Z ->
  ints_convert i.
Proof.
  intros He Hc.
  assert (Hbig : (2 ^ 63 < FLOAT_OVERFLOW)%Z) by (vm_compute; reflexivity).
  split; [lia |]. intros Ht. nia.
Qed.


(** A score that is a whole number of hundredths is left as it is. *)
Lemma round2_hundredths (n : Z) : round2 (IZR n / 100) = IZR n / 100.
Proof.
  unfold round2. rewrite (round_half_even_near n); [reflexivity | lra].
Qed.

Lemma ln_gt_0 (x : R) : 1 < x -> 0 < ln x.
Proof. intros Hx. rewrite <- ln_1. apply ln_increasing; lra. Qed.

Lemma log1p_defined (x : R) : -1 < x -> log1p x = Ok (ln (1 + x)).
Proof.
  intros Hx. unfold log1p. destruct (Rle_dec x (-1)); [lra | reflexivity].
Qed.

Lemma log1p_domain_error (x : R) : x <= -1 -> log1p x = Raise ValueError.
Proof.
  intros Hx. unfold log1p. destruct (Rle_dec x (-1)); [reflexivity | lra].
Qed.

Lemma Rgeb_true (x y : R) : y <= x -> Rgeb x y = true.
Proof. intros H. unfold Rgeb. destruct (Rle_dec y x); [reflexivity | lra]. Qed.

Lemma Rgeb_false (x y : R) : x < y -> Rgeb x y = false.
Proof. intros H. unfold Rgeb. destruct (Rle_dec y x); [lra | reflexivity]. Qed.

Lemma clamp_range (x : R) : 0 <= Rmax 0 (Rmin 100 x) <= 100.
Proof.
  split.
  - apply Rmax_l.
  - apply Rmax_lub; [lra | apply Rmin_l].
Qed.

End RealFacts.

(** ** The scoring function against the reference formula *)

Section Scoring.
Import TrustEngine.
Local Open Scope R_scope.

Lemma penalty_forms (r : R) : Rmin (r * 10) 10 = Rmin r 1 * 10.
Proof.
  unfold Rmin.
  destruct (Rle_dec (r * 10) 10), (Rle_dec r 1); lra.
Qed.

Lemma stake_norm_guarded (s : R) :
  (if Rlt_dec 0 s
   then a <- log1p s ;;; b <- log1p MAX_STAKE_MATIC ;;; Ok (Rmin (a / b) 1)
   else Ok 0)
  = Ok (Rmin (ln (1 + Rmax s 0) / ln (1 + 1000)) 1).
Proof.
  destruct (Rlt_dec 0 s) as [Hpos | Hneg].
  - rewrite (log1p_defined s) by lra.
    unfold MAX_STAKE_MATIC. rewrite (log1p_defined 1000) by lra.
    cbn [bind]. rewrite Rmax_left by lra. reflexivity.
  - rewrite Rmax_right by lra.
    replace (1 + 0) with 1 by lra. rewrite ln_1.
    unfold Rdiv. rewrite Rmult_0_l.
    rewrite Rmin_left by lra. reflexivity.
Qed.

Lemma complaint_penalty_guarded (c t : Z) :
  Rmin ((if (0 <? t)%Z then IZR c / IZR t else 0) * COMPLAINT_PENALTY)
       COMPLAINT_PENALTY
  = Rmin (IZR (if (0 <? t)%Z then c else 0%Z) / IZR (Z.max t 1)) 1 * 10.
Proof.
  unfold COMPLAINT_PENALTY. rewrite penalty_forms.
  destruct (0 <? t)%Z eqn:Ht.
  - apply Z.ltb_lt in Ht. rewrite Z.max_l by lia. reflexivity.
  - unfold Rdiv. rewrite Rmult_0_l. reflexivity.
Qed.

(** With a non-negative endorsement count the unrounded score is the
    reference formula at the guarded inputs. *)
Lemma raw_score_guarded (i : TrustInputs) :
  (0 <= endorsement_count i)%Z ->
  raw_score i = Ok (guarded_spec_score i).
Proof.
  intros He. unfold raw_score.
  rewrite stake_norm_guarded. cbn [bind].
  rewrite (log1p_defined (IZR (endorsement_count i))).
  2: { apply IZR_le in He. lra. }
  rewrite (log1p_defined 100) by lra. cbn [bind].
  rewrite complaint_penalty_guarded.
  unfold guarded_spec_score, spec_score, guarded_stake, guarded_complaints, clamp.
  unfold STAKE_WEIGHT, UPTIME_WEIGHT, AI_QUALITY_WEIGHT, ENDORSEMENT_WEIGHT,
    VERIFIED_BONUS.
  reflexivity.
Qed.

Lemma compute_trust_score_guarded (i : TrustInputs) :
  (0 <= endorsement_count i)%Z ->
  compute_trust_score i
  = Ok (round2 (guarded_spec_score i),
        _score_to_tier (guarded_spec_score i) (verified i)).
Proof.
  intros He. unfold compute_trust_score.
  rewrite (raw_score_guarded i He). reflexivity.
Qed.

(** A negative endorsement count is a domain error of [math.log1p]. *)
Lemma compute_trust_score_raises (i : TrustInputs) :
  (endorsement_count i < 0)%Z -> compute_trust_score i = Raise ValueError.
Proof.
  intros He. unfold compute_trust_score, raw_score.
  rewrite stake_norm_guarded. cbn [bind].
  rewrite (log1p_domain_error (IZR (endorsement_count i))).
  - reflexivity.
  - assert (H : (endorsement_count i <= -1)%Z) by lia.
    apply IZR_le in H. lra.
Qed.

Lemma guarded_spec_score_range (i : TrustInputs) :
  0 <= guarded_spec_score i <= 100.
Proof. unfold guarded_spec_score, spec_score, clamp. apply clamp_range. Qed.

End Scoring.

(** ** Evaluating the score at given inputs *)

(** Decide every [Rmin] and [Rmax] whose arguments linear arithmetic can
    compare. *)
Ltac eval_minmax :=
  repeat match goal with
  | |- context [Rmin ?a ?b] =>
      first [rewrite (Rmin_left a b) by lra | rewrite (Rmin_right a b) by lra]
  | |- context [Rmax ?a ?b] =>
      first [rewrite (Rmax_left a b) by lra | rewrite (Rmax_right a b) by lra]
  end.

Section ScoreExamples.
Import TrustEngine.
Local Open Scope R_scope.

Ltac project_inputs :=
  cbn [stake_matic uptime_ratio ai_quality_score endorsement_count
       complaint_count total_interactions verified Z.ltb Z.compare].

Lemma ln_1_plus_0 : ln (1 + 0) = 0.
Proof. replace (1 + 0) with 1 by lra. apply ln_1. Qed.

Lemma ln_ratio_one (x : R) : 0 < x -> ln (1 + x) / ln (1 + x) = 1.
Proof. intros Hx. apply Rdiv_diag. apply Rgt_not_eq. apply ln_gt_0. lra. Qed.





(** Stake at the cap, full uptime, a quality score of 0.4999, a hundred
    endorsements, verified: the unrounded score is 89.998. *)
Lemma score_just_below_ninety :
  raw_score (mkTrustInputs 1000 1 (4999 / 10000) 100 0 1 true)
  = Ok (89998 / 1000)
  /\ compute_trust_score (mkTrustInputs 1000 1 (4999 / 10000) 100 0 1 true)
     = Ok (90, TRUSTED).
Proof.
  assert (G : guarded_spec_score (mkTrustInputs 1000 1 (4999 / 10000) 100 0 1 true)
              = 89998 / 1000).
  { unfold guarded_spec_score, guarded_stake, guarded_complaints, spec_score, clamp.
    project_inputs. change (Z.max 1 1) with 1%Z.
    rewrite (Rmax_left 1000 0) by lra.
    rewrite (ln_ratio_one 1000) by lra. rewrite (ln_ratio_one 100) by lra.
    eval_minmax. lra. }
  split.
  - rewrite raw_score_guarded by (cbn; lia). rewrite G. reflexivity.
  - rewrite compute_trust_score_guarded by (cbn; lia). rewrite G.
    unfold round2. rewrite (round_half_even_near 9000) by lra.
    unfold _score_to_tier. rewrite (Rgeb_false _ 90) by lra.
    rewrite (Rgeb_true _ 70) by lra.
    f_equal. f_equal. lra.
Qed.

(** Verified and nothing else, whatever [total_interactions] is. *)
Lemma score_of_verification_alone (total : Z) :
  compute_trust_score (mkTrustInputs 0 0 0 0 0 total true) = Ok (10, UNVERIFIED).
Proof.
  rewrite compute_trust_score_guarded by (cbn; lia).
  assert (H : guarded_spec_score (mkTrustInputs 0 0 0 0 0 total true) = 10).
  { unfold guarded_spec_score, guarded_stake, guarded_complaints, spec_score, clamp.
    cbn [stake_matic uptime_ratio ai_quality_score endorsement_count
         complaint_count total_interactions verified].
    replace (if (0 <? total)%Z then 0%Z else 0%Z) with 0%Z
      by (destruct (0 <? total)%Z; reflexivity).
    rewrite (Rmax_left 0 0) by lra.
    rewrite ln_1_plus_0. unfold Rdiv. rewrite !Rmult_0_l.
    eval_minmax. lra. }
  rewrite H. replace 10 with (IZR 1000 / 100) at 1 by lra.
  rewrite round2_hundredths.
  unfold _score_to_tier. rewrite !Rgeb_false by lra. cbn.
  f_equal. f_equal. lra.
Qed.

End ScoreExamples.

(** ** The trust engine against its specification *)

Section TrustEngineSpec.
Import TrustEngine.
Local Open Scope R_scope.




(** C2. The tier is decided in order: at 90 and above ENTERPRISE, else at 70
    and above TRUSTED, else at 40 and above with the verified flag VERIFIED,
    else UNVERIFIED; and verification alone scores 10.0, tier UNVERIFIED. *)
Theorem tier_decided_in_order :
  (forall (score : R) (verified : bool),
     (90 <= score -> _score_to_tier score verified = ENTERPRISE)
     /\ (70 <= score < 90 -> _score_to_tier score verified = TRUSTED)
     /\ (40 <= score < 70 -> verified = true ->
         _score_to_tier score verified = VERIFIED)
     /\ (score < 40 \/ (score < 70 /\ verified = false) ->
         _score_to_tier score verified = UNVERIFIED))
  /\ (forall total : Z,
        compute_trust_score (mkTrustInputs 0 0 0 0 0 total true)
        = Ok (10, UNVERIFIED)).
Proof.
  split.
  - intros score v. unfold _score_to_tier. repeat split.
    + intros H. rewrite Rgeb_true by lra. reflexivity.
    + intros H. rewrite (Rgeb_false _ 90) by lra.
      rewrite Rgeb_true by lra. reflexivity.
    + intros H ->. rewrite (Rgeb_false _ 90), (Rgeb_false _ 70) by lra.
      rewrite Rgeb_true by lra. reflexivity.
    + intros [H | [H ->]].
      * rewrite !Rgeb_false by lra. reflexivity.
      * rewrite (Rgeb_false _ 90), (Rgeb_false _ 70) by lra.
        rewrite andb_false_r. reflexivity.
  - exact score_of_verification_alone.
Qed.

(** C10. There is an input whose unrounded score lies in [89.995, 90), for
    which [compute_trust_score] returns the pair (90.0, TRUSTED), although a
    score of 90 is in the ENTERPRISE band. *)
Theorem rounded_score_meets_threshold_of_next_tier :
  exists (i : TrustInputs) (raw : R),
    raw_score i = Ok raw
    /\ 89995 / 1000 <= raw < 90
    /\ compute_trust_score i = Ok (90, TRUSTED)
    /\ _score_to_tier 90 (verified i) = ENTERPRISE.
Proof.
  exists (mkTrustInputs 1000 1 (4999 / 10000) 100 0 1 true), (89998 / 1000).
  destruct score_just_below_ninety as [Hraw Hret].
  split; [exact Hraw |].
  split; [lra |].
  split; [exact Hret |].
  unfold _score_to_tier. rewrite Rgeb_true by lra. reflexivity.
Qed.

End TrustEngineSpec.

(** ** The table and its constraints *)

Section TableFacts.
Import TrustEngine Models TrustUpdate.
Local Open Scope R_scope.

Lemma unique_violation_true (db : table) (n : NodeRecord) :
  unique_violation db n = true
  <-> exists (h : string) (r : NodeRecord),
        db !! h = Some r /\ h <> node_hash n
        /\ (node_id r = node_id n \/ same_dns (dns_name r) (dns_name n) = true).
Proof.
  unfold unique_violation. rewrite existsb_exists. split.
  - intros [[h r] [Hin Hb]]. cbn [fst snd] in Hb.
    apply list_elem_of_In, elem_of_map_to_list in Hin.
    apply andb_true_iff in Hb. destruct Hb as [Hne Hb].
    apply negb_true_iff, String.eqb_neq in Hne.
    apply orb_true_iff in Hb.
    exists h, r. split; [exact Hin |]. split; [exact Hne |].
    destruct Hb as [Hid | Hdns].
    + left. apply String.eqb_eq. exact Hid.
    + right. exact Hdns.
  - intros (h & r & Hlk & Hne & Hclash).
    exists (h, r). split.
    + apply list_elem_of_In, elem_of_map_to_list. exact Hlk.
    + cbn [fst snd]. apply andb_true_iff. split.
      * apply negb_true_iff, String.eqb_neq. exact Hne.
      * apply orb_true_iff. destruct Hclash as [Hid | Hdns].
        -- left. apply String.eqb_eq. exact Hid.
        -- right. exact Hdns.
Qed.

Lemma unique_violation_false (db : table) (n : NodeRecord) :
  unique_violation db n = false <-> unique_in db n.
Proof.
  split.
  - intros Hv h r Hlk Hne. split.
    + intros Hid.
      assert (Ht : unique_violation db n = true).
      { apply unique_violation_true. exists h, r. auto. }
      congruence.
    + destruct (same_dns (dns_name r) (dns_name n)) eqn:Hdns; [| reflexivity].
      assert (Ht : unique_violation db n = true).
      { apply unique_violation_true. exists h, r. auto. }
      congruence.
  - intros Hu.
    destruct (unique_violation db n) eqn:Hv; [| reflexivity].
    apply unique_violation_true in Hv.
    destruct Hv as (h & r & Hlk & Hne & Hclash).
    destruct (Hu h r Hlk Hne) as [Hid Hdns].
    destruct Hclash; [contradiction | congruence].
Qed.

(** *** Recomputing the score *)

Lemma inputs_of_set_trust (s : R) (t : tier) (node : NodeRecord) :
  inputs_of (set_trust s t node) = inputs_of node.
Proof. reflexivity. Qed.

(** Counters read from a row are never negative, so scoring a row never
    raises. *)
Lemma compute_trust_score_of_row (node : NodeRecord) :
  compute_trust_score (inputs_of node)
  = Ok (round2 (guarded_spec_score (inputs_of node)),
        _score_to_tier (guarded_spec_score (inputs_of node))
          (Models.verified node)).
Proof.
  rewrite compute_trust_score_guarded; [reflexivity |].
  cbn. lia.
Qed.

Lemma update_node_trust_found (db : table) (h : string) (node : NodeRecord) :
  db !! h = Some node ->
  exists (s : R) (t : tier),
    compute_trust_score (inputs_of node) = Ok (s, t)
    /\ update_node_trust db h = Returned (<[h := set_trust s t node]> db) (s, t).
Proof.
  intros Hlk. unfold update_node_trust. rewrite Hlk.
  rewrite compute_trust_score_of_row.
  eexists. eexists. split; reflexivity.
Qed.

(** After [update_node_trust] the row is consistent and its other columns
    are as before. *)
Lemma update_node_trust_consistent (db : table) (h : string) (node : NodeRecord) :
  db !! h = Some node ->
  exists (s : R) (t : tier),
    committed (update_node_trust db h) !! h = Some (set_trust s t node)
    /\ consistent (set_trust s t node).
Proof.
  intros Hlk.
  destruct (update_node_trust_found db h node Hlk) as (s & t & Hs & Hu).
  exists s, t. rewrite Hu. cbn [committed]. split.
  - apply lookup_insert_eq.
  - unfold consistent. rewrite inputs_of_set_trust. exact Hs.
Qed.


Lemma recompute_after_write (db : table) (h : string) (node : NodeRecord) :
  exists (s : R) (t : tier),
    compute_trust_score (inputs_of node) = Ok (s, t)
    /\ update_node_trust (<[h := node]> db) h
       = Returned (<[h := set_trust s t node]> db) (s, t).
Proof.
  destruct (update_node_trust_found (<[h := node]> db) h node) as (s & t & Hs & Hu).
  { apply lookup_insert_eq. }
  exists s, t. split; [exact Hs |].
  rewrite Hu. rewrite insert_insert_eq. reflexivity.
Qed.

End TableFacts.

Section Recompute.
Import TrustEngine Models TrustUpdate Main EventListener Ledger.
Local Open Scope R_scope.

Ltac recompute node' :=
  match goal with
  | |- context [update_node_trust (<[?h := _]> ?db) ?h] =>
      let s := fresh "s" in
      let t := fresh "t" in
      let Hs := fresh "Hs" in
      let Hu := fresh "Hu" in
      destruct (recompute_after_write db h node') as (s & t & Hs & Hu);
      rewrite Hu; cbn [fst snd committed];
      exists (set_trust s t node');
      split; [apply lookup_insert_eq |];
      lazymatch goal with
      | |- consistent _ /\ _ =>
          split; [unfold consistent; rewrite inputs_of_set_trust; exact Hs |]
      | |- consistent _ =>
          unfold consistent; rewrite inputs_of_set_trust; exact Hs
      end
  end.

Lemma endorse_node_recomputes (h : string) (db : table) (node : NodeRecord) :
  db !! h = Some node ->
  exists node',
    committed (endorse_node h db) !! h = Some node'
    /\ consistent node'
    /\ Models.endorsement_count node' = (Models.endorsement_count node + 1)%N.
Proof.
  intros Hlk. unfold endorse_node. rewrite Hlk.
  recompute (set_endorsement_count (Models.endorsement_count node + 1)%N node).
  reflexivity.
Qed.

Lemma complain_node_recomputes (h : string) (db : table) (node : NodeRecord) :
  db !! h = Some node ->
  exists node',
    committed (complain_node h db) !! h = Some node'
    /\ consistent node'
    /\ Models.complaint_count node' = (Models.complaint_count node + 1)%N.
Proof.
  intros Hlk. unfold complain_node. rewrite Hlk.
  recompute (set_complaint_count (Models.complaint_count node + 1)%N node).
  reflexivity.
Qed.

Lemma process_node_verified_recomputes (ev : event) (db : table) (node : NodeRecord) :
  db !! hash_key (args_nodeHash ev) = Some node ->
  exists node',
    committed (fst (process_node_verified ev db)) !! hash_key (args_nodeHash ev)
    = Some node'
    /\ consistent node'
    /\ Models.verified node' = true.
Proof.
  intros Hlk. unfold process_node_verified. rewrite Hlk.
  recompute (set_verified true node).
  reflexivity.
Qed.

Lemma process_stake_added_recomputes (h : list byte) (total : N) (db : table)
    (node : NodeRecord) :
  db !! hash_key h = Some node ->
  exists node',
    committed (fst (process_stake_added (StakeAdded h total) db)) !! hash_key h
    = Some node'
    /\ consistent node'
    /\ Models.stake_wei node' = total.
Proof.
  intros Hlk. unfold process_stake_added. cbn [args_nodeHash args_newTotal].
  rewrite Hlk.
  recompute (set_stake_wei total node).
  reflexivity.
Qed.

Lemma process_stake_withdrawn_recomputes (chain : result Contract) (ev : event)
    (db : table) (node : NodeRecord) :
  db !! hash_key (args_nodeHash ev) = Some node ->
  exists node',
    committed (fst (process_stake_withdrawn chain ev db))
      !! hash_key (args_nodeHash ev) = Some node'
    /\ consistent node'.
Proof.
  intros Hlk. unfold process_stake_withdrawn. rewrite Hlk.
  destruct (contract <- chain ;;; getNode contract (args_nodeHash ev))
    as [on_chain | e]; cbn [fst snd].
  - recompute (set_stake_wei (oc_stake on_chain) node).
  - destruct (update_node_trust_found db _ node Hlk) as (s & t & Hs & Hu).
    rewrite Hu. cbn [fst snd committed].
    exists (set_trust s t node). split; [apply lookup_insert_eq |].
    unfold consistent. rewrite inputs_of_set_trust. exact Hs.
Qed.

End Recompute.


(** ** A heartbeat after self-registration *)

Section HeartbeatStale.
Import TrustEngine Models TrustUpdate Main.
Local Open Scope R_scope.

Ltac project_row :=
  cbn [new_node set_uptime_score set_last_seen
       Models.stake_wei Models.uptime_score Models.ai_quality_score
       Models.endorsement_count Models.complaint_count Models.verified
       TrustEngine.stake_matic TrustEngine.uptime_ratio
       TrustEngine.ai_quality_score TrustEngine.endorsement_count
       TrustEngine.complaint_count TrustEngine.total_interactions
       TrustEngine.verified Z.of_N Z.add Z.max Z.compare Z.ltb].

Lemma stake_matic_of_0 : stake_matic_of 0 = 0.
Proof. unfold stake_matic_of. cbn [Z.of_N]. unfold Rdiv. apply Rmult_0_l. Qed.

Lemma unique_in_empty (n : NodeRecord) : unique_in ∅ n.
Proof. intros h r Hlk. rewrite lookup_empty in Hlk. discriminate. Qed.

Lemma register_node_first (req : NodeRegisterRequest) (now : Z) :
  register_node req now ∅
  = Returned {[ req_node_hash req := new_node req now ]} registered.
Proof.
  unfold register_node, insert_row. rewrite lookup_empty.
  cbn [new_node Models.node_hash]. rewrite lookup_empty.
  replace (unique_violation ∅ (new_node req now)) with false.
  - rewrite insert_empty. reflexivity.
  - symmetry. apply unique_violation_false. apply unique_in_empty.
Qed.

(** C3 (fails on the code). A node registers itself and sends one
    heartbeat. Before the heartbeat its stored score and tier are those of
    the scoring function; the heartbeat raises [uptime_score] to 0.01 and
    recomputes nothing, so the row keeps [trust_score = 0] while the scoring
    function gives 0.25 for its signals. *)
Theorem heartbeat_leaves_stale_score :
  let req := mkNodeRegisterRequest "0x01" "node-1" None None None None in
  let db0 := committed (register_node req 0 ∅) in
  exists node0 node1 : NodeRecord,
    db0 !! "0x01" = Some node0
    /\ consistent node0
    /\ committed (heartbeat "0x01" None 5 db0) !! "0x01" = Some node1
    /\ Models.uptime_score node1 = 1 / 100
    /\ Models.trust_score node1 = 0
    /\ Models.trust_tier node1 = UNVERIFIED
    /\ compute_trust_score (inputs_of node1) = Ok (25 / 100, UNVERIFIED)
    /\ ~ consistent node1.
Proof.
  intros req db0.
  assert (Hdb : db0 = {[ "0x01" := new_node req 0 ]}).
  { unfold db0. rewrite register_node_first. reflexivity. }
  exists (new_node req 0).
  exists (set_uptime_score (Rmin 1 (0 + 1 / 100)) (set_last_seen (Some 5%Z) (new_node req 0))).
  assert (Hscore0 : compute_trust_score (inputs_of (new_node req 0)) = Ok (0, UNVERIFIED)).
  { rewrite compute_trust_score_of_row.
    assert (G : guarded_spec_score (inputs_of (new_node req 0)) = 0).
    { unfold guarded_spec_score, guarded_stake, guarded_complaints, spec_score, clamp, inputs_of.
      project_row.
      rewrite stake_matic_of_0.
      rewrite (Rmax_left 0 0) by lra.
      rewrite ln_1_plus_0, !Rdiv_0_l.
      eval_minmax. lra. }
    rewrite G. unfold round2. rewrite (round_half_even_near 0) by lra.
    unfold _score_to_tier. rewrite !Rgeb_false by lra. cbn.
    f_equal. f_equal. lra. }
  assert (Hscore1 : compute_trust_score (inputs_of
      (set_uptime_score (Rmin 1 (0 + 1 / 100)) (set_last_seen (Some 5%Z) (new_node req 0))))
      = Ok (25 / 100, UNVERIFIED)).
  { rewrite compute_trust_score_of_row.
    assert (G : guarded_spec_score (inputs_of
      (set_uptime_score (Rmin 1 (0 + 1 / 100)) (set_last_seen (Some 5%Z) (new_node req 0))))
      = 25 / 100).
    { unfold guarded_spec_score, guarded_stake, guarded_complaints, spec_score, clamp, inputs_of.
      project_row.
      rewrite stake_matic_of_0.
      rewrite (Rmax_left 0 0) by lra.
      rewrite ln_1_plus_0, !Rdiv_0_l.
      eval_minmax. lra. }
    rewrite G. replace (25 / 100) with (IZR 25 / 100) by lra.
    rewrite round2_hundredths.
    unfold _score_to_tier. rewrite !Rgeb_false by lra. reflexivity. }
  rewrite Hdb.
  split; [apply lookup_singleton_eq |].
  split; [exact Hscore0 |].
  split.
  { unfold heartbeat. rewrite lookup_singleton_eq. cbn [truthy committed].
    apply lookup_insert_eq. }
  split.
  { cbn [set_uptime_score Models.uptime_score]. eval_minmax. lra. }
  split; [reflexivity |].
  split; [reflexivity |].
  split; [exact Hscore1 |].
  unfold consistent. rewrite Hscore1.
  cbn [set_uptime_score set_last_seen new_node Models.trust_score Models.trust_tier].
  intros H. injection H as H. lra.
Qed.

End HeartbeatStale.

(** ** Registered events *)

Section Registered.
Import TrustEngine Models TrustUpdate EventListener Ledger.
Local Open Scope R_scope.

(** A [datetime] exists for the seconds of the years 1 to 9999, and for no
    others. *)
Lemma utcfromtimestamp_in_range (t : Z) :
  (MIN_TIMESTAMP <= t <= MAX_TIMESTAMP)%Z -> utcfromtimestamp t = Ok t.
Proof.
  intros [Hlo Hhi]. unfold utcfromtimestamp.
  apply Z.leb_le in Hlo. apply Z.leb_le in Hhi. rewrite Hlo, Hhi. reflexivity.
Qed.

Lemma utcfromtimestamp_returns (t t' : Z) :
  utcfromtimestamp t = Ok t' ->
  t' = t /\ (MIN_TIMESTAMP <= t <= MAX_TIMESTAMP)%Z.
Proof.
  unfold utcfromtimestamp.
  destruct (MIN_TIMESTAMP <=? t)%Z eqn:Hlo;
    destruct (t <=? MAX_TIMESTAMP)%Z eqn:Hhi; cbn [andb].
  - intros [= <-]. apply Z.leb_le in Hlo. apply Z.leb_le in Hhi. lia.
  - destruct (_ && _); [discriminate |]. destruct (_ && _); discriminate.
  - destruct (_ && _); [discriminate |]. destruct (_ && _); discriminate.
  - destruct (_ && _); [discriminate |]. destruct (_ && _); discriminate.
Qed.

(** A timestamp with no [datetime] makes the handler raise before it has
    queried the table. *)
Lemma process_node_registered_out_of_range (h : list byte) (w d : string)
    (t : Z) (db : table) :
  (t < MIN_TIMESTAMP \/ MAX_TIMESTAMP < t)%Z ->
  exists e : exn,
    process_node_registered (NodeRegistered h w d t) db = (Raised db e, []).
Proof.
  intros Hout. unfold process_node_registered. cbn [args_registration].
  destruct (utcfromtimestamp t) as [t' | e] eqn:Ht.
  - apply utcfromtimestamp_returns in Ht. lia.
  - exists e. reflexivity.
Qed.

Lemma process_node_registered_existing (h : list byte) (w d : string) (t : Z)
    (db : table) (r : NodeRecord) :
  (MIN_TIMESTAMP <= t <= MAX_TIMESTAMP)%Z ->
  db !! hash_key h = Some r ->
  process_node_registered (NodeRegistered h w d t) db
  = (Returned db tt,
     [mkLog INFO "NodeRegistered: already in DB, skipping. hash=%s"]).
Proof.
  intros Ht Hlk. unfold process_node_registered.
  cbn [args_nodeHash args_registration].
  rewrite (utcfromtimestamp_in_range t Ht), Hlk. reflexivity.
Qed.

Lemma process_node_registered_fresh (h : list byte) (w d : string) (t : Z)
    (db : table) :
  (MIN_TIMESTAMP <= t <= MAX_TIMESTAMP)%Z ->
  db !! hash_key h = None ->
  unique_in db (mkNodeRecord (hash_key h) "" None (Some w) (Some d) false 0%N
                  (Some t) 0 0 0 0%N 0%N UNVERIFIED None None true) ->
  process_node_registered (NodeRegistered h w d t) db
  = (Returned (<[hash_key h :=
                 mkNodeRecord (hash_key h) "" None (Some w) (Some d) false 0%N
                   (Some t) 0 0 0 0%N 0%N UNVERIFIED None None true]> db) tt,
     [mkLog INFO "NodeRegistered: %s → %s (%s)"]).
Proof.
  intros Ht Hlk Hu. unfold process_node_registered.
  cbn [args_nodeHash args_registration].
  rewrite (utcfromtimestamp_in_range t Ht), Hlk.
  unfold insert_row. cbn [Models.node_hash]. rewrite Hlk.
  apply unique_violation_false in Hu. rewrite Hu. reflexivity.
Qed.

Lemma process_node_registered_clash (h : list byte) (w d : string) (t : Z)
    (db : table) (h' : string) (r : NodeRecord) :
  (MIN_TIMESTAMP <= t <= MAX_TIMESTAMP)%Z ->
  db !! hash_key h = None ->
  db !! h' = Some r -> Models.node_id r = "" ->
  process_node_registered (NodeRegistered h w d t) db
  = (Raised db IntegrityError, []).
Proof.
  intros Ht Hlk Hother Hid. unfold process_node_registered.
  cbn [args_nodeHash args_registration].
  rewrite (utcfromtimestamp_in_range t Ht), Hlk.
  unfold insert_row. cbn [Models.node_hash]. rewrite Hlk.
  replace (unique_violation db _) with true; [reflexivity |].
  symmetry. apply unique_violation_true. exists h', r.
  split; [exact Hother |]. split.
  - cbn [Models.node_hash]. intros ->. congruence.
  - left. exact Hid.
Qed.

Lemma hash_keys_differ :
  hash_key (repeat x01 32) <> hash_key (repeat x02 32).
Proof. intros H. vm_compute in H. discriminate H. Qed.

(** C6 (fails on the code). The first Registered event creates a row with
    [verified = false], [trust_score = 0], tier UNVERIFIED and the
    placeholder [node_id = ""]; replaying it changes nothing; a Registered
    event for another hash, which has no row, creates none: the placeholder
    collides with the first row on the UNIQUE column [node_id] and the
    handler raises [IntegrityError]. *)
Theorem second_registration_rejected :
  let evA := NodeRegistered (repeat x01 32) "0xA11CE" "alice.1bz" 1700000000 in
  let evB := NodeRegistered (repeat x02 32) "0xB0B" "bob.1bz" 1700000100 in
  let db1 := committed (fst (process_node_registered evA ∅)) in
  (exists nodeA,
     db1 = {[ hash_key (repeat x01 32) := nodeA ]}
     /\ Models.verified nodeA = false
     /\ Models.trust_score nodeA = 0
     /\ Models.trust_tier nodeA = UNVERIFIED
     /\ Models.node_id nodeA = "")
  /\ fst (process_node_registered evA db1) = Returned db1 tt
  /\ db1 !! hash_key (repeat x02 32) = None
  /\ fst (process_node_registered evB db1) = Raised db1 IntegrityError.
Proof.
  intros evA evB db1.
  assert (Hdb : db1 = {[ hash_key (repeat x01 32) :=
            mkNodeRecord (hash_key (repeat x01 32)) "" None (Some "0xA11CE")
              (Some "alice.1bz") false 0%N (Some 1700000000%Z) 0 0 0 0%N 0%N
              UNVERIFIED None None true ]}).
  { unfold db1, evA. rewrite process_node_registered_fresh.
    - cbn [fst committed]. apply insert_empty.
    - unfold MIN_TIMESTAMP, MAX_TIMESTAMP. lia.
    - apply lookup_empty.
    - apply unique_in_empty. }
  assert (HB : db1 !! hash_key (repeat x02 32) = None).
  { rewrite Hdb. apply lookup_singleton_ne. exact hash_keys_differ. }
  split; [| split; [| split]].
  - eexists. split; [exact Hdb |]. repeat split; reflexivity.
  - unfold evA. erewrite process_node_registered_existing; [reflexivity | |].
    + unfold MIN_TIMESTAMP, MAX_TIMESTAMP. lia.
    + rewrite Hdb. apply lookup_singleton_eq.
  - exact HB.
  - unfold evB.
    erewrite process_node_registered_clash; [reflexivity | | exact HB | |].
    + unfold MIN_TIMESTAMP, MAX_TIMESTAMP. lia.
    + rewrite Hdb. apply lookup_singleton_eq.
    + reflexivity.
Qed.

End Registered.

(** ** Events for unknown nodes, and self-registration *)

Section UnknownHash.
Import TrustEngine Models TrustUpdate EventListener Ledger.
Local Open Scope R_scope.

(** C7 (fails on the code for two of the four handlers). For a hash that has
    no row, each of the four handlers returns without raising and leaves the
    table as it was; [process_node_verified] and [process_stake_added] log a
    warning, [process_stake_withdrawn] and [process_node_deregistered] log
    nothing. *)
Theorem unknown_hash_skipped (h : list byte) (db : table) :
  db !! hash_key h = None ->
  process_node_verified (NodeVerified h) db
  = (Returned db tt, [mkLog WARNING "NodeVerified: node not in DB. hash=%s"])
  /\ (forall total : N,
        process_stake_added (StakeAdded h total) db
        = (Returned db tt, [mkLog WARNING "StakeAdded: node not in DB. hash=%s"]))
  /\ (forall chain : result Contract,
        process_stake_withdrawn chain (StakeWithdrawn h) db = (Returned db tt, []))
  /\ process_node_deregistered (NodeDeregistered h) db = (Returned db tt, []).
Proof.
  intros Hlk. repeat split.
  - unfold process_node_verified. cbn [args_nodeHash]. rewrite Hlk. reflexivity.
  - intros total. unfold process_stake_added.
    cbn [args_nodeHash args_newTotal]. rewrite Hlk. reflexivity.
  - intros chain. unfold process_stake_withdrawn.
    cbn [args_nodeHash]. rewrite Hlk. reflexivity.
  - unfold process_node_deregistered. cbn [args_nodeHash]. rewrite Hlk.
    reflexivity.
Qed.

(** The statement above on the empty table. *)
Lemma unknown_hash_skipped_witness :
  (∅ : table) !! hash_key (repeat x01 32) = None
  /\ (process_node_verified (NodeVerified (repeat x01 32)) ∅
      = (Returned ∅ tt, [mkLog WARNING "NodeVerified: node not in DB. hash=%s"])
      /\ (forall total : N,
            process_stake_added (StakeAdded (repeat x01 32) total) ∅
            = (Returned ∅ tt, [mkLog WARNING "StakeAdded: node not in DB. hash=%s"]))
      /\ (forall chain : result Contract,
            process_stake_withdrawn chain (StakeWithdrawn (repeat x01 32)) ∅
            = (Returned ∅ tt, []))
      /\ process_node_deregistered (NodeDeregistered (repeat x01 32)) ∅
         = (Returned ∅ tt, [])).
Proof.
  split.
  - reflexivity.
  - apply (unknown_hash_skipped (repeat x01 32) ∅). reflexivity.
Defined.

End UnknownHash.

Section Upsert.
Import TrustEngine Models TrustUpdate Main.
Local Open Scope R_scope.

Lemma unique_in_singleton (h : string) (r n : NodeRecord) :
  Models.node_hash n = h -> unique_in {[ h := r ]} n.
Proof.
  intros Hn k r' Hlk Hne.
  apply lookup_singleton_Some in Hlk. destruct Hlk as [<- _].
  congruence.
Qed.

(** C9 (as amended). When a row with the request's [node_hash] exists and no
    other row holds the request's [node_id], [register_node] writes the
    request's non-empty [public_key], [ip_address] and [node_id], sets
    [last_seen], and leaves [wallet], [dns_name] and every other column as
    they were, whatever the request supplies for them; when no such row
    exists and the UNIQUE columns are free, the row [new_node req now] is
    created from the request. *)
Theorem register_node_upsert (req : NodeRegisterRequest) (now : Z) (db : table) :
  (forall existing : NodeRecord,
     db !! req_node_hash req = Some existing ->
     Models.node_hash existing = req_node_hash req ->
     unique_in db existing ->
     (forall (h : string) (r : NodeRecord),
        db !! h = Some r -> h <> req_node_hash req ->
        Models.node_id r <> req_node_id req) ->
     exists merged : NodeRecord,
       register_node req now db
       = Returned (<[req_node_hash req := merged]> db) updated
       /\ Models.public_key merged
          = (if truthy (req_public_key req) then req_public_key req
             else Models.public_key existing)
       /\ Models.ip_address merged
          = (if truthy (req_ip_address req) then req_ip_address req
             else Models.ip_address existing)
       /\ Models.node_id merged
          = (if truthy_str (req_node_id req) then req_node_id req
             else Models.node_id existing)
       /\ Models.last_seen merged = Some now
       /\ Models.wallet merged = Models.wallet existing
       /\ Models.dns_name merged = Models.dns_name existing
       /\ Models.node_hash merged = Models.node_hash existing
       /\ Models.verified merged = Models.verified existing
       /\ Models.stake_wei merged = Models.stake_wei existing
       /\ Models.registered_at merged = Models.registered_at existing
       /\ Models.trust_score merged = Models.trust_score existing
       /\ Models.uptime_score merged = Models.uptime_score existing
       /\ Models.ai_quality_score merged = Models.ai_quality_score existing
       /\ Models.complaint_count merged = Models.complaint_count existing
       /\ Models.endorsement_count merged = Models.endorsement_count existing
       /\ Models.trust_tier merged = Models.trust_tier existing
       /\ Models.active merged = Models.active existing)
  /\ (db !! req_node_hash req = None ->
      unique_in db (new_node req now) ->
      register_node req now db
      = Returned (<[req_node_hash req := new_node req now]> db) registered).
Proof.
  split.
  - intros existing Hlk Hkey Huniq Hfree.
    unfold register_node. rewrite Hlk.
    set (merged := set_last_seen (Some now) _).
    assert (Hhash : Models.node_hash merged = req_node_hash req).
    { unfold merged.
      destruct (truthy (req_public_key req)), (truthy (req_ip_address req)),
        (truthy_str (req_node_id req)); exact Hkey. }
    assert (Hdns : Models.dns_name merged = Models.dns_name existing).
    { unfold merged.
      destruct (truthy (req_public_key req)), (truthy (req_ip_address req)),
        (truthy_str (req_node_id req)); reflexivity. }
    assert (Hid : Models.node_id merged
                  = (if truthy_str (req_node_id req) then req_node_id req
                     else Models.node_id existing)).
    { unfold merged.
      destruct (truthy (req_public_key req)), (truthy (req_ip_address req)),
        (truthy_str (req_node_id req)); reflexivity. }
    assert (Hu : unique_violation db merged = false).
    { apply unique_violation_false. intros h r Hr Hne.
      rewrite Hhash in Hne. rewrite Hdns, Hid.
      assert (Hne' : h <> Models.node_hash existing) by congruence.
      destruct (Huniq h r Hr Hne') as [Hid' Hdns'].
      split; [| exact Hdns'].
      destruct (truthy_str (req_node_id req)).
      - apply (Hfree h r Hr Hne).
      - exact Hid'. }
    exists merged.
    split; [unfold update_row; rewrite Hu, Hhash; reflexivity |].
    unfold merged.
    destruct (truthy (req_public_key req)), (truthy (req_ip_address req)),
      (truthy_str (req_node_id req)); repeat split; reflexivity.
  - intros Hlk Hu. unfold register_node. rewrite Hlk.
    unfold insert_row. cbn [new_node Models.node_hash]. rewrite Hlk.
    apply unique_violation_false in Hu. cbn [new_node] in Hu. rewrite Hu.
    reflexivity.
Qed.

(** C9 (as stated) fails: a request that supplies a wallet and a DNS name
    for an existing row leaves the row's wallet and DNS name as they were. *)
Lemma register_node_ignores_wallet_and_dns_name :
  let existing :=
    mkNodeRecord "0x01" "" None (Some "0xA11CE") (Some "alice.1bz") false 0%N
      (Some 17%Z) 0 0 0 0%N 0%N UNVERIFIED None None true in
  let req :=
    mkNodeRegisterRequest "0x01" "node-1" (Some "PEM") (Some "0xB0B")
      (Some "bob.1bz") (Some "10.0.0.1") in
  exists merged : NodeRecord,
    register_node req 99 {[ "0x01" := existing ]}
    = Returned {[ "0x01" := merged ]} updated
    /\ req_wallet req = Some "0xB0B"
    /\ Models.wallet merged = Some "0xA11CE"
    /\ req_dns_name req = Some "bob.1bz"
    /\ Models.dns_name merged = Some "alice.1bz".
Proof.
  intros existing req.
  unfold register_node. cbn [req_node_hash req]. rewrite lookup_singleton_eq.
  cbn [req_public_key req_ip_address req_node_id req truthy truthy_str String.eqb Ascii.eqb Bool.eqb negb].
  unfold update_row.
  match goal with
  | |- context [unique_violation ?d ?n] =>
      replace (unique_violation d n) with false
  end.
  - eexists. cbn [Models.node_hash set_last_seen set_node_id set_ip_address set_public_key existing].
    rewrite insert_singleton_eq.
    split; [reflexivity |]. repeat split; reflexivity.
  - symmetry. apply unique_violation_false. apply unique_in_singleton. reflexivity.
Qed.

(** The statement above for a row created from the ledger and a request that
    supplies a node id and a public key. *)
Lemma register_node_upsert_witness :
  let existing :=
    mkNodeRecord "0x01" "" None (Some "0xA11CE") (Some "alice.1bz") false 0%N
      (Some 17%Z) 0 0 0 0%N 0%N UNVERIFIED None None true in
  let req :=
    mkNodeRegisterRequest "0x01" "node-1" (Some "PEM") None None None in
  ({[ "0x01" := existing ]} : table) !! req_node_hash req = Some existing
  /\ Models.node_hash existing = req_node_hash req
  /\ exists merged : NodeRecord,
       register_node req 99 {[ "0x01" := existing ]}
       = Returned (<["0x01" := merged]> {[ "0x01" := existing ]}) updated
       /\ Models.public_key merged = Some "PEM"
       /\ Models.node_id merged = "node-1"
       /\ Models.wallet merged = Some "0xA11CE"
       /\ Models.dns_name merged = Some "alice.1bz".
Proof.
  intros existing req.
  split; [apply lookup_singleton_eq |]. split; [reflexivity |].
  destruct (register_node_upsert req 99 {[ "0x01" := existing ]}) as [Hmerge _].
  destruct (Hmerge existing) as (merged & Hret & Hpk & _ & Hid & _ & Hw & Hd & _).
  - apply lookup_singleton_eq.
  - reflexivity.
  - apply unique_in_singleton. reflexivity.
  - intros h r Hlk Hne. apply lookup_singleton_Some in Hlk.
    destruct Hlk as [<- _]. contradiction Hne. reflexivity.
  - exists merged. split; [exact Hret |]. split; [exact Hpk |].
    split; [exact Hid |]. split; [exact Hw | exact Hd].
Defined.

End Upsert.

(** ** The polling loop and its checkpoint *)

Section Listener.
Import TrustEngine Models TrustUpdate EventListener Ledger.



(** Every [get_logs] call of a pass asks for the same range. *)
Lemma poll_events_fetched (contract : Contract)
    (handlers : list (string * (event -> table -> handler_result)))
    (lo hi : Z) (db : table) (failed : bool) (name : string) (a b : Z) :
  In (name, a, b) (b_fetched (poll_events contract handlers lo hi db failed)) ->
  a = lo /\ b = hi.
Proof.
  revert db failed.
  induction handlers as [| [event_name handler] rest IH]; intros db failed Hin.
  - destruct Hin.
  - cbn [poll_events] in Hin.
    destruct (events contract event_name) as [get_logs |].
    + destruct (get_logs lo hi) as [evs | e]; cbn [b_fetched] in Hin.
      * destruct Hin as [Heq | Hin].
        -- injection Heq as _ <- <-. split; reflexivity.
        -- apply (IH _ _ Hin).
      * destruct Hin as [Heq | []].
        injection Heq as _ <- <-. split; reflexivity.
    + apply (IH _ _ Hin).
Qed.












End Listener.

Section ListenerExamples.
Import TrustEngine Models TrustUpdate EventListener Ledger.


(** Two Registered events in one range, the second of which makes its
    handler raise: the error is logged, the second node has no row, and the
    file is advanced all the same. *)
Lemma failed_handler_does_not_stall :
  let evA := NodeRegistered (repeat x01 32) "0xA11CE" "alice.1bz" 1700000000 in
  let evB := NodeRegistered (repeat x02 32) "0xB0B" "bob.1bz" 1700000100 in
  let ledger :=
    mkContract (fun _ => Raise ConnectionError) (fun _ => Raise ConnectionError)
      (fun name =>
         if String.eqb name "NodeRegistered" then Some (fun _ _ => Ok [evA; evB])
         else Some (fun _ _ => Ok [])) in
  let obs := mkObservation (Ok 17%Z) ledger (Ok ledger) in
  let it := iteration obs (startup (Some 10%Z) 17) ∅ in
  In (mkLog ERROR "Error processing %s event: %s") (b_logs (snd it))
  /\ b_db (snd it) !! hash_key (repeat x02 32) = None
  /\ last_block_file (fst it) = Some 16%Z.
Proof.
  cbv zeta.
  split; [| split].
  - vm_compute. tauto.
  - vm_compute. reflexivity.
  - vm_compute. reflexivity.
Qed.

(** After the commit that failed, the pass applies nothing more: a Verified
    event for the first node, found in the same range, leaves the node
    unverified, and its error is logged after that of the registration. *)
Lemma failed_commit_ends_the_writes_of_the_pass :
  let evA := NodeRegistered (repeat x01 32) "0xA11CE" "alice.1bz" 1700000000 in
  let evB := NodeRegistered (repeat x02 32) "0xB0B" "bob.1bz" 1700000100 in
  let ledger :=
    mkContract (fun _ => Raise ConnectionError) (fun _ => Raise ConnectionError)
      (fun name =>
         if String.eqb name "NodeRegistered" then Some (fun _ _ => Ok [evA; evB])
         else if String.eqb name "NodeVerified"
         then Some (fun _ _ => Ok [NodeVerified (repeat x01 32)])
         else Some (fun _ _ => Ok [])) in
  let obs := mkObservation (Ok 17%Z) ledger (Ok ledger) in
  let it := iteration obs (startup (Some 10%Z) 17) ∅ in
  (exists nodeA : NodeRecord,
     b_db (snd it) !! hash_key (repeat x01 32) = Some nodeA
     /\ Models.verified nodeA = false)
  /\ b_logs (snd it)
     = [mkLog INFO "NodeRegistered: %s → %s (%s)";
        mkLog ERROR "Error processing %s event: %s";
        mkLog ERROR "Error processing %s event: %s"]
  /\ last_block_file (fst it) = Some 16%Z.
Proof.
  cbv zeta.
  split; [| split].
  - eexists. split; [vm_compute; reflexivity | reflexivity].
  - vm_compute. reflexivity.
  - vm_compute. reflexivity.
Qed.


End ListenerExamples.

(** ** Name resolution *)

Section Hex.
Import Bytes.

Lemma hex_byte_roundtrip (b : byte) :
  hex_value (hex_digit (Byte.to_N b / 16)) = Some (Byte.to_N b / 16)%N
  /\ hex_value (hex_digit (Byte.to_N b mod 16)) = Some (Byte.to_N b mod 16)%N
  /\ Byte.of_N (Byte.to_N b / 16 * 16 + Byte.to_N b mod 16) = Some b.
Proof. destruct b; vm_compute; repeat split; reflexivity. Qed.

Lemma fromhex_hex (bs : list byte) : fromhex (hex bs) = Ok bs.
Proof.
  induction bs as [| b rest IH].
  - reflexivity.
  - cbn [hex fromhex].
    destruct (hex_byte_roundtrip b) as (-> & -> & ->).
    rewrite IH. reflexivity.
Qed.

Lemma drop2_prefix (s : string) : drop2 ("0x" +:+ s) = s.
Proof. reflexivity. Qed.

Lemma eqb_true (a b : list byte) : Bytes.eqb a b = true <-> a = b.
Proof.
  unfold Bytes.eqb. destruct (List.list_eq_dec byte_eq_dec a b); split;
    congruence.
Qed.

Lemma eqb_false (a b : list byte) : Bytes.eqb a b = false <-> a <> b.
Proof.
  unfold Bytes.eqb. destruct (List.list_eq_dec byte_eq_dec a b); split;
    congruence.
Qed.

End Hex.

Section Resolver.
Import TrustEngine Models Ledger DnsResolver.
Local Open Scope R_scope.

Lemma resolve_on_chain_found (self : BizNodeDNSResolver) (name : string)
    (c : Contract) (bs : list byte) :
  _get_contract self = Ok c -> resolveDNS c name = Ok bs -> bs <> Bytes.zero32 ->
  resolve_on_chain self name = Some ("0x" +:+ Bytes.hex bs).
Proof.
  intros Hc Hr Hnz. unfold resolve_on_chain. rewrite Hc. cbn [bind]. rewrite Hr.
  apply eqb_false in Hnz. rewrite Hnz. reflexivity.
Qed.

(** C4 (as amended). If the ledger maps the name to the zero hash, [resolve]
    returns nothing, whatever the off-chain table holds. If the ledger maps
    it to a hash that has no off-chain row, then [resolve] returns, when the
    view call [getNode] succeeds, a record with the ledger's wallet, verified
    flag and active flag, no public key or address, [trust_score = 0] and
    the tier VERIFIED for a verified node and UNVERIFIED otherwise; when the
    view call raises, [resolve] returns nothing. *)
Theorem resolve_follows_ledger (self : BizNodeDNSResolver) (name : string) :
  (forall c : Contract,
     _get_contract self = Ok c -> resolveDNS c name = Ok Bytes.zero32 ->
     resolve self name = None)
  /\ (forall (c : Contract) (bs : list byte),
        _get_contract self = Ok c -> resolveDNS c name = Ok bs ->
        bs <> Bytes.zero32 ->
        resolve_off_chain self ("0x" +:+ Bytes.hex bs) = None ->
        (forall on_chain : OnChainNode,
           getNode c bs = Ok on_chain ->
           resolve self name
           = Some (mkDNSRecord name ("0x" +:+ Bytes.hex bs)
                     (Some (oc_wallet on_chain)) None None 0
                     (if oc_verified on_chain then VERIFIED else UNVERIFIED)
                     (oc_verified on_chain) (oc_active on_chain)))
        /\ (forall e : exn, getNode c bs = Raise e -> resolve self name = None)).
Proof.
  split.
  - intros c Hc Hr. unfold resolve, resolve_on_chain.
    rewrite Hc. cbn [bind]. rewrite Hr.
    replace (Bytes.eqb Bytes.zero32 Bytes.zero32) with true
      by (symmetry; apply eqb_true; reflexivity).
    reflexivity.
  - intros c bs Hc Hr Hnz Hoff.
    assert (Hon := resolve_on_chain_found self name c bs Hc Hr Hnz).
    split.
    + intros on_chain Hg. unfold resolve. rewrite Hon, Hoff, Hc. cbn [bind].
      rewrite drop2_prefix, fromhex_hex. cbn [bind]. rewrite Hg. reflexivity.
    + intros e Hg. unfold resolve. rewrite Hon, Hoff, Hc. cbn [bind].
      rewrite drop2_prefix, fromhex_hex. cbn [bind]. rewrite Hg. reflexivity.
Qed.

(** C4 (as stated) fails: for a name claimed on the ledger by a verified node
    with no off-chain row, the degraded record has the tier VERIFIED, not a
    zeroed one; and when the view call raises, nothing is returned. *)
Lemma degraded_record_not_zeroed :
  let ledger (view : result OnChainNode) :=
    mkContract
      (fun name => if String.eqb name "known.alias" then Ok (repeat x01 32)
                   else Ok Bytes.zero32)
      (fun _ => view)
      (fun _ => None) in
  let lagging (view : result OnChainNode) := mkResolver (Some ∅) (Ok (ledger view)) in
  (exists record : DNSRecord,
     resolve (lagging (Ok (mkOnChainNode "0xA11CE" true 0 true))) "known.alias"
     = Some record
     /\ trust_score record = 0
     /\ trust_tier record = VERIFIED)
  /\ resolve (lagging (Raise ConnectionError)) "known.alias" = None.
Proof.
  cbv zeta.
  split.
  - eexists. split; [| split].
    + unfold resolve, resolve_on_chain, resolve_off_chain.
      cbn [_get_contract _db bind resolveDNS String.eqb Ascii.eqb Bool.eqb].
      replace (Bytes.eqb (repeat x01 32) Bytes.zero32) with false
        by (symmetry; apply eqb_false; discriminate).
      rewrite lookup_empty. cbn [bind].
      rewrite drop2_prefix, fromhex_hex. cbn [bind getNode oc_wallet oc_verified oc_active].
      reflexivity.
    + reflexivity.
    + reflexivity.
  - unfold resolve, resolve_on_chain, resolve_off_chain.
    cbn [_get_contract _db bind resolveDNS String.eqb Ascii.eqb Bool.eqb].
    replace (Bytes.eqb (repeat x01 32) Bytes.zero32) with false
      by (symmetry; apply eqb_false; discriminate).
    rewrite lookup_empty. cbn [bind].
    rewrite drop2_prefix, fromhex_hex. reflexivity.
Qed.


(** The statement above for a ledger that knows one name, owned by an
    unverified node with no off-chain row. *)
Lemma resolve_follows_ledger_witness :
  let ledger :=
    mkContract
      (fun name => if String.eqb name "known.alias" then Ok (repeat x01 32)
                   else Ok Bytes.zero32)
      (fun _ => Ok (mkOnChainNode "0xA11CE" false 0 true))
      (fun _ => None) in
  let self := mkResolver (Some ∅) (Ok ledger) in
  resolve self "ghost.alias" = None
  /\ resolve self "known.alias"
     = Some (mkDNSRecord "known.alias" ("0x" +:+ Bytes.hex (repeat x01 32))
               (Some "0xA11CE") None None 0 UNVERIFIED false true).
Proof.
  intros ledger self. split.
  - destruct (resolve_follows_ledger self "ghost.alias") as [Habsent _].
    apply (Habsent ledger); reflexivity.
  - destruct (resolve_follows_ledger self "known.alias") as [_ Hlag].
    destruct (Hlag ledger (repeat x01 32)) as [Hview _].
    + reflexivity.
    + reflexivity.
    + discriminate.
    + reflexivity.
    + apply (Hview (mkOnChainNode "0xA11CE" false 0 true)). reflexivity.
Defined.

End Resolver.

(** ** Endorsements, one after the other and interleaved *)

Section Endorsements.
Import TrustEngine Models TrustUpdate Main Concurrent.
Local Open Scope R_scope.

Lemma alter_found (f : NodeRecord -> NodeRecord) (h : string) (db : table)
    (node : NodeRecord) :
  db !! h = Some node -> alter f h db = <[h := f node]> db.
Proof.
  intros Hlk. apply map_eq. intros k.
  destruct (decide (h = k)) as [<- | Hne].
  - rewrite lookup_alter_eq, lookup_insert_eq, Hlk. reflexivity.
  - rewrite lookup_alter_ne, lookup_insert_ne by exact Hne. reflexivity.
Qed.

Lemma endorse_node_found (h : string) (db : table) (node : NodeRecord) :
  db !! h = Some node ->
  exists (s : R) (t : tier),
    endorse_node h db
    = Returned
        (<[h := set_trust s t
                  (set_endorsement_count (Models.endorsement_count node + 1)%N node)]> db)
        (s, t).
Proof.
  intros Hlk. unfold endorse_node. rewrite Hlk.
  destruct (recompute_after_write db h
              (set_endorsement_count (Models.endorsement_count node + 1)%N node))
    as (s & t & _ & Hu).
  exists s, t. exact Hu.
Qed.

(** A request that runs alone does what [endorse_node] does. *)
Lemma request_alone (h : string) (db : table) (node : NodeRecord) :
  db !! h = Some node ->
  exists r : R * tier,
    endorse_node h db = Returned (snd (run h [0; 0; 0; 0]%nat ([AtQuery], db))) r
    /\ fst (run h [0; 0; 0; 0]%nat ([AtQuery], db)) = [Finished (Ok r)].
Proof.
  intros Hlk.
  destruct (endorse_node_found h db node Hlk) as (s & t & He).
  exists (s, t). rewrite He.
  unfold endorse_node in He. rewrite Hlk in He.
  cbn [run step fst snd lookup list_lookup insert list_insert thread_step].
  rewrite Hlk.
  cbn [run step fst snd lookup list_lookup insert list_insert thread_step
       set_endorsement_count Models.endorsement_count].
  rewrite (alter_found _ h db node Hlk).
  cbn [set_endorsement_count] in He |- *.
  rewrite He. cbn [fst snd]. split; reflexivity.
Qed.

(** C8 (as amended). [n] calls of [endorse_node] for a registered hash, each
    completed before the next begins, leave [endorsement_count] exactly [n]
    greater. *)
Theorem sequential_endorsements_counted (n : nat) (h : string) (db : table)
    (node : NodeRecord) :
  db !! h = Some node ->
  exists node' : NodeRecord,
    endorse_times n h db !! h = Some node'
    /\ Models.endorsement_count node'
       = (Models.endorsement_count node + N.of_nat n)%N.
Proof.
  revert db node. induction n as [| n IH]; intros db node Hlk.
  - exists node. split; [exact Hlk |]. cbn. lia.
  - cbn [endorse_times].
    destruct (endorse_node_recomputes h db node Hlk) as (node1 & Hlk1 & _ & Hc1).
    destruct (IH _ node1 Hlk1) as (node' & Hlk' & Hc').
    exists node'. split; [exact Hlk' |]. rewrite Hc', Hc1. lia.
Qed.

Lemma interleaved_endorsements_lose_update (h : string) (db : table)
    (node : NodeRecord) :
  db !! h = Some node ->
  exists (final : NodeRecord) (r0 r1 : R * tier),
    run h [0; 1; 0; 0; 1; 1; 0; 1]%nat ([AtQuery; AtQuery], db)
    = ([Finished (Ok r0); Finished (Ok r1)], <[h := final]> db)
    /\ Models.endorsement_count final = (Models.endorsement_count node + 1)%N.
Proof.
  intros Hlk.
  set (bumped := set_endorsement_count (Models.endorsement_count node + 1)%N node).
  destruct (recompute_after_write db h bumped) as (s0 & t0 & Hs0 & Hu0).
  destruct (recompute_after_write db h (set_trust s0 t0 bumped))
    as (s1 & t1 & Hs1 & Hu1).
  exists (set_trust s1 t1 (set_trust s0 t0 bumped)), (s0, t0), (s1, t1).
  split; [| reflexivity].
  cbn [run step fst snd lookup list_lookup insert list_insert thread_step].
  rewrite Hlk.
  cbn [run step fst snd lookup list_lookup insert list_insert thread_step].
  rewrite Hlk.
  cbn [run step fst snd lookup list_lookup insert list_insert thread_step].
  rewrite (alter_found _ h db node Hlk).
  fold bumped.
  replace (set_endorsement_count (Models.endorsement_count bumped) node) with bumped
    by reflexivity.
  rewrite (alter_found _ h (<[h := bumped]> db) bumped) by apply lookup_insert_eq.
  replace (set_endorsement_count (Models.endorsement_count bumped) bumped) with bumped
    by reflexivity.
  rewrite insert_insert_eq.
  rewrite Hu0. cbn [fst snd].
  rewrite Hu1. cbn [fst snd].
  reflexivity.
Qed.


(** The statement above for three calls on a freshly registered node. *)
Lemma sequential_endorsements_counted_witness :
  let node0 :=
    new_node (mkNodeRegisterRequest "0x01" "node-1" None None None None) 0 in
  ({[ "0x01" := node0 ]} : table) !! "0x01" = Some node0
  /\ exists node' : NodeRecord,
       endorse_times 3 "0x01" {[ "0x01" := node0 ]} !! "0x01" = Some node'
       /\ Models.endorsement_count node'
          = (Models.endorsement_count node0 + N.of_nat 3)%N.
Proof.
  intros node0. split.
  - apply lookup_singleton_eq.
  - apply (sequential_endorsements_counted 3 "0x01" {[ "0x01" := node0 ]} node0).
    apply lookup_singleton_eq.
Defined.

(** C8 (as stated) fails: two requests for the same hash, both reading the
    row before either commits, both finish successfully and leave the
    counter at 1. *)
Lemma two_interleaved_endorsements_counted_once :
  let node0 :=
    new_node (mkNodeRegisterRequest "0x01" "node-1" None None None None) 0 in
  exists (final : NodeRecord) (r0 r1 : R * tier),
    run "0x01" [0; 1; 0; 0; 1; 1; 0; 1]%nat
      ([AtQuery; AtQuery], {[ "0x01" := node0 ]})
    = ([Finished (Ok r0); Finished (Ok r1)], {[ "0x01" := final ]})
    /\ Models.endorsement_count node0 = 0%N
    /\ Models.endorsement_count final = 1%N.
Proof.
  intros node0.
  destruct (interleaved_endorsements_lose_update "0x01" {[ "0x01" := node0 ]} node0)
    as (final & r0 & r1 & Hrun & Hcount).
  { apply lookup_singleton_eq. }
  exists final, r0, r1.
  rewrite Hrun, insert_singleton_eq.
  split; [reflexivity |]. split; [reflexivity | exact Hcount].
Qed.

End Endorsements.

(** * Further properties

    ** Rounding and the logarithmic terms are monotone *)

Section Monotone.
Import TrustEngine Tiers.
Local Open Scope R_scope.

Lemma round_half_even_mono (x y : R) :
  x <= y -> (round_half_even x <= round_half_even y)%Z.
Proof.
  intros Hxy.
  destruct (Int_part_bounds x) as [Hxl Hxh].
  destruct (Int_part_bounds y) as [Hyl Hyh].
  assert (Hf : (Int_part x <= Int_part y)%Z).
  { assert (H : (Int_part x < Int_part y + 1)%Z).
    { apply lt_IZR. rewrite plus_IZR. lra. }
    lia. }
  destruct (Z.eq_dec (Int_part x) (Int_part y)) as [Heq | Hne].
  - unfold round_half_even. rewrite Heq.
    assert (Hd : x - IZR (Int_part y) <= y - IZR (Int_part y)) by lra.
    destruct (Rlt_dec (x - IZR (Int_part y)) (1 / 2));
      destruct (Rlt_dec (y - IZR (Int_part y)) (1 / 2));
      destruct (Rlt_dec (1 / 2) (x - IZR (Int_part y)));
      destruct (Rlt_dec (1 / 2) (y - IZR (Int_part y)));
      destruct (Z.even (Int_part y)); try lia; lra.
  - destruct (round_half_even_cases x) as [[-> _] | [-> _]];
      destruct (round_half_even_cases y) as [[-> _] | [-> _]]; lia.
Qed.

Lemma round2_mono (x y : R) : x <= y -> round2 x <= round2 y.
Proof.
  intros Hxy. unfold round2.
  assert (H : (round_half_even (x * 100) <= round_half_even (y * 100))%Z).
  { apply round_half_even_mono. lra. }
  apply IZR_le in H. lra.
Qed.

Lemma Int_part_shift (y : R) (n : Z) : Int_part (y + IZR n) = (Int_part y + n)%Z.
Proof.
  symmetry. apply Int_part_spec.
  destruct (Int_part_bounds y) as [Hl Hh].
  rewrite plus_IZR. lra.
Qed.

Lemma round_half_even_shift (y : R) (k : Z) :
  round_half_even (y + IZR (2 * k)) = (round_half_even y + 2 * k)%Z.
Proof.
  unfold round_half_even. rewrite Int_part_shift.
  replace (y + IZR (2 * k) - IZR (Int_part y + 2 * k)) with (y - IZR (Int_part y))
    by (rewrite plus_IZR; lra).
  replace (Z.even (Int_part y + 2 * k)) with (Z.even (Int_part y)).
  - destruct (Rlt_dec (y - IZR (Int_part y)) (1 / 2)); [reflexivity |].
    destruct (Rlt_dec (1 / 2) (y - IZR (Int_part y))); [lia |].
    destruct (Z.even (Int_part y)); lia.
  - rewrite Z.even_add, Z.even_mul. cbn.
    destruct (Z.even (Int_part y)); reflexivity.
Qed.

Lemma round2_plus_10 (x : R) : round2 (x + 10) = round2 x + 10.
Proof.
  unfold round2.
  replace ((x + 10) * 100) with (x * 100 + IZR (2 * 500))
    by (change (IZR (2 * 500)) with 1000; lra).
  rewrite round_half_even_shift, plus_IZR.
  change (IZR (2 * 500)) with 1000. lra.
Qed.

Ltac clamp_cases :=
  unfold Rmin;
  repeat match goal with
  | |- context [Rle_dec ?a ?b] =>
      lazymatch a with context [Rle_dec] => fail | _ => idtac end;
      lazymatch b with context [Rle_dec] => fail | _ => idtac end;
      destruct (Rle_dec a b)
  end;
  unfold Rmax;
  repeat match goal with
  | |- context [Rle_dec ?a ?b] => destruct (Rle_dec a b)
  end;
  lra.

Lemma clamp_mono (x y : R) :
  x <= y -> Rmax 0 (Rmin 100 x) <= Rmax 0 (Rmin 100 y).
Proof.
  intros H. clamp_cases.
Qed.

Lemma clamp_shift (x d : R) :
  0 <= d -> Rmax 0 (Rmin 100 (x + d)) <= Rmax 0 (Rmin 100 x) + d.
Proof.
  intros H. clamp_cases.
Qed.

Lemma unit_clamp_mono (x y : R) :
  x <= y -> Rmax 0 (Rmin 1 x) <= Rmax 0 (Rmin 1 y).
Proof.
  intros H. clamp_cases.
Qed.

Lemma ln_le (a b : R) : 0 < a -> a <= b -> ln a <= ln b.
Proof.
  intros Ha [Hlt | ->].
  - left. apply ln_increasing; assumption.
  - right. reflexivity.
Qed.

Lemma log_norm_mono (a b cap : R) :
  0 <= a -> a <= b -> 0 < cap ->
  Rmin (ln (1 + a) / ln (1 + cap)) 1 <= Rmin (ln (1 + b) / ln (1 + cap)) 1.
Proof.
  intros Ha Hab Hcap.
  assert (Hl : ln (1 + a) <= ln (1 + b)) by (apply ln_le; lra).
  assert (Hc : 0 < / ln (1 + cap)).
  { apply Rinv_0_lt_compat, ln_gt_0. lra. }
  apply Rle_min_compat_r. unfold Rdiv. nra.
Qed.

Lemma log_norm_saturated (a cap : R) :
  0 < cap -> cap <= a -> Rmin (ln (1 + a) / ln (1 + cap)) 1 = 1.
Proof.
  intros Hcap Ha.
  assert (Hl : ln (1 + cap) <= ln (1 + a)) by (apply ln_le; lra).
  assert (Hc : 0 < ln (1 + cap)) by (apply ln_gt_0; lra).
  apply Rmin_right.
  apply Rmult_le_reg_r with (ln (1 + cap)); [exact Hc |].
  unfold Rdiv. rewrite Rmult_assoc, Rinv_l by lra. lra.
Qed.

Lemma log_norm_range (a cap : R) :
  0 <= a -> 0 < cap -> 0 <= Rmin (ln (1 + a) / ln (1 + cap)) 1 <= 1.
Proof.
  intros Ha Hcap. split; [| apply Rmin_r].
  apply Rmin_glb; [| lra].
  assert (Hl : 0 <= ln (1 + a)).
  { rewrite <- ln_1. apply ln_le; lra. }
  assert (Hc : 0 < / ln (1 + cap)).
  { apply Rinv_0_lt_compat, ln_gt_0. lra. }
  unfold Rdiv. nra.
Qed.

End Monotone.

(** ** The scoring function: domain, monotonicity, saturation, bands *)

Section TrustEngineMore.
Import TrustEngine Tiers.
Local Open Scope R_scope.

Lemma tier_mono (x y : R) (v w : bool) :
  x <= y -> (v = true -> w = true) ->
  (rank (_score_to_tier x v) <= rank (_score_to_tier y w))%nat.
Proof.
  intros Hxy Hvw. unfold _score_to_tier, Rgeb.
  destruct (Rle_dec 90 x), (Rle_dec 90 y), (Rle_dec 70 x), (Rle_dec 70 y),
    (Rle_dec 40 x), (Rle_dec 40 y); try lra;
    destruct v, w; cbn; try lia; specialize (Hvw eq_refl); discriminate.
Qed.

(** The reference formula is monotone in each of its six terms. *)
Lemma spec_score_mono (s1 s2 u1 u2 a1 a2 : R) (e1 e2 c1 c2 t1 t2 : Z)
    (v1 v2 : bool) :
  Rmin (ln (1 + s1) / ln (1 + 1000)) 1 <= Rmin (ln (1 + s2) / ln (1 + 1000)) 1 ->
  u1 <= u2 -> a1 <= a2 ->
  Rmin (ln (1 + IZR e1) / ln (1 + 100)) 1
  <= Rmin (ln (1 + IZR e2) / ln (1 + 100)) 1 ->
  Rmin (IZR c2 / IZR (Z.max t2 1)) 1 <= Rmin (IZR c1 / IZR (Z.max t1 1)) 1 ->
  (v1 = true -> v2 = true) ->
  spec_score s1 u1 a1 e1 c1 t1 v1 <= spec_score s2 u2 a2 e2 c2 t2 v2.
Proof.
  intros Hs Hu Ha He Hc Hv. unfold spec_score, clamp.
  apply clamp_mono.
  pose proof (unit_clamp_mono u1 u2 Hu) as Hu'.
  pose proof (unit_clamp_mono a1 a2 Ha) as Ha'.
  assert (Hb : (if v1 then 10 else 0) <= (if v2 then 10 else 0)).
  { destruct v1, v2; try lra; specialize (Hv eq_refl); discriminate. }
  lra.
Qed.

Lemma guarded_stake_norm_mono (i1 i2 : TrustInputs) :
  stake_matic i1 <= stake_matic i2 ->
  Rmin (ln (1 + guarded_stake i1) / ln (1 + 1000)) 1
  <= Rmin (ln (1 + guarded_stake i2) / ln (1 + 1000)) 1.
Proof.
  intros H. unfold guarded_stake. apply log_norm_mono; [| | lra].
  - apply Rmax_r.
  - apply Rle_max_compat_r. exact H.
Qed.

Lemma endorsement_norm_mono (e1 e2 : Z) :
  (0 <= e1 <= e2)%Z ->
  Rmin (ln (1 + IZR e1) / ln (1 + 100)) 1
  <= Rmin (ln (1 + IZR e2) / ln (1 + 100)) 1.
Proof.
  intros [H0 H12]. apply IZR_le in H0. apply IZR_le in H12.
  apply log_norm_mono; lra.
Qed.

Lemma ratio_mono (c1 c2 t : Z) :
  (c1 <= c2)%Z ->
  Rmin (IZR c1 / IZR (Z.max t 1)) 1 <= Rmin (IZR c2 / IZR (Z.max t 1)) 1.
Proof.
  intros H. apply IZR_le in H.
  assert (Ht : 0 < / IZR (Z.max t 1)).
  { apply Rinv_0_lt_compat. apply IZR_lt. lia. }
  apply Rle_min_compat_r. unfold Rdiv. nra.
Qed.

(** X1. At int arguments that convert to floats, [compute_trust_score]
    raises [ValueError] exactly when the endorsement count is negative, and
    returns a score and a tier exactly when it is not. *)
Theorem compute_trust_score_domain (i : TrustInputs) :
  ints_convert i ->
  ((endorsement_count i < 0)%Z <-> compute_trust_score i = Raise ValueError)
  /\ ((0 <= endorsement_count i)%Z
      <-> exists (s : R) (t : tier), compute_trust_score i = Ok (s, t)).
Proof.
  intros _.
  destruct (Z.lt_ge_cases (endorsement_count i) 0) as [Hneg | Hpos].
  - pose proof (compute_trust_score_raises i Hneg) as Hr.
    split; split; try lia; try (intros _; exact Hr).
    intros (s & t & Hok). congruence.
  - pose proof (compute_trust_score_guarded i Hpos) as Hok.
    split; split; try lia.
    + intros Hr. congruence.
    + intros _. eexists. eexists. exact Hok.
Qed.

(** X2. At int arguments that convert to floats: more stake, uptime,
    quality or endorsements, the complaints, the interactions and the
    verified flag being equal, never give a lower returned score or a lower
    tier. *)
Theorem score_monotone_in_signals (i1 i2 : TrustInputs) :
  ints_convert i1 -> ints_convert i2 ->
  stake_matic i1 <= stake_matic i2 ->
  uptime_ratio i1 <= uptime_ratio i2 ->
  ai_quality_score i1 <= ai_quality_score i2 ->
  (0 <= endorsement_count i1 <= endorsement_count i2)%Z ->
  complaint_count i1 = complaint_count i2 ->
  total_interactions i1 = total_interactions i2 ->
  verified i1 = verified i2 ->
  exists (s1 s2 : R) (t1 t2 : tier),
    compute_trust_score i1 = Ok (s1, t1)
    /\ compute_trust_score i2 = Ok (s2, t2)
    /\ s1 <= s2
    /\ (rank t1 <= rank t2)%nat.
Proof.
  intros _ _ Hs Hu Ha He Hc Ht Hv.
  rewrite (compute_trust_score_guarded i1) by lia.
  rewrite (compute_trust_score_guarded i2) by lia.
  assert (Hle : guarded_spec_score i1 <= guarded_spec_score i2).
  { unfold guarded_spec_score. apply spec_score_mono.
    - apply guarded_stake_norm_mono. exact Hs.
    - exact Hu.
    - exact Ha.
    - apply endorsement_norm_mono. exact He.
    - unfold guarded_complaints. rewrite Hc, Ht. lra.
    - rewrite Hv. tauto. }
  do 4 eexists. split; [reflexivity |]. split; [reflexivity |]. split.
  - apply round2_mono. exact Hle.
  - apply tier_mono; [exact Hle | rewrite Hv; tauto].
Qed.

(** X3. At int arguments that convert to floats: more complaints,
    everything else being equal, never give a higher returned score or a
    higher tier. *)
Theorem score_antitone_in_complaints (i1 i2 : TrustInputs) :
  ints_convert i1 -> ints_convert i2 ->
  (complaint_count i1 <= complaint_count i2)%Z ->
  (0 <= endorsement_count i1)%Z ->
  stake_matic i1 = stake_matic i2 ->
  uptime_ratio i1 = uptime_ratio i2 ->
  ai_quality_score i1 = ai_quality_score i2 ->
  endorsement_count i1 = endorsement_count i2 ->
  total_interactions i1 = total_interactions i2 ->
  verified i1 = verified i2 ->
  exists (s1 s2 : R) (t1 t2 : tier),
    compute_trust_score i1 = Ok (s1, t1)
    /\ compute_trust_score i2 = Ok (s2, t2)
    /\ s2 <= s1
    /\ (rank t2 <= rank t1)%nat.
Proof.
  intros _ _ Hc He Hs Hu Ha Hee Ht Hv.
  rewrite (compute_trust_score_guarded i1) by lia.
  rewrite (compute_trust_score_guarded i2) by lia.
  assert (Hle : guarded_spec_score i2 <= guarded_spec_score i1).
  { unfold guarded_spec_score. apply spec_score_mono.
    - unfold guarded_stake. rewrite Hs. lra.
    - lra.
    - lra.
    - rewrite Hee. lra.
    - unfold guarded_complaints. rewrite Ht.
      destruct (0 <? total_interactions i2)%Z.
      + apply ratio_mono. exact Hc.
      + lra.
    - rewrite Hv. tauto. }
  do 4 eexists. split; [reflexivity |]. split; [reflexivity |]. split.
  - apply round2_mono. exact Hle.
  - apply tier_mono; [exact Hle | rewrite Hv; tauto].
Qed.

(** X4. At int arguments that convert to floats, setting the verified flag
    never lowers the returned score or the tier, and counted in hundredths
    it raises the score by at most 1001: a thousand for the bonus of 10, and
    one for the rounding to two decimals of the double that the code has
    computed. *)
Theorem verification_adds_at_most_ten (stake uptime ai : R) (e c total : Z) :
  (0 <= e)%Z ->
  ints_convert (mkTrustInputs stake uptime ai e c total false) ->
  exists (n0 n1 : Z) (t0 t1 : tier),
    compute_trust_score (mkTrustInputs stake uptime ai e c total false)
    = Ok (IZR n0 / 100, t0)
    /\ compute_trust_score (mkTrustInputs stake uptime ai e c total true)
       = Ok (IZR n1 / 100, t1)
    /\ (n0 <= n1 <= n0 + 1001)%Z
    /\ (rank t0 <= rank t1)%nat.
Proof.
  intros He _.
  rewrite (compute_trust_score_guarded (mkTrustInputs stake uptime ai e c total false))
    by exact He.
  rewrite (compute_trust_score_guarded (mkTrustInputs stake uptime ai e c total true))
    by exact He.
  set (g0 := guarded_spec_score (mkTrustInputs stake uptime ai e c total false)).
  set (g1 := guarded_spec_score (mkTrustInputs stake uptime ai e c total true)).
  assert (Hle : g0 <= g1 <= g0 + 10).
  { unfold g0, g1, guarded_spec_score, spec_score, clamp, guarded_stake,
      guarded_complaints.
    cbn [stake_matic uptime_ratio ai_quality_score endorsement_count
         complaint_count total_interactions verified].
    match goal with
    | |- Rmax 0 (Rmin 100 (?x + 0)) <= Rmax 0 (Rmin 100 (?x + 10)) <= _ =>
        split;
        [ apply clamp_mono; lra
        | replace (x + 10) with (x + 0 + 10) by lra; apply clamp_shift; lra ]
    end. }
  exists (round_half_even (g0 * 100)), (round_half_even (g1 * 100)).
  do 2 eexists. split; [reflexivity |]. split; [reflexivity |]. split.
  - split.
    + apply round_half_even_mono. lra.
    + assert (H : (round_half_even (g1 * 100)
                   <= round_half_even (g0 * 100 + IZR (2 * 500)))%Z).
      { apply round_half_even_mono. change (IZR (2 * 500)) with 1000. lra. }
      rewrite round_half_even_shift in H. lia.
  - cbn [verified]. apply tier_mono; [lra | discriminate].
Qed.

(** X5. A stake above [MAX_STAKE_MATIC] scores as [MAX_STAKE_MATIC] does, and
    more than a hundred endorsements, as long as their count converts to a
    float, score as a hundred do. *)
Theorem stake_and_endorsements_saturate (stake uptime ai : R) (e c total : Z)
    (v : bool) :
  (MAX_STAKE_MATIC <= stake ->
   compute_trust_score (mkTrustInputs stake uptime ai e c total v)
   = compute_trust_score (mkTrustInputs MAX_STAKE_MATIC uptime ai e c total v))
  /\ ((100 <= e < FLOAT_OVERFLOW)%Z ->
      compute_trust_score (mkTrustInputs stake uptime ai e c total v)
      = compute_trust_score (mkTrustInputs stake uptime ai 100 c total v)).
Proof.
  split.
  - unfold MAX_STAKE_MATIC at 1 2. intros Hs.
    unfold compute_trust_score, raw_score.
    rewrite !stake_norm_guarded.
    cbn [stake_matic].
    rewrite (log_norm_saturated (Rmax stake 0) 1000).
    2: lra.
    2: { apply Rle_trans with stake; [exact Hs | apply Rmax_l]. }
    rewrite (log_norm_saturated (Rmax 1000 0) 1000).
    2: lra.
    2: apply Rmax_l.
    reflexivity.
  - intros [He _].
    rewrite (compute_trust_score_guarded (mkTrustInputs stake uptime ai e c total v))
      by (cbn; lia).
    rewrite (compute_trust_score_guarded (mkTrustInputs stake uptime ai 100 c total v))
      by (cbn; lia).
    assert (Heq : guarded_spec_score (mkTrustInputs stake uptime ai e c total v)
                  = guarded_spec_score (mkTrustInputs stake uptime ai 100 c total v)).
    { unfold guarded_spec_score, spec_score, guarded_stake, guarded_complaints.
      cbn [stake_matic uptime_ratio ai_quality_score endorsement_count
           complaint_count total_interactions verified].
      apply IZR_le in He.
      rewrite (log_norm_saturated (IZR e) 100) by lra.
      rewrite (log_norm_saturated 100 100) by lra.
      reflexivity. }
    rewrite Heq. reflexivity.
Qed.

(** X6. The returned (rounded) score lies in the closed band of the returned
    tier: at least 90 for ENTERPRISE, from 70 to 90 for TRUSTED, from 40 to
    70 and verified for VERIFIED; an UNVERIFIED node has at most 70, and
    at most 40 when it is verified. *)
Theorem returned_score_within_band (i : TrustInputs) (s : R) (t : tier) :
  compute_trust_score i = Ok (s, t) ->
  match t with
  | ENTERPRISE => 90 <= s <= 100
  | TRUSTED => 70 <= s <= 90
  | VERIFIED => verified i = true /\ 40 <= s <= 70
  | UNVERIFIED => 0 <= s <= 70 /\ (verified i = true -> s <= 40)
  end.
Proof.
  intros Hok.
  assert (He : (0 <= endorsement_count i)%Z).
  { destruct (Z.lt_ge_cases (endorsement_count i) 0) as [Hneg | Hpos];
      [| exact Hpos].
    rewrite (compute_trust_score_raises i Hneg) in Hok. discriminate. }
  rewrite (compute_trust_score_guarded i He) in Hok.
  injection Hok as <- <-.
  pose proof (guarded_spec_score_range i) as Hr.
  set (g := guarded_spec_score i) in *.
  assert (R0 : round2 0 = 0).
  { replace 0 with (IZR 0 / 100) by lra. apply round2_hundredths. }
  assert (R40 : round2 40 = 40).
  { replace 40 with (IZR 4000 / 100) by lra. apply round2_hundredths. }
  assert (R70 : round2 70 = 70).
  { replace 70 with (IZR 7000 / 100) by lra. apply round2_hundredths. }
  assert (R90 : round2 90 = 90).
  { replace 90 with (IZR 9000 / 100) by lra. apply round2_hundredths. }
  assert (R100 : round2 100 = 100).
  { replace 100 with (IZR 10000 / 100) by lra. apply round2_hundredths. }
  assert (B : forall a b, a <= g -> g <= b -> round2 a <= round2 g <= round2 b).
  { intros a b Ha Hb. split; apply round2_mono; assumption. }
  unfold _score_to_tier, Rgeb.
  destruct (Rle_dec 90 g).
  { rewrite <- R90, <- R100. apply B; lra. }
  destruct (Rle_dec 70 g).
  { rewrite <- R70, <- R90. apply B; lra. }
  destruct (Rle_dec 40 g); destruct (verified i); cbn [andb].
  - split; [reflexivity |]. rewrite <- R40, <- R70. apply B; lra.
  - split; [| discriminate]. rewrite <- R0, <- R70. apply B; lra.
  - split.
    + rewrite <- R0, <- R70. apply B; lra.
    + intros _. rewrite <- R40. apply round2_mono. lra.
  - split; [| discriminate]. rewrite <- R0, <- R70. apply B; lra.
Qed.

End TrustEngineMore.

(** ** What a call writes *)

Section Writers.
Import TrustEngine Models TrustUpdate Main Ledger EventListener System.
Local Open Scope R_scope.

Lemma same_dns_sym (a b : option string) : same_dns a b = same_dns b a.
Proof.
  destruct a, b; cbn; try reflexivity. apply String.eqb_sym.
Qed.

Lemma row_step_refl (r : NodeRecord) : row_step r r.
Proof. unfold row_step. repeat split; auto; lia. Qed.

Lemma row_step_trans (a b c : NodeRecord) :
  row_step a b -> row_step b c -> row_step a c.
Proof.
  unfold row_step.
  intros (H1 & H2 & H3 & H4 & H5 & H6 & H7 & H8)
         (G1 & G2 & G3 & G4 & G5 & G6 & G7 & G8).
  repeat split; try congruence; try lia; auto.
Qed.

(** A row that keeps its key and its UNIQUE columns is as unique as it
    was. *)
Lemma unique_in_same_identity (db : table) (r r' : NodeRecord) :
  node_hash r' = node_hash r -> node_id r' = node_id r ->
  dns_name r' = dns_name r -> unique_in db r -> unique_in db r'.
Proof.
  intros Hh Hi Hd Hu k r0 Hlk Hne. rewrite Hh in Hne. rewrite Hi, Hd.
  apply (Hu k r0 Hlk Hne).
Qed.

(** Writing a row that collides with no other keeps the table well
    formed. *)
Lemma table_wf_insert (db : table) (h : string) (n : NodeRecord) :
  table_wf db -> node_hash n = h -> unique_in db n -> table_wf (<[h := n]> db).
Proof.
  intros Hwf Hn Hu k r Hlk.
  destruct (decide (h = k)) as [<- | Hne].
  - rewrite lookup_insert_eq in Hlk. injection Hlk as <-.
    split; [exact Hn |].
    intros k' r' Hlk' Hne'. rewrite Hn in Hne'.
    rewrite lookup_insert_ne in Hlk' by congruence.
    apply (Hu k' r' Hlk'). congruence.
  - rewrite lookup_insert_ne in Hlk by exact Hne.
    destruct (Hwf k r Hlk) as [Hk Hur].
    split; [exact Hk |].
    intros k' r' Hlk' Hne'. rewrite Hk in Hne'.
    destruct (decide (h = k')) as [<- | Hne''].
    + rewrite lookup_insert_eq in Hlk'. injection Hlk' as <-.
      assert (Hkh : k <> node_hash n) by congruence.
      destruct (Hu k r Hlk Hkh) as [Hid Hdns].
      split; [congruence |]. rewrite same_dns_sym. exact Hdns.
    + rewrite lookup_insert_ne in Hlk' by exact Hne''.
      apply (Hur k' r' Hlk'). congruence.
Qed.

Lemma table_wf_empty : table_wf ∅.
Proof. intros h r Hlk. rewrite lookup_empty in Hlk. discriminate. Qed.

Lemma writes_existing (op : operation) (db : table) (r r' : NodeRecord) :
  table_wf db -> db !! target op = Some r ->
  node_id r' = node_id r -> row_step r r' ->
  writes_one op db (<[target op := r']> db).
Proof.
  intros Hwf Hlk Hid Hstep. right. exists r'.
  destruct (Hwf _ _ Hlk) as [Hk Hu].
  pose proof Hstep as (Hh & _ & Hd & _).
  split; [reflexivity |]. split; [congruence |]. split.
  - apply (unique_in_same_identity db r r'); assumption.
  - intros r0 Hr0. rewrite Hlk in Hr0. injection Hr0 as <-. exact Hstep.
Qed.

Ltac step_fields :=
  unfold row_step; cbn; repeat split; auto; try lia; try discriminate.

Lemma update_node_trust_writes (op : operation) (db : table) (r r1 : NodeRecord) :
  table_wf db -> db !! target op = Some r ->
  node_id r1 = node_id r -> row_step r r1 ->
  writes_one op db
    (committed (update_node_trust (<[target op := r1]> db) (target op))).
Proof.
  intros Hwf Hlk Hid Hstep.
  destruct (recompute_after_write db (target op) r1) as (s & t & _ & ->).
  cbn [committed]. apply (writes_existing op db r); assumption.
Qed.

Lemma insert_same (db : table) (h : string) (r : NodeRecord) :
  db !! h = Some r -> <[h := r]> db = db.
Proof. apply insert_id. Qed.

Lemma perform_writes_one (op : operation) (db : table) :
  table_wf db -> writes_one op db (perform op db).
Proof.
  intros Hwf. destruct op as [req now | h ip now | h | h | h | ev | ev | ev | chain ev | ev];
    cbn [perform].
  - (* register_node *)
    unfold register_node.
    destruct (db !! req_node_hash req) as [existing |] eqn:Hlk.
    + set (merged := set_last_seen (Some now) _).
      destruct (Hwf _ _ Hlk) as [Hk Hu].
      assert (Hh : node_hash merged = req_node_hash req).
      { unfold merged.
        destruct (truthy (req_public_key req)), (truthy (req_ip_address req)),
          (truthy_str (req_node_id req)); exact Hk. }
      assert (Hstep : row_step existing merged).
      { unfold merged.
        destruct (truthy (req_public_key req)), (truthy (req_ip_address req)),
          (truthy_str (req_node_id req)); step_fields. }
      unfold update_row.
      destruct (unique_violation db merged) eqn:Hv; cbn [committed].
      * left. reflexivity.
      * right. exists merged.
        split; [rewrite Hh; reflexivity |]. split; [exact Hh |]. split.
        -- apply unique_violation_false. exact Hv.
        -- cbn [target]. intros r0 Hr0. rewrite Hlk in Hr0.
           injection Hr0 as <-. exact Hstep.
    + unfold insert_row. cbn [new_node node_hash]. rewrite Hlk.
      destruct (unique_violation db (new_node req now)) eqn:Hv; cbn [committed].
      * left. reflexivity.
      * right. exists (new_node req now).
        split; [reflexivity |]. split; [reflexivity |]. split.
        -- apply unique_violation_false. exact Hv.
        -- cbn [target]. intros r0 Hr0. congruence.
  - (* heartbeat *)
    unfold heartbeat. destruct (db !! h) as [node |] eqn:Hlk; cbn [committed].
    + apply (writes_existing (CallHeartbeat h ip now) db node); try assumption.
      * destruct (truthy ip); reflexivity.
      * destruct (truthy ip); step_fields.
    + left. reflexivity.
  - (* endorse_node *)
    unfold endorse_node. destruct (db !! h) as [node |] eqn:Hlk; cbn [committed].
    + apply (update_node_trust_writes (CallEndorse h) db node); try assumption.
      * reflexivity.
      * step_fields.
    + left. reflexivity.
  - (* complain_node *)
    unfold complain_node. destruct (db !! h) as [node |] eqn:Hlk; cbn [committed].
    + apply (update_node_trust_writes (CallComplain h) db node); try assumption.
      * reflexivity.
      * step_fields.
    + left. reflexivity.
  - (* rescore_node *)
    unfold rescore_node.
    destruct (db !! h) as [node |] eqn:Hlk.
    + destruct (update_node_trust_found db h node Hlk) as (s & t & _ & ->).
      cbn [committed].
      apply (writes_existing (CallRescore h) db node); try assumption.
      * reflexivity.
      * step_fields.
    + unfold update_node_trust. rewrite Hlk. left. reflexivity.
  - (* process_node_registered *)
    unfold process_node_registered.
    destruct (args_registration ev) as [[[w d] t] | e]; [| left; reflexivity].
    destruct (utcfromtimestamp t) as [t' | e]; [| left; reflexivity].
    destruct (db !! hash_key (args_nodeHash ev)) eqn:Hlk; [left; reflexivity |].
    unfold insert_row. cbn [node_hash]. rewrite Hlk.
    match goal with
    | |- context [unique_violation db ?n] =>
        destruct (unique_violation db n) eqn:Hv; cbn [fst committed];
        [ left; reflexivity
        | right; exists n;
          split; [reflexivity |]; split; [reflexivity |]; split;
          [ apply unique_violation_false; exact Hv
          | cbn [target]; intros r0 Hr0; congruence ] ]
    end.
  - (* process_node_verified *)
    unfold process_node_verified.
    destruct (db !! hash_key (args_nodeHash ev)) as [node |] eqn:Hlk;
      [| left; reflexivity].
    pose proof (update_node_trust_writes (OnVerified ev) db node
                  (set_verified true node) Hwf Hlk eq_refl) as Hw.
    cbn [target] in Hw.
    destruct (update_node_trust _ _); cbn [fst committed] in *;
      apply Hw; step_fields.
  - (* process_stake_added *)
    unfold process_stake_added.
    destruct (args_newTotal ev) as [total | e]; [| left; reflexivity].
    destruct (db !! hash_key (args_nodeHash ev)) as [node |] eqn:Hlk;
      [| left; reflexivity].
    pose proof (update_node_trust_writes (OnStakeAdded ev) db node
                  (set_stake_wei total node) Hwf Hlk eq_refl) as Hw.
    cbn [target] in Hw.
    destruct (update_node_trust _ _); cbn [fst committed] in *;
      apply Hw; step_fields.
  - (* process_stake_withdrawn *)
    unfold process_stake_withdrawn.
    destruct (db !! hash_key (args_nodeHash ev)) as [node |] eqn:Hlk;
      [| left; reflexivity].
    destruct (contract <- chain ;;; getNode contract (args_nodeHash ev))
      as [on_chain | e]; cbn [fst snd].
    + pose proof (update_node_trust_writes (OnStakeWithdrawn chain ev) db node
                    (set_stake_wei (oc_stake on_chain) node) Hwf Hlk eq_refl) as Hw.
      cbn [target] in Hw.
      destruct (update_node_trust _ _); cbn [fst committed] in *;
        apply Hw; step_fields.
    + destruct (update_node_trust_found db _ node Hlk) as (s & t & _ & ->).
      cbn [fst committed].
      apply (writes_existing (OnStakeWithdrawn chain ev) db node); try assumption.
      * reflexivity.
      * step_fields.
  - (* process_node_deregistered *)
    unfold process_node_deregistered.
    destruct (db !! hash_key (args_nodeHash ev)) as [node |] eqn:Hlk;
      [| left; reflexivity].
    cbn [fst committed].
    apply (writes_existing (OnDeregistered ev) db node); try assumption.
    + reflexivity.
    + step_fields.
Qed.

End Writers.

(** ** What every sequence of calls keeps *)

Section Invariants.
Import TrustEngine Models TrustUpdate Main Ledger EventListener System.
Local Open Scope R_scope.

Lemma perform_table_wf (op : operation) (db : table) :
  table_wf db -> table_wf (perform op db).
Proof.
  intros Hwf.
  destruct (perform_writes_one op db Hwf) as [-> | (r' & -> & Hh & Hu & _)].
  - exact Hwf.
  - apply table_wf_insert; assumption.
Qed.

Lemma perform_all_table_wf (ops : list operation) (db : table) :
  table_wf db -> table_wf (perform_all ops db).
Proof.
  revert db. induction ops as [| op rest IH]; intros db Hwf.
  - exact Hwf.
  - cbn [perform_all]. apply IH, perform_table_wf, Hwf.
Qed.

Lemma perform_row_step (op : operation) (db : table) (h : string) (r : NodeRecord) :
  table_wf db -> db !! h = Some r ->
  exists r' : NodeRecord, perform op db !! h = Some r' /\ row_step r r'.
Proof.
  intros Hwf Hlk.
  destruct (perform_writes_one op db Hwf) as [-> | (r' & -> & _ & _ & Hstep)].
  - exists r. split; [exact Hlk | apply row_step_refl].
  - destruct (decide (target op = h)) as [Heq | Hne].
    + exists r'. split.
      * rewrite Heq. apply lookup_insert_eq.
      * apply Hstep. rewrite Heq. exact Hlk.
    + exists r. split.
      * rewrite lookup_insert_ne by exact Hne. exact Hlk.
      * apply row_step_refl.
Qed.

Lemma perform_all_row_step (ops : list operation) (db : table) (h : string)
    (r : NodeRecord) :
  table_wf db -> db !! h = Some r ->
  exists r' : NodeRecord, perform_all ops db !! h = Some r' /\ row_step r r'.
Proof.
  revert db r. induction ops as [| op rest IH]; intros db r Hwf Hlk.
  - exists r. split; [exact Hlk | apply row_step_refl].
  - cbn [perform_all].
    destruct (perform_row_step op db h r Hwf Hlk) as (r1 & Hlk1 & Hs1).
    destruct (IH (perform op db) r1 (perform_table_wf op db Hwf) Hlk1)
      as (r' & Hlk' & Hs').
    exists r'. split; [exact Hlk' |].
    apply row_step_trans with r1; assumption.
Qed.

(** X18. Whatever calls are made, in whatever order, every row stays under
    its own [node_hash] and no two rows share a [node_id] or a [dns_name];
    this holds in particular for every table built from the empty one. *)
Theorem table_constraints_kept (ops : list operation) :
  (forall db : table, table_wf db -> table_wf (perform_all ops db))
  /\ table_wf (perform_all ops ∅).
Proof.
  split.
  - intros db. apply perform_all_table_wf.
  - apply perform_all_table_wf, table_wf_empty.
Qed.

(** X19. A call reads and writes the row it names and no other: every other
    row is after the call what it was before. *)
Theorem call_touches_one_row (op : operation) (db : table) (k : string) :
  table_wf db -> k <> target op -> perform op db !! k = db !! k.
Proof.
  intros Hwf Hne.
  destruct (perform_writes_one op db Hwf) as [-> | (r' & -> & _)].
  - reflexivity.
  - apply lookup_insert_ne. congruence.
Qed.

(** X20. No sequence of calls deletes a row, and none changes a row's
    [node_hash], [wallet], [dns_name] or [registered_at]. *)
Theorem rows_stay_and_keep_ledger_columns (ops : list operation) (db : table)
    (h : string) (r : NodeRecord) :
  table_wf db -> db !! h = Some r ->
  exists r' : NodeRecord,
    perform_all ops db !! h = Some r'
    /\ node_hash r' = node_hash r
    /\ wallet r' = wallet r
    /\ dns_name r' = dns_name r
    /\ registered_at r' = registered_at r.
Proof.
  intros Hwf Hlk.
  destruct (perform_all_row_step ops db h r Hwf Hlk)
    as (r' & Hlk' & H1 & H2 & H3 & H4 & _).
  exists r'. auto.
Qed.

(** X21. Along any sequence of calls the two counters of a row never
    decrease, a verified row stays verified and a deregistered row stays
    deregistered. *)
Theorem counters_and_flags_one_way (ops : list operation) (db : table)
    (h : string) (r : NodeRecord) :
  table_wf db -> db !! h = Some r ->
  exists r' : NodeRecord,
    perform_all ops db !! h = Some r'
    /\ (endorsement_count r <= endorsement_count r')%N
    /\ (complaint_count r <= complaint_count r')%N
    /\ (verified r = true -> verified r' = true)
    /\ (active r = false -> active r' = false).
Proof.
  intros Hwf Hlk.
  destruct (perform_all_row_step ops db h r Hwf Hlk)
    as (r' & Hlk' & _ & _ & _ & _ & H5 & H6 & H7 & H8).
  exists r'. auto.
Qed.

End Invariants.

(** ** The endpoints that name a node *)

Section Endpoints.
Import TrustEngine Models TrustUpdate Main Api System Tiers.
Local Open Scope R_scope.

(** X7. [update_node_trust], and with it the rescore endpoint, is idempotent:
    a second call returns what the first returned and leaves the table the
    first left. *)
Theorem rescoring_twice_is_rescoring_once (h : string) (db : table) :
  update_node_trust (committed (update_node_trust db h)) h = update_node_trust db h
  /\ rescore_node h (committed (rescore_node h db)) = rescore_node h db.
Proof.
  assert (Hu : update_node_trust (committed (update_node_trust db h)) h
               = update_node_trust db h).
  { destruct (db !! h) as [node |] eqn:Hlk.
    - destruct (update_node_trust_found db h node Hlk) as (s & t & Hs & Hu).
      rewrite Hu. cbn [committed].
      unfold update_node_trust. rewrite lookup_insert_eq.
      rewrite inputs_of_set_trust, Hs, insert_insert_eq. reflexivity.
    - unfold update_node_trust. rewrite Hlk. cbn [committed]. rewrite Hlk.
      reflexivity. }
  split; [exact Hu |].
  unfold rescore_node.
  destruct (update_node_trust db h) as [db' r | db' e] eqn:Hfirst.
  - cbn [committed] in *. rewrite Hu. reflexivity.
  - cbn [committed] in Hu.
    destruct e; cbn [committed]; rewrite Hu; reflexivity.
Qed.

(** X8. The endpoints that name a node answer 404 and write nothing when the
    hash has no row, and succeed whenever it has one: scoring a stored row
    never raises. *)
Theorem hash_endpoints_fail_only_with_404 (h : string) (ip : option string)
    (now : Z) (db : table) :
  (db !! h = None ->
   get_node h db = Raise (HTTPException 404)
   /\ heartbeat h ip now db = Raised db (HTTPException 404)
   /\ endorse_node h db = Raised db (HTTPException 404)
   /\ complain_node h db = Raised db (HTTPException 404)
   /\ rescore_node h db = Raised db (HTTPException 404))
  /\ (forall node : NodeRecord,
        db !! h = Some node ->
        (exists resp, get_node h db = Ok resp)
        /\ (exists db', heartbeat h ip now db = Returned db' now)
        /\ (exists db' r, endorse_node h db = Returned db' r)
        /\ (exists db' r, complain_node h db = Returned db' r)
        /\ (exists db' r, rescore_node h db = Returned db' r)).
Proof.
  split.
  - intros Hlk.
    unfold get_node, heartbeat, endorse_node, complain_node, rescore_node,
      update_node_trust.
    rewrite Hlk. repeat split; reflexivity.
  - intros node Hlk.
    unfold get_node, heartbeat, endorse_node, complain_node, rescore_node.
    rewrite Hlk. split; [eexists; reflexivity |]. split; [eexists; reflexivity |].
    split; [| split].
    + destruct (recompute_after_write db h
        (set_endorsement_count (endorsement_count node + 1)%N node))
        as (s & t & _ & ->). eexists. eexists. reflexivity.
    + destruct (recompute_after_write db h
        (set_complaint_count (complaint_count node + 1)%N node))
        as (s & t & _ & ->). eexists. eexists. reflexivity.
    + destruct (update_node_trust_found db h node Hlk) as (s & t & _ & ->).
      eexists. eexists. reflexivity.
Qed.

Lemma Rmin_absorb (x k : R) : 0 <= k -> Rmin 1 (Rmin 1 x + k) = Rmin 1 (x + k).
Proof.
  intros Hk. unfold Rmin.
  destruct (Rle_dec 1 x); destruct (Rle_dec 1 (1 + k));
    destruct (Rle_dec 1 (x + k)); lra.
Qed.

Lemma heartbeats_uptime (reqs : list (option string * Z)) (h : string)
    (db : table) (node : NodeRecord) :
  db !! h = Some node ->
  exists node' : NodeRecord,
    heartbeats reqs h db !! h = Some node'
    /\ uptime_score node'
       = match reqs with
         | [] => uptime_score node
         | _ :: _ => Rmin 1 (uptime_score node + INR (length reqs) / 100)
         end
    /\ trust_score node' = trust_score node
    /\ trust_tier node' = trust_tier node
    /\ Models.endorsement_count node' = Models.endorsement_count node
    /\ Models.complaint_count node' = Models.complaint_count node
    /\ stake_wei node' = stake_wei node
    /\ Models.verified node' = Models.verified node.
Proof.
  revert db node. induction reqs as [| [ip now] rest IH]; intros db node Hlk.
  - exists node. cbn. repeat split; auto.
  - cbn [heartbeats]. unfold heartbeat at 1. rewrite Hlk. cbn [committed].
    match goal with
    | |- context [heartbeats rest h (<[h := ?n1]> db)] =>
        destruct (IH (<[h := n1]> db) n1 (lookup_insert_eq _ _ _))
          as (node' & Hlk' & Hup & Hrest)
    end.
    exists node'. split; [exact Hlk' |]. split.
    + rewrite Hup. change (length ((ip, now) :: rest)) with (S (length rest)).
      rewrite S_INR.
      destruct rest as [| a rest'].
      * cbn. destruct (truthy ip); cbn; f_equal; lra.
      * replace (uptime_score _) with (Rmin 1 (uptime_score node + 1 / 100))
          by (destruct (truthy ip); reflexivity).
        rewrite Rmin_absorb.
        -- f_equal. lra.
        -- pose proof (pos_INR (length (a :: rest'))). lra.
    + destruct (truthy ip); exact Hrest.
Qed.

(** X9. After [n >= 1] heartbeats the uptime score is
    [min(1, uptime + n / 100)], hence at most 1, and the stored score and
    tier are what they were. *)
Theorem heartbeats_raise_uptime_to_one (reqs : list (option string * Z))
    (h : string) (db : table) (node : NodeRecord) :
  db !! h = Some node -> reqs <> [] ->
  exists node' : NodeRecord,
    heartbeats reqs h db !! h = Some node'
    /\ uptime_score node' = Rmin 1 (uptime_score node + INR (length reqs) / 100)
    /\ uptime_score node' <= 1
    /\ trust_score node' = trust_score node
    /\ trust_tier node' = trust_tier node.
Proof.
  intros Hlk Hne.
  destruct (heartbeats_uptime reqs h db node Hlk)
    as (node' & Hlk' & Hup & Hs & Ht & _).
  exists node'. destruct reqs as [| a rest]; [contradiction |].
  split; [exact Hlk' |]. split; [exact Hup |]. split.
  - rewrite Hup. apply Rmin_l.
  - split; assumption.
Qed.

Lemma update_node_trust_rescored (db : table) (h : string) (node : NodeRecord) :
  db !! h = Some node ->
  update_node_trust db h
  = Returned (<[h := rescored node]> db)
      (trust_score (rescored node), trust_tier (rescored node)).
Proof.
  intros Hlk. unfold update_node_trust. rewrite Hlk.
  rewrite compute_trust_score_of_row. reflexivity.
Qed.

Lemma endorse_node_rescored (db : table) (h : string) (node : NodeRecord) :
  db !! h = Some node ->
  committed (endorse_node h db)
  = <[h := rescored (set_endorsement_count
                       (Models.endorsement_count node + 1)%N node)]> db.
Proof.
  intros Hlk. unfold endorse_node. rewrite Hlk.
  rewrite (update_node_trust_rescored _ h _ (lookup_insert_eq _ _ _)).
  cbn [committed]. apply insert_insert_eq.
Qed.

Lemma complain_node_rescored (db : table) (h : string) (node : NodeRecord) :
  db !! h = Some node ->
  committed (complain_node h db)
  = <[h := rescored (set_complaint_count
                       (Models.complaint_count node + 1)%N node)]> db.
Proof.
  intros Hlk. unfold complain_node. rewrite Hlk.
  rewrite (update_node_trust_rescored _ h _ (lookup_insert_eq _ _ _)).
  cbn [committed]. apply insert_insert_eq.
Qed.

(** X10. An endorsement followed by a complaint leaves the table that a
    complaint followed by an endorsement leaves. *)
Theorem endorse_and_complain_commute (h : string) (db : table) :
  committed (complain_node h (committed (endorse_node h db)))
  = committed (endorse_node h (committed (complain_node h db))).
Proof.
  destruct (db !! h) as [node |] eqn:Hlk.
  - rewrite (endorse_node_rescored db h node Hlk).
    rewrite (complain_node_rescored db h node Hlk).
    rewrite (complain_node_rescored _ h _ (lookup_insert_eq _ _ _)).
    rewrite (endorse_node_rescored _ h _ (lookup_insert_eq _ _ _)).
    rewrite !insert_insert_eq. reflexivity.
  - unfold endorse_node, complain_node. rewrite Hlk. cbn [committed].
    rewrite Hlk. reflexivity.
Qed.

End Endpoints.

(** ** Reputation calls and self-registration *)

Section Reputation.
Import TrustEngine Models TrustUpdate Main Api System Tiers.
Local Open Scope R_scope.

Lemma guarded_spec_score_of_row (node : NodeRecord) :
  guarded_spec_score (inputs_of node)
  = spec_score (Rmax (stake_matic_of (stake_wei node)) 0) (uptime_score node)
      (Models.ai_quality_score node) (Z.of_N (Models.endorsement_count node))
      (Z.of_N (Models.complaint_count node))
      (Z.max 1 (Z.of_N (Models.endorsement_count node)
                + Z.of_N (Models.complaint_count node)))
      (Models.verified node).
Proof.
  unfold guarded_spec_score, guarded_stake, guarded_complaints, inputs_of.
  cbn [stake_matic uptime_ratio TrustEngine.ai_quality_score
       TrustEngine.endorsement_count TrustEngine.complaint_count
       total_interactions TrustEngine.verified].
  replace (0 <? Z.max 1 _)%Z with true by (symmetry; apply Z.ltb_lt; lia).
  reflexivity.
Qed.

Lemma ratio_le (a b c d : R) :
  0 < b -> 0 < d -> a * d <= c * b -> Rmin (a / b) 1 <= Rmin (c / d) 1.
Proof.
  intros Hb Hd H. apply Rle_min_compat_r.
  apply Rmult_le_reg_r with (b * d); [nra |].
  unfold Rdiv.
  replace (a * / b * (b * d)) with (a * d) by (field; lra).
  replace (c * / d * (b * d)) with (c * b) by (field; lra).
  exact H.
Qed.

Lemma endorsement_raises_formula (node : NodeRecord) :
  guarded_spec_score (inputs_of node)
  <= guarded_spec_score
       (inputs_of (set_endorsement_count (Models.endorsement_count node + 1)%N node)).
Proof.
  rewrite !guarded_spec_score_of_row.
  cbn [set_endorsement_count stake_wei uptime_score Models.ai_quality_score
       Models.endorsement_count Models.complaint_count Models.verified].
  apply spec_score_mono; try lra; try tauto.
  - apply endorsement_norm_mono. lia.
  - set (e := Models.endorsement_count node). set (c := Models.complaint_count node).
    rewrite !Z.max_l by lia.
    apply ratio_le.
    + apply IZR_lt. lia.
    + apply IZR_lt. lia.
    + rewrite <- !mult_IZR. apply IZR_le. nia.
Qed.

Lemma complaint_lowers_formula (node : NodeRecord) :
  guarded_spec_score
    (inputs_of (set_complaint_count (Models.complaint_count node + 1)%N node))
  <= guarded_spec_score (inputs_of node).
Proof.
  rewrite !guarded_spec_score_of_row.
  cbn [set_complaint_count stake_wei uptime_score Models.ai_quality_score
       Models.endorsement_count Models.complaint_count Models.verified].
  apply spec_score_mono; try lra; try tauto.
  set (e := Models.endorsement_count node). set (c := Models.complaint_count node).
  rewrite !Z.max_l by lia.
  apply ratio_le.
  - apply IZR_lt. lia.
  - apply IZR_lt. lia.
  - rewrite <- !mult_IZR. apply IZR_le. nia.
Qed.

Lemma consistent_row (node : NodeRecord) :
  consistent node ->
  trust_score node = round2 (guarded_spec_score (inputs_of node))
  /\ trust_tier node
     = _score_to_tier (guarded_spec_score (inputs_of node)) (Models.verified node).
Proof.
  unfold consistent. rewrite compute_trust_score_of_row.
  intros H. injection H as H1 H2. auto.
Qed.

(** X11. For a row whose stored score is up to date, an endorsement never
    lowers the stored score or tier and a complaint never raises them. *)
Theorem endorsement_never_lowers_complaint_never_raises (h : string)
    (db : table) (node : NodeRecord) :
  db !! h = Some node -> consistent node ->
  (exists up : NodeRecord,
     committed (endorse_node h db) !! h = Some up
     /\ trust_score node <= trust_score up
     /\ (rank (trust_tier node) <= rank (trust_tier up))%nat)
  /\ (exists down : NodeRecord,
        committed (complain_node h db) !! h = Some down
        /\ trust_score down <= trust_score node
        /\ (rank (trust_tier down) <= rank (trust_tier node))%nat).
Proof.
  intros Hlk Hc. destruct (consistent_row node Hc) as [Hs Ht].
  split.
  - rewrite (endorse_node_rescored db h node Hlk), lookup_insert_eq.
    eexists. split; [reflexivity |].
    pose proof (endorsement_raises_formula node) as Hle.
    unfold rescored. cbn [set_trust trust_score trust_tier].
    rewrite Hs, Ht. split.
    + apply round2_mono. exact Hle.
    + apply tier_mono; [exact Hle | tauto].
  - rewrite (complain_node_rescored db h node Hlk), lookup_insert_eq.
    eexists. split; [reflexivity |].
    pose proof (complaint_lowers_formula node) as Hle.
    unfold rescored. cbn [set_trust trust_score trust_tier].
    rewrite Hs, Ht. split.
    + apply round2_mono. exact Hle.
    + apply tier_mono; [exact Hle | tauto].
Qed.

Lemma register_node_fresh (req : NodeRegisterRequest) (now : Z) (db : table) :
  db !! req_node_hash req = None ->
  unique_in db (new_node req now) ->
  register_node req now db
  = Returned (<[req_node_hash req := new_node req now]> db) registered.
Proof.
  intros Hlk Hu. unfold register_node, insert_row. rewrite Hlk.
  cbn [new_node node_hash]. rewrite Hlk.
  apply unique_violation_false in Hu. cbn [new_node] in Hu. rewrite Hu.
  reflexivity.
Qed.

(** X12. A self-registration under a free hash, with free UNIQUE columns,
    creates the row, and [get_node] then serves the request's fields with
    [verified = false], score 0 and tier UNVERIFIED. *)
Theorem registered_node_is_served (req : NodeRegisterRequest) (now : Z)
    (db : table) :
  db !! req_node_hash req = None ->
  unique_in db (new_node req now) ->
  register_node req now db
  = Returned (<[req_node_hash req := new_node req now]> db) registered
  /\ get_node (req_node_hash req) (committed (register_node req now db))
     = Ok (mkNodeResponse (req_node_hash req) (req_node_id req) (req_wallet req)
             (req_dns_name req) false 0 UNVERIFIED (req_ip_address req)
             (Some now) true).
Proof.
  intros Hlk Hu. pose proof (register_node_fresh req now db Hlk Hu) as Hr.
  split; [exact Hr |].
  rewrite Hr. cbn [committed]. unfold get_node. rewrite lookup_insert_eq.
  reflexivity.
Qed.

(** X13. Sending the same self-registration again answers [updated] and
    changes nothing of the row but [last_seen]. *)
Theorem registering_again_only_refreshes_last_seen (req : NodeRegisterRequest)
    (now later : Z) (db : table) :
  db !! req_node_hash req = None ->
  unique_in db (new_node req now) ->
  register_node req later (committed (register_node req now db))
  = Returned (<[req_node_hash req := set_last_seen (Some later) (new_node req now)]> db)
      updated.
Proof.
  intros Hlk Hu.
  rewrite (register_node_fresh req now db Hlk Hu).
  cbn [committed]. unfold register_node. rewrite lookup_insert_eq.
  set (merged := set_last_seen (Some later) _).
  assert (Hm : merged = set_last_seen (Some later) (new_node req now)).
  { unfold merged.
    destruct (truthy (req_public_key req)), (truthy (req_ip_address req)),
      (truthy_str (req_node_id req)); reflexivity. }
  rewrite Hm. unfold update_row.
  replace (unique_violation _ _) with false.
  - cbn [set_last_seen new_node node_hash]. rewrite insert_insert_eq. reflexivity.
  - symmetry. apply unique_violation_false.
    intros k r Hr Hne. cbn [set_last_seen new_node node_hash] in Hne.
    rewrite lookup_insert_ne in Hr by congruence.
    apply (Hu k r Hr). exact Hne.
Qed.

End Reputation.

(** ** Listing and the legacy status lookup *)

Section Listing.
Import TrustEngine Models TrustUpdate Main Api System Ledger EventListener.
Local Open Scope R_scope.

Lemma list_nodes_valid (skip limit : Z) (verified_only : bool)
    (rows : list NodeRecord) :
  (0 <= skip)%Z -> (1 <= limit <= 200)%Z ->
  list_nodes skip limit verified_only rows
  = Ok (List.map to_dict
          (List.firstn (Z.to_nat limit)
             (List.skipn (Z.to_nat skip)
                (if verified_only
                 then List.filter Models.verified (List.filter active rows)
                 else List.filter active rows)))).
Proof.
  intros Hs [Hl Hu]. unfold list_nodes.
  replace (skip <? 0)%Z with false by (symmetry; apply Z.ltb_ge; lia).
  replace (limit <? 1)%Z with false by (symmetry; apply Z.ltb_ge; lia).
  replace (200 <? limit)%Z with false by (symmetry; apply Z.ltb_ge; lia).
  reflexivity.
Qed.

Lemma In_firstn {A : Type} (n : nat) (l : list A) (x : A) :
  In x (List.firstn n l) -> In x l.
Proof.
  revert l. induction n as [| n IH]; intros [| a l] Hin; cbn in *; try tauto.
  destruct Hin as [-> | Hin]; [left; reflexivity | right; apply IH, Hin].
Qed.

Lemma In_skipn {A : Type} (n : nat) (l : list A) (x : A) :
  In x (List.skipn n l) -> In x l.
Proof.
  revert l. induction n as [| n IH]; intros [| a l] Hin; cbn in *; try tauto.
  right. apply IH, Hin.
Qed.

Lemma firstn_plus {A : Type} (a b : nat) (l : list A) :
  List.firstn (a + b) l = List.firstn a l ++ List.firstn b (List.skipn a l).
Proof.
  revert l. induction a as [| a IH]; intros l.
  - reflexivity.
  - destruct l as [| x l]; cbn.
    + destruct b; reflexivity.
    + f_equal. apply IH.
Qed.

Lemma skipn_plus {A : Type} (a b : nat) (l : list A) :
  List.skipn (a + b) l = List.skipn b (List.skipn a l).
Proof.
  revert l. induction a as [| a IH]; intros l.
  - reflexivity.
  - destruct l as [| x l]; cbn.
    + destruct b; reflexivity.
    + apply IH.
Qed.

(** X14. [list_nodes] refuses a negative [skip] and a [limit] outside 1..200;
    otherwise it returns at most [limit] (so at most 200) rows, each the
    export of an active row of the table, and of a verified one when
    [verified_only] is set. *)
Theorem list_nodes_page (skip limit : Z) (verified_only : bool)
    (rows : list NodeRecord) :
  ((skip < 0 \/ limit < 1 \/ 200 < limit)%Z ->
   list_nodes skip limit verified_only rows = Raise (HTTPException 422))
  /\ ((0 <= skip)%Z -> (1 <= limit <= 200)%Z ->
      exists page : list NodeDict,
        list_nodes skip limit verified_only rows = Ok page
        /\ (length page <= Z.to_nat limit)%nat
        /\ (length page <= 200)%nat
        /\ forall d : NodeDict,
             In d page ->
             d_active d = true
             /\ (verified_only = true -> d_verified d = true)
             /\ exists r : NodeRecord, In r rows /\ d = to_dict r).
Proof.
  split.
  - intros H. unfold list_nodes.
    destruct (skip <? 0)%Z eqn:H1; [reflexivity |].
    destruct (limit <? 1)%Z eqn:H2; [reflexivity |].
    destruct (200 <? limit)%Z eqn:H3; [reflexivity |].
    apply Z.ltb_ge in H1, H2, H3. lia.
  - intros Hs Hl. rewrite (list_nodes_valid skip limit verified_only rows Hs Hl).
    eexists. split; [reflexivity |].
    assert (Hlen : (length (List.map to_dict
        (List.firstn (Z.to_nat limit)
           (List.skipn (Z.to_nat skip)
              (if verified_only
               then List.filter Models.verified (List.filter active rows)
               else List.filter active rows)))) <= Z.to_nat limit)%nat).
    { rewrite length_map. apply firstn_le_length. }
    split; [exact Hlen |]. split; [lia |].
    intros d Hd. apply in_map_iff in Hd. destruct Hd as (r & <- & Hr).
    apply In_firstn, In_skipn in Hr.
    destruct verified_only.
    + apply filter_In in Hr. destruct Hr as [Hr Hv].
      apply filter_In in Hr. destruct Hr as [Hr Ha].
      split; [exact Ha |]. split; [intros _; exact Hv |]. exists r. auto.
    + apply filter_In in Hr. destruct Hr as [Hr Ha].
      split; [exact Ha |]. split; [discriminate |]. exists r. auto.
Qed.

(** X15. Over one scan of the table, a page followed by the next page is the
    page of both sizes together: paging neither repeats nor skips a row. *)
Theorem consecutive_pages_concatenate (skip first second : Z)
    (verified_only : bool) (rows : list NodeRecord) :
  (0 <= skip)%Z -> (1 <= first)%Z -> (1 <= second)%Z ->
  (first + second <= 200)%Z ->
  exists p1 p2 : list NodeDict,
    list_nodes skip first verified_only rows = Ok p1
    /\ list_nodes (skip + first) second verified_only rows = Ok p2
    /\ list_nodes skip (first + second) verified_only rows = Ok (p1 ++ p2).
Proof.
  intros Hs H1 H2 H12.
  rewrite (list_nodes_valid skip first) by lia.
  rewrite (list_nodes_valid (skip + first) second) by lia.
  rewrite (list_nodes_valid skip (first + second)) by lia.
  eexists. eexists. split; [reflexivity |]. split; [reflexivity |].
  rewrite <- map_app. do 2 f_equal.
  rewrite !Z2Nat.inj_add by lia.
  rewrite firstn_plus, skipn_plus. reflexivity.
Qed.

Lemma find_names_dns (entity : string) (rows : list NodeRecord) (x : NodeRecord) :
  List.find (names_dns entity) rows = Some x ->
  In x rows /\ dns_name x = Some entity.
Proof.
  intros Hf. apply find_some in Hf. destruct Hf as [Hin Hn].
  split; [exact Hin |]. unfold names_dns in Hn.
  destruct (dns_name x) as [d |]; cbn in Hn; [| discriminate].
  apply String.eqb_eq in Hn. congruence.
Qed.

Lemma find_names_id (entity : string) (rows : list NodeRecord) (x : NodeRecord) :
  List.find (names_id entity) rows = Some x ->
  In x rows /\ node_id x = entity.
Proof.
  intros Hf. apply find_some in Hf. destruct Hf as [Hin Hn].
  split; [exact Hin |]. apply String.eqb_eq. exact Hn.
Qed.

(** X16. Over any scan of a well-formed table, [verify_entity] answers
    UNVERIFIED without a score when no row bears the entity as DNS name or
    node id, and answers the tier and score of the row that bears it as DNS
    name when no row bears it as node id, whatever the scan order. *)
Theorem verify_entity_by_name (entity : string) (db : table)
    (rows : list NodeRecord) (h : string) (r : NodeRecord) :
  table_wf db -> scan_of db rows ->
  ((forall (k : string) (x : NodeRecord),
      db !! k = Some x -> dns_name x <> Some entity /\ node_id x <> entity) ->
   verify_entity entity rows = (UNVERIFIED, None))
  /\ (db !! h = Some r -> dns_name r = Some entity ->
      (forall (k : string) (x : NodeRecord), db !! k = Some x -> node_id x <> entity) ->
      verify_entity entity rows = (trust_tier r, Some (trust_score r))).
Proof.
  intros Hwf Hscan. unfold verify_entity. split.
  - intros Hnone.
    destruct (List.find (names_dns entity) rows) as [x |] eqn:Hf.
    { apply find_names_dns in Hf. destruct Hf as [Hin Hn].
      apply Hscan in Hin. destruct Hin as [k Hk].
      destruct (Hnone k x Hk) as [Hd Hi]. tauto. }
    destruct (List.find (names_id entity) rows) as [x |] eqn:Hg; [| reflexivity].
    apply find_names_id in Hg. destruct Hg as [Hin Hn].
    apply Hscan in Hin. destruct Hin as [k Hk].
    destruct (Hnone k x Hk) as [Hd Hi]. tauto.
  - intros Hlk Hdns Hid.
    destruct (List.find (names_dns entity) rows) as [x |] eqn:Hf.
    + apply find_names_dns in Hf. destruct Hf as [Hin Hd].
      apply Hscan in Hin. destruct Hin as [k Hk].
      assert (Hx : x = r).
      { destruct (decide (k = h)) as [-> | Hne]; [congruence |].
        destruct (Hwf h r Hlk) as [Hh Hu].
        assert (Hne' : k <> node_hash r) by congruence.
        destruct (Hu k x Hk Hne') as [_ Hs].
        rewrite Hd, Hdns in Hs. cbn in Hs. rewrite String.eqb_refl in Hs.
        discriminate. }
      rewrite Hx. reflexivity.
    + exfalso.
      assert (Hin : In r rows) by (apply Hscan; eauto).
      apply (find_none _ _ Hf) in Hin.
      unfold names_dns in Hin. rewrite Hdns in Hin. cbn in Hin.
      rewrite String.eqb_refl in Hin. discriminate.
Qed.

(** X17. Once a Deregistered event has been applied, no page of [list_nodes]
    holds the node, while [get_node] still serves it, inactive and with its
    score. *)
Theorem deregistered_node_leaves_the_listing (ev : event) (db : table)
    (rows : list NodeRecord) (node : NodeRecord) (skip limit : Z)
    (verified_only : bool) (page : list NodeDict) :
  table_wf db ->
  db !! hash_key (args_nodeHash ev) = Some node ->
  scan_of (committed (fst (process_node_deregistered ev db))) rows ->
  list_nodes skip limit verified_only rows = Ok page ->
  (forall d : NodeDict, In d page -> d_node_hash d <> hash_key (args_nodeHash ev))
  /\ exists resp : NodeResponse,
       get_node (hash_key (args_nodeHash ev))
         (committed (fst (process_node_deregistered ev db))) = Ok resp
       /\ r_active resp = false
       /\ r_trust_score resp = trust_score node.
Proof.
  intros Hwf Hlk Hscan Hpage.
  unfold process_node_deregistered in *. rewrite Hlk in *.
  cbn [fst committed] in *.
  split.
  - intros d Hd Hkey.
    unfold list_nodes in Hpage.
    destruct ((skip <? 0)%Z || (limit <? 1)%Z || (200 <? limit)%Z);
      [discriminate |].
    injection Hpage as <-.
    apply in_map_iff in Hd. destruct Hd as (r & <- & Hr).
    apply In_firstn, In_skipn in Hr.
    assert (Hact : In r rows /\ active r = true).
    { destruct verified_only.
      - apply filter_In in Hr. destruct Hr as [Hr _].
        apply filter_In in Hr. exact Hr.
      - apply filter_In in Hr. exact Hr. }
    destruct Hact as [Hin Hact].
    apply Hscan in Hin. destruct Hin as [k Hk].
    cbn [to_dict d_node_hash] in Hkey.
    destruct (decide (hash_key (args_nodeHash ev) = k)) as [<- | Hne].
    + rewrite lookup_insert_eq in Hk. injection Hk as <-.
      cbn in Hact. discriminate.
    + rewrite lookup_insert_ne in Hk by exact Hne.
      destruct (Hwf k r Hk) as [Hh _]. congruence.
  - unfold get_node. rewrite lookup_insert_eq.
    eexists. split; [reflexivity |]. split; reflexivity.
Qed.

End Listing.

(** ** Events delivered twice *)

Section Replay.
Import TrustEngine Models TrustUpdate Main Api System Ledger EventListener.
Local Open Scope R_scope.

Lemma rescore_written_row (db : table) (h : string) (n : NodeRecord) :
  update_node_trust (<[h := n]> db) h
  = Returned (<[h := rescored n]> db)
      (trust_score (rescored n), trust_tier (rescored n)).
Proof.
  rewrite (update_node_trust_rescored _ h n (lookup_insert_eq _ _ _)).
  rewrite insert_insert_eq. reflexivity.
Qed.

Lemma process_node_verified_known (ev : event) (db : table) (node : NodeRecord) :
  db !! hash_key (args_nodeHash ev) = Some node ->
  committed (fst (process_node_verified ev db))
  = <[hash_key (args_nodeHash ev) := rescored (set_verified true node)]> db.
Proof.
  intros Hlk. unfold process_node_verified. rewrite Hlk, rescore_written_row.
  reflexivity.
Qed.

Lemma process_stake_added_known (ev : event) (total : N) (db : table)
    (node : NodeRecord) :
  args_newTotal ev = Ok total ->
  db !! hash_key (args_nodeHash ev) = Some node ->
  committed (fst (process_stake_added ev db))
  = <[hash_key (args_nodeHash ev) := rescored (set_stake_wei total node)]> db.
Proof.
  intros Ht Hlk. unfold process_stake_added.
  rewrite Ht, Hlk, rescore_written_row. reflexivity.
Qed.

Lemma process_stake_withdrawn_known (chain : result Contract) (ev : event)
    (db : table) (node : NodeRecord) :
  db !! hash_key (args_nodeHash ev) = Some node ->
  committed (fst (process_stake_withdrawn chain ev db))
  = <[hash_key (args_nodeHash ev) :=
        rescored
          match (contract <- chain ;;; getNode contract (args_nodeHash ev)) with
          | Ok on_chain => set_stake_wei (oc_stake on_chain) node
          | Raise _ => node
          end]> db.
Proof.
  intros Hlk. unfold process_stake_withdrawn. rewrite Hlk.
  destruct (contract <- chain ;;; getNode contract (args_nodeHash ev))
    as [on_chain | e]; cbn [fst snd].
  - rewrite rescore_written_row. reflexivity.
  - rewrite (update_node_trust_rescored db _ node Hlk). reflexivity.
Qed.

(** X22. Each of the five event handlers is idempotent: the same event
    delivered twice leaves the table that one delivery leaves. *)
Theorem event_replay_is_harmless (ev : event) (chain : result Contract)
    (db : table) :
  perform (OnRegistered ev) (perform (OnRegistered ev) db)
  = perform (OnRegistered ev) db
  /\ perform (OnVerified ev) (perform (OnVerified ev) db)
     = perform (OnVerified ev) db
  /\ perform (OnStakeAdded ev) (perform (OnStakeAdded ev) db)
     = perform (OnStakeAdded ev) db
  /\ perform (OnStakeWithdrawn chain ev) (perform (OnStakeWithdrawn chain ev) db)
     = perform (OnStakeWithdrawn chain ev) db
  /\ perform (OnDeregistered ev) (perform (OnDeregistered ev) db)
     = perform (OnDeregistered ev) db.
Proof.
  cbn [perform]. repeat split.
  - (* Registered *)
    destruct (args_registration ev) as [[[w d] t] | e] eqn:Hargs.
    2: { assert (Hfirst : process_node_registered ev db = (Raised db e, [])).
         { unfold process_node_registered. rewrite Hargs. reflexivity. }
         rewrite Hfirst. cbn [fst committed]. rewrite Hfirst. reflexivity. }
    destruct (utcfromtimestamp t) as [t' | e] eqn:Htime.
    2: { assert (Hfirst : process_node_registered ev db = (Raised db e, [])).
         { unfold process_node_registered. rewrite Hargs, Htime. reflexivity. }
         rewrite Hfirst. cbn [fst committed]. rewrite Hfirst. reflexivity. }
    destruct (db !! hash_key (args_nodeHash ev)) eqn:Hlk.
    { assert (Hfirst : committed (fst (process_node_registered ev db)) = db).
      { unfold process_node_registered. rewrite Hargs, Htime, Hlk. reflexivity. }
      rewrite Hfirst. exact Hfirst. }
    set (fresh := mkNodeRecord (hash_key (args_nodeHash ev)) "" None (Some w)
                    (Some d) false 0%N (Some t') 0 0 0 0%N 0%N UNVERIFIED None
                    None true).
    destruct (unique_violation db fresh) eqn:Hv.
    + assert (Hfirst : committed (fst (process_node_registered ev db)) = db).
      { unfold process_node_registered, insert_row. rewrite Hargs, Htime, Hlk.
        cbn [node_hash]. rewrite Hlk. fold fresh. rewrite Hv. reflexivity. }
      rewrite Hfirst. exact Hfirst.
    + assert (Hfirst : committed (fst (process_node_registered ev db))
                       = <[hash_key (args_nodeHash ev) := fresh]> db).
      { unfold process_node_registered, insert_row. rewrite Hargs, Htime, Hlk.
        cbn [node_hash]. rewrite Hlk. fold fresh. rewrite Hv. reflexivity. }
      rewrite Hfirst.
      unfold process_node_registered. rewrite Hargs, Htime, lookup_insert_eq.
      reflexivity.
  - (* Verified *)
    destruct (db !! hash_key (args_nodeHash ev)) as [node |] eqn:Hlk.
    + rewrite (process_node_verified_known ev db node Hlk).
      rewrite (process_node_verified_known ev _ _ (lookup_insert_eq _ _ _)).
      rewrite insert_insert_eq. reflexivity.
    + unfold process_node_verified. rewrite Hlk. cbn [fst committed].
      rewrite Hlk. reflexivity.
  - (* StakeAdded *)
    destruct (args_newTotal ev) as [total | e] eqn:Hargs.
    2: { unfold process_stake_added. rewrite Hargs. reflexivity. }
    destruct (db !! hash_key (args_nodeHash ev)) as [node |] eqn:Hlk.
    + rewrite (process_stake_added_known ev total db node Hargs Hlk).
      rewrite (process_stake_added_known ev total _ _ Hargs (lookup_insert_eq _ _ _)).
      rewrite insert_insert_eq. reflexivity.
    + unfold process_stake_added. rewrite Hargs, Hlk. cbn [fst committed].
      rewrite Hlk. reflexivity.
  - (* StakeWithdrawn *)
    destruct (db !! hash_key (args_nodeHash ev)) as [node |] eqn:Hlk.
    + rewrite (process_stake_withdrawn_known chain ev db node Hlk).
      rewrite (process_stake_withdrawn_known chain ev _ _ (lookup_insert_eq _ _ _)).
      rewrite insert_insert_eq.
      destruct (contract <- chain ;;; getNode contract (args_nodeHash ev));
        reflexivity.
    + unfold process_stake_withdrawn. rewrite Hlk. cbn [fst committed].
      rewrite Hlk. reflexivity.
  - (* Deregistered *)
    unfold process_node_deregistered.
    destruct (db !! hash_key (args_nodeHash ev)) as [node |] eqn:Hlk;
      cbn [fst committed].
    + rewrite lookup_insert_eq. cbn [fst committed].
      rewrite insert_insert_eq. reflexivity.
    + rewrite Hlk. reflexivity.
Qed.

End Replay.

(** ** One iteration of the polling loop *)

Section Polling.
Import TrustEngine Models TrustUpdate Main Api System Ledger EventListener.
Local Open Scope R_scope.

(** X23. Every range an iteration fetches starts at the loop's [from_block],
    ends two blocks behind the head, and spans at least two blocks; the
    next iteration starts one block after its end when every [get_logs]
    call returned, and at the same block when one raised. *)
Theorem fetched_range_of_iteration (obs : observation) (st : listener)
    (db : table) (name : string) (lo hi : Z) :
  In (name, lo, hi) (b_fetched (snd (iteration obs st db))) ->
  lo = from_block st
  /\ block_number obs = Ok (hi + CONFIRMATIONS)%Z
  /\ (lo < hi)%Z
  /\ from_block (fst (iteration obs st db))
     = match b_escaped (snd (iteration obs st db)) with
       | None => (hi + 1)%Z
       | Some _ => lo
       end.
Proof.
  unfold iteration.
  destruct (block_number obs) as [head | e]; [| intros []].
  destruct (head - CONFIRMATIONS <=? from_block st)%Z eqn:Hcmp; [intros [] |].
  apply Z.leb_gt in Hcmp.
  destruct (b_escaped (poll_events _ _ _ _ _ _)) eqn:Hesc;
    cbn [fst snd b_fetched b_escaped from_block]; intros Hin;
    apply poll_events_fetched in Hin; destruct Hin as [-> ->];
    (split; [reflexivity |]); (split; [f_equal; lia |]);
    (split; [lia |]); try rewrite Hesc; reflexivity.
Qed.

(** X24. When the head cannot be read, or is not more than two blocks ahead
    of [from_block], an iteration fetches nothing and leaves the table and
    the listener as they were. *)
Theorem idle_iteration_changes_nothing (obs : observation) (st : listener)
    (db : table) :
  (forall head : Z,
     block_number obs = Ok head -> (head - CONFIRMATIONS <= from_block st)%Z) ->
  fst (iteration obs st db) = st
  /\ b_db (snd (iteration obs st db)) = db
  /\ b_fetched (snd (iteration obs st db)) = [].
Proof.
  intros Hidle. unfold iteration.
  destruct (block_number obs) as [head | e].
  - replace (head - CONFIRMATIONS <=? from_block st)%Z with true
      by (symmetry; apply Z.leb_le; apply Hidle; reflexivity).
    repeat split; reflexivity.
  - repeat split; reflexivity.
Qed.




End Polling.

(** ** Resolution against the ledger and the table *)

Section ResolverMore.
Import TrustEngine Models Ledger DnsResolver EventListener.
Local Open Scope R_scope.

(** X26. The key ["0x" + hex] decodes back to the ledger's hash, so two
    hashes never share a key. *)
Theorem hash_key_decodes (a b : list byte) :
  Bytes.fromhex (Bytes.drop2 (hash_key a)) = Ok a
  /\ (hash_key a = hash_key b -> a = b).
Proof.
  assert (Hdec : forall bs, Bytes.fromhex (Bytes.drop2 (hash_key bs)) = Ok bs).
  { intros bs. unfold hash_key. rewrite drop2_prefix. apply fromhex_hex. }
  split; [apply Hdec |].
  intros Heq. pose proof (Hdec a) as Ha. rewrite Heq, Hdec in Ha.
  congruence.
Qed.

Lemma resolve_on_chain_some (self : BizNodeDNSResolver) (name key : string) :
  resolve_on_chain self name = Some key ->
  exists (c : Contract) (bs : list byte),
    _get_contract self = Ok c /\ resolveDNS c name = Ok bs
    /\ bs <> Bytes.zero32 /\ key = hash_key bs.
Proof.
  unfold resolve_on_chain.
  destruct (_get_contract self) as [c | e] eqn:Hc; cbn [bind]; [| discriminate].
  destruct (resolveDNS c name) as [bs | e] eqn:Hr; [| discriminate].
  destruct (Bytes.eqb bs Bytes.zero32) eqn:Hz; [discriminate |].
  intros [= <-]. exists c, bs. apply eqb_false in Hz.
  repeat split; try reflexivity; assumption.
Qed.

(** X27. Whatever [resolve] returns is for a name the ledger maps to a
    non-zero hash, carries that hash and that name, and carries no public
    key. *)
Theorem resolved_record_comes_from_ledger (self : BizNodeDNSResolver)
    (name : string) (record : DNSRecord) :
  resolve self name = Some record ->
  exists (c : Contract) (bs : list byte),
    _get_contract self = Ok c
    /\ resolveDNS c name = Ok bs
    /\ bs <> Bytes.zero32
    /\ DnsResolver.node_hash record = hash_key bs
    /\ DnsResolver.dns_name record = name
    /\ DnsResolver.public_key record = None.
Proof.
  unfold resolve.
  destruct (resolve_on_chain self name) as [key |] eqn:Hon; [| discriminate].
  destruct (resolve_on_chain_some self name key Hon) as (c & bs & Hc & Hr & Hnz & ->).
  intros Hres. exists c, bs.
  split; [exact Hc |]. split; [exact Hr |]. split; [exact Hnz |].
  destruct (resolve_off_chain self (hash_key bs)) as [meta |].
  - injection Hres as <-. repeat split; reflexivity.
  - destruct (contract <- _get_contract self ;;;
              node_hash_bytes <- Bytes.fromhex (Bytes.drop2 (hash_key bs)) ;;;
              getNode contract node_hash_bytes); [| discriminate].
    injection Hres as <-. repeat split; reflexivity.
Qed.

(** X28. When the off-chain row exists, [resolve] returns the row's wallet,
    address, score, tier and flags, whatever the view call [getNode] would
    answer. *)
Theorem off_chain_row_is_preferred (self : BizNodeDNSResolver) (name : string)
    (c : Contract) (bs : list byte) (db : table) (row : NodeRecord) :
  _get_contract self = Ok c -> resolveDNS c name = Ok bs ->
  bs <> Bytes.zero32 ->
  _db self = Some db -> db !! hash_key bs = Some row ->
  resolve self name
  = Some (mkDNSRecord name (hash_key bs) (Models.wallet row) None
            (Models.ip_address row) (Models.trust_score row)
            (Models.trust_tier row) (Models.verified row) (Models.active row)).
Proof.
  intros Hc Hr Hnz Hdb Hlk. unfold resolve.
  rewrite (resolve_on_chain_found self name c bs Hc Hr Hnz).
  unfold resolve_off_chain. rewrite Hdb. fold (hash_key bs). rewrite Hlk.
  reflexivity.
Qed.

(** X29. After the listener has replayed a registration with a timestamp of
    the years 1 to 9999, the reverse lookup of the hash gives the registered
    name, and the name resolves to the event's wallet with score 0,
    unverified. *)
Theorem replayed_registration_resolves (self : BizNodeDNSResolver)
    (c : Contract) (h : list byte) (w d : string) (t : Z) (db : table) :
  (MIN_TIMESTAMP <= t <= MAX_TIMESTAMP)%Z ->
  db !! hash_key h = None ->
  unique_in db (mkNodeRecord (hash_key h) "" None (Some w) (Some d) false 0%N
                  (Some t) 0 0 0 0%N 0%N UNVERIFIED None None true) ->
  _db self = Some (committed (fst (process_node_registered (NodeRegistered h w d t) db))) ->
  _get_contract self = Ok c -> resolveDNS c d = Ok h -> h <> Bytes.zero32 ->
  reverse_lookup self (hash_key h) = Some d
  /\ resolve self d
     = Some (mkDNSRecord d (hash_key h) (Some w) None None 0 UNVERIFIED false true).
Proof.
  intros Ht Hlk Hu Hdb Hc Hr Hnz.
  rewrite (process_node_registered_fresh h w d t db Ht Hlk Hu) in Hdb.
  cbn [fst committed] in Hdb. split.
  - unfold reverse_lookup. rewrite Hdb, lookup_insert_eq. reflexivity.
  - unfold resolve.
    rewrite (resolve_on_chain_found self d c h Hc Hr Hnz).
    unfold resolve_off_chain. rewrite Hdb. fold (hash_key h).
    rewrite lookup_insert_eq. reflexivity.
Qed.

End ResolverMore.

(** ** The statements above at given inputs *)

Section Instances.
Import TrustEngine DnsResolver Models TrustUpdate Main Api System Tiers Ledger
  EventListener.
Local Open Scope R_scope.

Lemma table_wf_singleton (h : string) (r : NodeRecord) :
  Models.node_hash r = h -> table_wf {[ h := r ]}.
Proof.
  intros Hh k x Hlk. apply lookup_singleton_Some in Hlk. destruct Hlk as [<- <-].
  split; [exact Hh |]. apply unique_in_singleton. exact Hh.
Qed.

Lemma scan_of_singleton (h : string) (r : NodeRecord) : scan_of {[ h := r ]} [r].
Proof.
  intros x. split.
  - intros [<- | []]. exists h. apply lookup_singleton_eq.
  - intros [k Hk]. apply lookup_singleton_Some in Hk. destruct Hk as [_ <-].
    left. reflexivity.
Qed.

Lemma new_node_consistent (req : NodeRegisterRequest) (now : Z) :
  consistent (new_node req now).
Proof.
  unfold consistent. rewrite compute_trust_score_of_row.
  assert (G : guarded_spec_score (inputs_of (new_node req now)) = 0).
  { unfold guarded_spec_score, guarded_stake, guarded_complaints, spec_score,
      clamp, inputs_of.
    cbn [new_node Models.stake_wei Models.uptime_score Models.ai_quality_score
         Models.endorsement_count Models.complaint_count Models.verified
         TrustEngine.stake_matic TrustEngine.uptime_ratio
         TrustEngine.ai_quality_score TrustEngine.endorsement_count
         TrustEngine.complaint_count TrustEngine.total_interactions
         TrustEngine.verified Z.of_N Z.add Z.max Z.compare Z.ltb].
    rewrite stake_matic_of_0.
    rewrite (Rmax_left 0 0) by lra.
    rewrite ln_1_plus_0, !Rdiv_0_l.
    eval_minmax. lra. }
  rewrite G. unfold round2. rewrite (round_half_even_near 0) by lra.
  unfold _score_to_tier. rewrite !Rgeb_false by lra. cbn.
  f_equal. f_equal. lra.
Qed.

Lemma resolve_without_row (self : BizNodeDNSResolver) (name : string)
    (c : Contract) (bs : list byte) (on_chain : OnChainNode) :
  _get_contract self = Ok c -> resolveDNS c name = Ok bs ->
  bs <> Bytes.zero32 -> _db self = None -> getNode c bs = Ok on_chain ->
  resolve self name
  = Some (mkDNSRecord name (hash_key bs) (Some (oc_wallet on_chain)) None None 0
            (if oc_verified on_chain then VERIFIED else UNVERIFIED)
            (oc_verified on_chain) (oc_active on_chain)).
Proof.
  intros Hc Hr Hnz Hdb Hg. unfold resolve.
  rewrite (resolve_on_chain_found self name c bs Hc Hr Hnz).
  unfold resolve_off_chain. rewrite Hdb, Hc. cbn [bind].
  rewrite drop2_prefix, fromhex_hex. cbn [bind]. rewrite Hg. reflexivity.
Qed.

Lemma compute_trust_score_domain_witness :
  let i := mkTrustInputs 500 1 1 3 1 4 true in
  ints_convert i
  /\ ((TrustEngine.endorsement_count i < 0)%Z
      <-> compute_trust_score i = Raise ValueError)
  /\ ((0 <= TrustEngine.endorsement_count i)%Z
      <-> exists (s : R) (t : tier), compute_trust_score i = Ok (s, t)).
Proof.
  intros i.
  assert (Hc : ints_convert i) by (apply ints_convert_int64; simpl; lia).
  split; [exact Hc |].
  apply (compute_trust_score_domain i Hc).
Defined.

Lemma score_monotone_in_signals_witness :
  let i1 := mkTrustInputs 100 (1 / 2) (1 / 2) 1 0 1 true in
  let i2 := mkTrustInputs 200 1 1 5 0 1 true in
  ints_convert i1 /\ ints_convert i2
  /\ stake_matic i1 <= stake_matic i2
  /\ (0 <= TrustEngine.endorsement_count i1 <= TrustEngine.endorsement_count i2)%Z
  /\ exists (s1 s2 : R) (t1 t2 : tier),
       compute_trust_score i1 = Ok (s1, t1)
       /\ compute_trust_score i2 = Ok (s2, t2)
       /\ s1 <= s2
       /\ (rank t1 <= rank t2)%nat.
Proof.
  intros i1 i2.
  assert (H1 : ints_convert i1) by (apply ints_convert_int64; simpl; lia).
  assert (H2 : ints_convert i2) by (apply ints_convert_int64; simpl; lia).
  split; [exact H1 |]. split; [exact H2 |].
  split; [cbn; lra |]. split; [cbn; lia |].
  apply (score_monotone_in_signals i1 i2 H1 H2);
    cbn; try lra; try lia; reflexivity.
Defined.

Lemma score_antitone_in_complaints_witness :
  let i1 := mkTrustInputs 0 1 0 0 1 4 false in
  let i2 := mkTrustInputs 0 1 0 0 3 4 false in
  ints_convert i1 /\ ints_convert i2
  /\ (TrustEngine.complaint_count i1 <= TrustEngine.complaint_count i2)%Z
  /\ exists (s1 s2 : R) (t1 t2 : tier),
       compute_trust_score i1 = Ok (s1, t1)
       /\ compute_trust_score i2 = Ok (s2, t2)
       /\ s2 <= s1
       /\ (rank t2 <= rank t1)%nat.
Proof.
  intros i1 i2.
  assert (H1 : ints_convert i1) by (apply ints_convert_int64; simpl; lia).
  assert (H2 : ints_convert i2) by (apply ints_convert_int64; simpl; lia).
  split; [exact H1 |]. split; [exact H2 |].
  split; [cbn; lia |].
  apply (score_antitone_in_complaints i1 i2 H1 H2); cbn; try lia; reflexivity.
Defined.

Lemma verification_adds_at_most_ten_witness :
  (0 <= 3)%Z
  /\ ints_convert (mkTrustInputs 500 1 1 3 1 4 false)
  /\ exists (n0 n1 : Z) (t0 t1 : tier),
       compute_trust_score (mkTrustInputs 500 1 1 3 1 4 false)
       = Ok (IZR n0 / 100, t0)
       /\ compute_trust_score (mkTrustInputs 500 1 1 3 1 4 true)
          = Ok (IZR n1 / 100, t1)
       /\ (n0 <= n1 <= n0 + 1001)%Z
       /\ (rank t0 <= rank t1)%nat.
Proof.
  assert (Hc : ints_convert (mkTrustInputs 500 1 1 3 1 4 false)).
  { apply ints_convert_int64; simpl; lia. }
  split; [lia |]. split; [exact Hc |].
  apply (verification_adds_at_most_ten 500 1 1 3 1 4); [lia | exact Hc].
Defined.

Lemma returned_score_within_band_witness :
  compute_trust_score (mkTrustInputs 0 0 0 0 0 1 true) = Ok (10, UNVERIFIED)
  /\ (0 <= 10 <= 70 /\ (true = true -> 10 <= 40)).
Proof.
  split.
  - apply score_of_verification_alone.
  - apply (returned_score_within_band (mkTrustInputs 0 0 0 0 0 1 true) 10 UNVERIFIED).
    apply score_of_verification_alone.
Defined.

Lemma heartbeats_raise_uptime_to_one_witness :
  let node0 :=
    new_node (mkNodeRegisterRequest "0x01" "node-1" None None None None) 0 in
  ({[ "0x01" := node0 ]} : table) !! "0x01" = Some node0
  /\ exists node' : NodeRecord,
       heartbeats [(None, 1%Z); (Some "10.0.0.1", 2%Z)] "0x01" {[ "0x01" := node0 ]}
         !! "0x01" = Some node'
       /\ uptime_score node'
          = Rmin 1 (uptime_score node0
                    + INR (length [(None : option string, 1%Z); (Some "10.0.0.1", 2%Z)]) / 100)
       /\ uptime_score node' <= 1
       /\ trust_score node' = trust_score node0
       /\ trust_tier node' = trust_tier node0.
Proof.
  intros node0. split; [apply lookup_singleton_eq |].
  apply (heartbeats_raise_uptime_to_one
           [(None, 1%Z); (Some "10.0.0.1", 2%Z)] "0x01" {[ "0x01" := node0 ]} node0).
  - apply lookup_singleton_eq.
  - discriminate.
Defined.

Lemma endorsement_never_lowers_complaint_never_raises_witness :
  let node0 :=
    new_node (mkNodeRegisterRequest "0x01" "node-1" None None None None) 0 in
  consistent node0
  /\ ((exists up : NodeRecord,
         committed (endorse_node "0x01" {[ "0x01" := node0 ]}) !! "0x01" = Some up
         /\ trust_score node0 <= trust_score up
         /\ (rank (trust_tier node0) <= rank (trust_tier up))%nat)
      /\ (exists down : NodeRecord,
            committed (complain_node "0x01" {[ "0x01" := node0 ]}) !! "0x01" = Some down
            /\ trust_score down <= trust_score node0
            /\ (rank (trust_tier down) <= rank (trust_tier node0))%nat)).
Proof.
  intros node0. split; [apply new_node_consistent |].
  apply (endorsement_never_lowers_complaint_never_raises "0x01" {[ "0x01" := node0 ]} node0).
  - apply lookup_singleton_eq.
  - apply new_node_consistent.
Defined.

Lemma registered_node_is_served_witness :
  let req :=
    mkNodeRegisterRequest "0x01" "node-1" (Some "PEM") (Some "0xA11CE")
      (Some "alice.1bz") (Some "10.0.0.1") in
  (∅ : table) !! req_node_hash req = None
  /\ register_node req 7 ∅ = Returned (<["0x01" := new_node req 7]> ∅) registered
  /\ get_node "0x01" (committed (register_node req 7 ∅))
     = Ok (mkNodeResponse "0x01" "node-1" (Some "0xA11CE") (Some "alice.1bz")
             false 0 UNVERIFIED (Some "10.0.0.1") (Some 7%Z) true).
Proof.
  intros req. split; [apply lookup_empty |].
  apply (registered_node_is_served req 7 ∅).
  - apply lookup_empty.
  - apply unique_in_empty.
Defined.

Lemma registering_again_only_refreshes_last_seen_witness :
  let req :=
    mkNodeRegisterRequest "0x01" "node-1" (Some "PEM") (Some "0xA11CE")
      (Some "alice.1bz") (Some "10.0.0.1") in
  (∅ : table) !! req_node_hash req = None
  /\ register_node req 9 (committed (register_node req 7 ∅))
     = Returned (<["0x01" := set_last_seen (Some 9%Z) (new_node req 7)]> ∅) updated.
Proof.
  intros req. split; [apply lookup_empty |].
  apply (registering_again_only_refreshes_last_seen req 7 9 ∅).
  - apply lookup_empty.
  - apply unique_in_empty.
Defined.

Lemma consecutive_pages_concatenate_witness :
  let row :=
    new_node (mkNodeRegisterRequest "0x01" "node-1" None None None None) 0 in
  (0 <= 0)%Z /\ (1 <= 1)%Z /\ (1 <= 2)%Z /\ (1 + 2 <= 200)%Z
  /\ exists p1 p2 : list NodeDict,
       list_nodes 0 1 false [row; row; row] = Ok p1
       /\ list_nodes (0 + 1) 2 false [row; row; row] = Ok p2
       /\ list_nodes 0 (1 + 2) false [row; row; row] = Ok (p1 ++ p2).
Proof.
  intros row. repeat (split; [lia |]).
  apply (consecutive_pages_concatenate 0 1 2 false [row; row; row]); lia.
Defined.

Lemma verify_entity_by_name_witness :
  let row :=
    new_node (mkNodeRegisterRequest "0x01" "node-1" None None (Some "alice.1bz") None) 0 in
  table_wf {[ "0x01" := row ]}
  /\ scan_of {[ "0x01" := row ]} [row]
  /\ verify_entity "ghost.1bz" [row] = (UNVERIFIED, None)
  /\ verify_entity "alice.1bz" [row] = (trust_tier row, Some (trust_score row)).
Proof.
  intros row.
  split; [apply table_wf_singleton; reflexivity |].
  split; [apply scan_of_singleton |].
  split.
  - destruct (verify_entity_by_name "ghost.1bz" {[ "0x01" := row ]} [row] "0x01" row)
      as [Hnone _].
    + apply table_wf_singleton. reflexivity.
    + apply scan_of_singleton.
    + apply Hnone. intros k x Hk.
      apply lookup_singleton_Some in Hk. destruct Hk as [_ <-].
      split; discriminate.
  - destruct (verify_entity_by_name "alice.1bz" {[ "0x01" := row ]} [row] "0x01" row)
      as [_ Hsome].
    + apply table_wf_singleton. reflexivity.
    + apply scan_of_singleton.
    + apply Hsome.
      * apply lookup_singleton_eq.
      * reflexivity.
      * intros k x Hk. apply lookup_singleton_Some in Hk. destruct Hk as [_ <-].
        discriminate.
Defined.

Lemma deregistered_node_leaves_the_listing_witness :
  let key := hash_key (repeat x01 32) in
  let node :=
    mkNodeRecord key "" None (Some "0xA11CE") (Some "alice.1bz") false 0%N
      (Some 17%Z) 0 0 0 0%N 0%N UNVERIFIED None None true in
  let ev := NodeDeregistered (repeat x01 32) in
  let gone := set_active false node in
  table_wf {[ key := node ]}
  /\ list_nodes 0 50 false [gone] = Ok []
  /\ (forall d : NodeDict, In d [] -> d_node_hash d <> key)
  /\ exists resp : NodeResponse,
       get_node key (committed (fst (process_node_deregistered ev {[ key := node ]})))
       = Ok resp
       /\ r_active resp = false
       /\ r_trust_score resp = Models.trust_score node.
Proof.
  intros key node ev gone.
  assert (Hwf : table_wf {[ key := node ]})
    by (apply table_wf_singleton; reflexivity).
  split; [exact Hwf |]. split; [reflexivity |].
  apply (deregistered_node_leaves_the_listing ev {[ key := node ]} [gone] node
           0 50 false []).
  - exact Hwf.
  - apply lookup_singleton_eq.
  - unfold process_node_deregistered. cbn [args_nodeHash ev]. fold key.
    rewrite lookup_singleton_eq. cbn [fst committed].
    rewrite insert_singleton_eq. apply scan_of_singleton.
  - reflexivity.
Defined.

Lemma call_touches_one_row_witness :
  let a :=
    new_node (mkNodeRegisterRequest "0x01" "node-1" None None None None) 0 in
  let b :=
    new_node (mkNodeRegisterRequest "0x02" "node-2" None None None None) 0 in
  let db : table := <["0x02" := b]> {[ "0x01" := a ]} in
  table_wf db /\ "0x02" <> target (CallEndorse "0x01")
  /\ perform (CallEndorse "0x01") db !! "0x02" = db !! "0x02".
Proof.
  intros a b db.
  assert (Hwf : table_wf db).
  { apply table_wf_insert.
    - apply table_wf_singleton. reflexivity.
    - reflexivity.
    - intros k x Hk Hne. apply lookup_singleton_Some in Hk.
      destruct Hk as [_ <-]. split; [discriminate | reflexivity]. }
  split; [exact Hwf |]. split; [discriminate |].
  apply (call_touches_one_row (CallEndorse "0x01") db "0x02").
  - exact Hwf.
  - discriminate.
Defined.

Lemma rows_stay_and_keep_ledger_columns_witness :
  let key := hash_key (repeat x01 32) in
  let node :=
    mkNodeRecord key "" None (Some "0xA11CE") (Some "alice.1bz") false 0%N
      (Some 17%Z) 0 0 0 0%N 0%N UNVERIFIED None None true in
  let ops :=
    [CallRegister (mkNodeRegisterRequest key "node-1" None (Some "0xB0B")
                     (Some "bob.1bz") None) 20;
     OnDeregistered (NodeDeregistered (repeat x01 32))] in
  table_wf {[ key := node ]}
  /\ ({[ key := node ]} : table) !! key = Some node
  /\ exists r' : NodeRecord,
       perform_all ops {[ key := node ]} !! key = Some r'
       /\ Models.node_hash r' = Models.node_hash node
       /\ Models.wallet r' = Models.wallet node
       /\ Models.dns_name r' = Models.dns_name node
       /\ registered_at r' = registered_at node.
Proof.
  intros key node ops.
  assert (Hwf : table_wf {[ key := node ]})
    by (apply table_wf_singleton; reflexivity).
  split; [exact Hwf |]. split; [apply lookup_singleton_eq |].
  apply (rows_stay_and_keep_ledger_columns ops {[ key := node ]} key node).
  - exact Hwf.
  - apply lookup_singleton_eq.
Defined.

Lemma counters_and_flags_one_way_witness :
  let node :=
    new_node (mkNodeRegisterRequest "0x01" "node-1" None None None None) 0 in
  let ops := [CallEndorse "0x01"; CallComplain "0x01"; CallRescore "0x01"] in
  table_wf {[ "0x01" := node ]}
  /\ ({[ "0x01" := node ]} : table) !! "0x01" = Some node
  /\ exists r' : NodeRecord,
       perform_all ops {[ "0x01" := node ]} !! "0x01" = Some r'
       /\ (Models.endorsement_count node <= Models.endorsement_count r')%N
       /\ (Models.complaint_count node <= Models.complaint_count r')%N
       /\ (Models.verified node = true -> Models.verified r' = true)
       /\ (active node = false -> active r' = false).
Proof.
  intros node ops.
  assert (Hwf : table_wf {[ "0x01" := node ]})
    by (apply table_wf_singleton; reflexivity).
  split; [exact Hwf |]. split; [apply lookup_singleton_eq |].
  apply (counters_and_flags_one_way ops {[ "0x01" := node ]} "0x01" node).
  - exact Hwf.
  - apply lookup_singleton_eq.
Defined.

Lemma fetched_range_of_iteration_witness :
  let quiet :=
    mkContract (fun _ => Raise ConnectionError) (fun _ => Raise ConnectionError)
      (fun _ => Some (fun _ _ => Ok [])) in
  let obs := mkObservation (Ok 17%Z) quiet (Ok quiet) in
  let st := mkListener 10 (Some 10%Z) in
  In ("NodeVerified", 10%Z, 15%Z) (b_fetched (snd (iteration obs st ∅)))
  /\ (10%Z = from_block st
      /\ block_number obs = Ok (15 + CONFIRMATIONS)%Z
      /\ (10 < 15)%Z
      /\ from_block (fst (iteration obs st ∅))
         = match b_escaped (snd (iteration obs st ∅)) with
           | None => (15 + 1)%Z
           | Some _ => 10%Z
           end).
Proof.
  intros quiet obs st.
  assert (Hin : In ("NodeVerified", 10%Z, 15%Z) (b_fetched (snd (iteration obs st ∅)))).
  { right. left. reflexivity. }
  split; [exact Hin |].
  apply (fetched_range_of_iteration obs st ∅ "NodeVerified" 10 15 Hin).
Defined.

Lemma idle_iteration_changes_nothing_witness :
  let quiet :=
    mkContract (fun _ => Raise ConnectionError) (fun _ => Raise ConnectionError)
      (fun _ => Some (fun _ _ => Ok [])) in
  let obs := mkObservation (Ok 12%Z) quiet (Ok quiet) in
  let st := mkListener 10 (Some 10%Z) in
  block_number obs = Ok 12%Z /\ (12 - CONFIRMATIONS <= from_block st)%Z
  /\ fst (iteration obs st ∅) = st
  /\ b_db (snd (iteration obs st ∅)) = ∅
  /\ b_fetched (snd (iteration obs st ∅)) = [].
Proof.
  intros quiet obs st.
  split; [reflexivity |]. split; [unfold CONFIRMATIONS, st; cbn; lia |].
  apply (idle_iteration_changes_nothing obs st ∅).
  intros head Hhead. injection Hhead as <-. unfold CONFIRMATIONS, st; cbn; lia.
Defined.


Lemma resolved_record_comes_from_ledger_witness :
  let ledger :=
    mkContract
      (fun name => if String.eqb name "known.alias" then Ok (repeat x01 32)
                   else Ok Bytes.zero32)
      (fun _ => Ok (mkOnChainNode "0xA11CE" true 0 true))
      (fun _ => None) in
  let self := mkResolver None (Ok ledger) in
  let record :=
    mkDNSRecord "known.alias" (hash_key (repeat x01 32)) (Some "0xA11CE") None
      None 0 VERIFIED true true in
  resolve self "known.alias" = Some record
  /\ exists (c : Contract) (bs : list byte),
       _get_contract self = Ok c
       /\ resolveDNS c "known.alias" = Ok bs
       /\ bs <> Bytes.zero32
       /\ DnsResolver.node_hash record = hash_key bs
       /\ DnsResolver.dns_name record = "known.alias"
       /\ DnsResolver.public_key record = None.
Proof.
  intros ledger self record.
  assert (Hres : resolve self "known.alias" = Some record).
  { apply (resolve_without_row self "known.alias" ledger (repeat x01 32)
             (mkOnChainNode "0xA11CE" true 0 true));
      first [reflexivity | discriminate]. }
  split; [exact Hres |].
  apply (resolved_record_comes_from_ledger self "known.alias" record Hres).
Defined.

Lemma off_chain_row_is_preferred_witness :
  let key := hash_key (repeat x01 32) in
  let row :=
    mkNodeRecord key "node-1" (Some "PEM") (Some "0xA11CE") (Some "known.alias")
      true 0%N (Some 17%Z) 10 0 0 0%N 0%N UNVERIFIED (Some "10.0.0.1") None true in
  let ledger :=
    mkContract (fun _ => Ok (repeat x01 32)) (fun _ => Raise ConnectionError)
      (fun _ => None) in
  let self := mkResolver (Some {[ key := row ]}) (Ok ledger) in
  _db self = Some {[ key := row ]}
  /\ resolve self "known.alias"
     = Some (mkDNSRecord "known.alias" key (Some "0xA11CE") None (Some "10.0.0.1")
               10 UNVERIFIED true true).
Proof.
  intros key row ledger self. split; [reflexivity |].
  apply (off_chain_row_is_preferred self "known.alias" ledger (repeat x01 32)
           {[ key := row ]} row);
    first [reflexivity | discriminate | apply lookup_singleton_eq].
Defined.

Lemma replayed_registration_resolves_witness :
  let h := repeat x01 32 in
  let ledger :=
    mkContract (fun _ => Ok h) (fun _ => Raise ConnectionError) (fun _ => None) in
  let self :=
    mkResolver
      (Some (committed (fst (process_node_registered
                               (NodeRegistered h "0xA11CE" "alice.1bz" 1700000000)
                               ∅))))
      (Ok ledger) in
  (MIN_TIMESTAMP <= 1700000000 <= MAX_TIMESTAMP)%Z
  /\ (∅ : table) !! hash_key h = None
  /\ reverse_lookup self (hash_key h) = Some "alice.1bz"
  /\ resolve self "alice.1bz"
     = Some (mkDNSRecord "alice.1bz" (hash_key h) (Some "0xA11CE") None None 0
               UNVERIFIED false true).
Proof.
  intros h ledger self.
  split; [unfold MIN_TIMESTAMP, MAX_TIMESTAMP; lia |].
  split; [apply lookup_empty |].
  apply (replayed_registration_resolves self ledger h "0xA11CE" "alice.1bz"
           1700000000 ∅);
    first [reflexivity | apply unique_in_empty | discriminate
          | unfold MIN_TIMESTAMP, MAX_TIMESTAMP; lia].
Defined.

End Instances.
